(** * ezdxf: the graphics factory [CreatorInterface] (ezdxf/graphicsfactory2.py)

    A shallow embedding of the entity factory.  Every [add_*] method of the
    class is a computation over an explicit world: the store of Python
    dictionaries (so that aliasing between the caller's [dxfattribs] and the
    dictionary a method works on is visible) and the trace of the calls made
    to collaborators that live outside this module (the entity database, the
    entity classes, the block table, the dimension and arrow renderers).
    Exceptions leave the world as it is at the point of the [raise].
    Collaborators are opaque: a call to one is recorded, returns a new
    object, and may store into the dictionaries it is handed. *)

From Stdlib Require Import ZArith String Ascii Floats List Lia.
From stdpp Require Import base option list gmap strings.

Set Warnings "-register-all".
Local Open Scope string_scope.
Local Open Scope list_scope.

(** ** Python values *)

(** [ezdxf.math.Vector]: three float components. *)
Record Vec := mkVec { vx : float; vy : float; vz : float }.

Definition handle := nat.
Definition loc := nat.

(** The values that reach the factory.  [VObj] is a reference to an object of
    a collaborator (an entity, a style override, a definition object). *)
Inductive value :=
| VNone
| VBool (b : bool)
| VInt (z : Z)
| VFloat (f : float)
| VStr (s : string)
| VTuple (items : list value)
| VList (items : list value)
| VVector (v : Vec)
| VObj (h : handle).

(** Arguments typed [float] in the source receive an [int] or a [float]. *)
Inductive number :=
| NInt (z : Z)
| NFloat (f : float).

Definition number_value (n : number) : value :=
  match n with NInt z => VInt z | NFloat f => VFloat f end.

(** A [dict] with string keys: the DXF attribute sets. *)
Abbreviation attrs := (gmap string value).

Inductive exn :=
| DXFValueError (msg : string)
| DXFVersionError (msg : string)
| KeyError (key : string)
| TypeError (msg : string)
| ValueError (msg : string)
| OverflowError (msg : string)
| AttributeError (msg : string)
| ZeroDivisionError (msg : string).

Inductive outcome (A : Type) :=
| Raised (e : exn)
| Returned (a : A).
Arguments Raised {A} e.
Arguments Returned {A} a.

(** ** The world *)

(** An argument of a call to a collaborator: a value, or a dictionary passed
    by reference (recorded with its contents at the time of the call). *)
Inductive arg :=
| AVal (v : value)
| ADict (l : loc) (contents : attrs).

Inductive event :=
| EvCreateDbEntry (type_ : string) (dxfattribs : attrs) (h : handle)
| EvAddEntity (space : string) (h : handle)
| EvCall (callee : string) (receiver : value) (args : list arg) (result : value)
| EvSetAttr (obj : value) (name : string) (v : value)
| EvSetItem (obj : value) (index : nat) (v : value).

Record world := mkWorld {
  heap : list attrs;      (* the dictionaries, by address *)
  objects : nat;          (* collaborator objects allocated so far *)
  trace : list event      (* calls to collaborators, oldest first *)
}.

Definition M (A : Type) : Type := world -> world * outcome A.

Definition ret {A} (a : A) : M A := fun w => (w, Returned a).
Definition raise {A} (e : exn) : M A := fun w => (w, Raised e).
Definition bind {A B} (m : M A) (k : A -> M B) : M B :=
  fun w => match m w with
           | (w', Returned a) => k a w'
           | (w', Raised e) => (w', Raised e)
           end.

Notation "'let!' x ':=' m 'in' k" := (bind m (fun x => k))
  (at level 10, x pattern, m at level 100, k at level 200).
Notation "m ';;;' k" := (bind m (fun _ => k))
  (at level 100, k at level 200, right associativity).

Definition lift {A} (r : outcome A) : M A := fun w => (w, r).

(** [for x in xs: body x] *)
Fixpoint for_each {A} (xs : list A) (body : A -> M unit) : M unit :=
  match xs with
  | [] => ret tt
  | x :: rest => body x ;;; for_each rest body
  end.

(** [enumerate(xs)] *)
Fixpoint enumerate_from {A} (i : nat) (xs : list A) : list (nat * A) :=
  match xs with
  | [] => []
  | x :: rest => (i, x) :: enumerate_from (S i) rest
  end.
Definition enumerate {A} (xs : list A) : list (nat * A) := enumerate_from 0 xs.

(** *** Dictionaries in the store *)

Definition deref (l : loc) (w : world) : attrs := default ∅ (heap w !! l).

Definition set_heap (h : list attrs) (w : world) : world :=
  {| heap := h; objects := objects w; trace := trace w |}.

(** A new dictionary object with the given contents. *)
Definition dict_new (contents : attrs) : M loc :=
  fun w => (set_heap (heap w ++ [contents]) w, Returned (length (heap w))).

(** [dict(dxfattribs or {})]: a new dictionary holding the items of the
    argument; [None] and the empty dictionary both give an empty one. *)
Definition dict_copy_or_empty (dxfattribs : option loc) : M loc :=
  fun w => dict_new (match dxfattribs with
                     | Some l => deref l w
                     | None => ∅
                     end) w.

(** [d[key] = v] *)
Definition dict_set (d : loc) (key : string) (v : value) : M unit :=
  fun w => (set_heap (<[d := <[key := v]> (deref d w)]> (heap w)) w, Returned tt).

(** [d.get(key, dflt)] *)
Definition dict_get (d : loc) (key : string) (dflt : value) : M value :=
  fun w => (w, Returned (default dflt (deref d w !! key))).

(** [d.pop(key, dflt)] *)
Definition dict_pop_default (d : loc) (key : string) (dflt : value) : M value :=
  fun w => (set_heap (<[d := delete key (deref d w)]> (heap w)) w,
            Returned (default dflt (deref d w !! key))).

(** [d.pop(key)] *)
Definition dict_pop (d : loc) (key : string) : M value :=
  fun w => match deref d w !! key with
           | Some v => (set_heap (<[d := delete key (deref d w)]> (heap w)) w, Returned v)
           | None => (w, Raised (KeyError key))
           end.

(** [d.setdefault(key, v)] *)
Definition dict_setdefault (d : loc) (key : string) (v : value) : M unit :=
  fun w => match deref d w !! key with
           | Some _ => (w, Returned tt)
           | None => dict_set d key v w
           end.

(** *** The trace *)

Definition emit (e : event) : M unit :=
  fun w => ({| heap := heap w; objects := objects w; trace := trace w ++ [e] |}, Returned tt).

Definition new_object : M handle :=
  fun w => ({| heap := heap w; objects := S (objects w); trace := trace w |},
            Returned (objects w)).

(** ** Builtins *)

(** [float(n)]: an [int] is rounded to the nearest double, and is refused
    when it is out of the range of doubles. *)
Definition py_float (n : number) : outcome float :=
  match n with
  | NFloat f => Returned f
  | NInt z =>
      match binary_normalize prec emax z 0 false with
      | S754_infinity _ => Raised (OverflowError "int too large to convert to float")
      | s => Returned (SF2Prim s)
      end
  end.

(** [n > 1.]: an [int] is compared exactly, a [float] as a double (a NaN is
    not greater than anything). *)
Definition gt_one (n : number) : bool :=
  match n with
  | NInt z => (1 <? z)%Z
  | NFloat f => PrimFloat.ltb 1%float f
  end.

(** [v | bit] for an [int] [bit]: defined on [int] and [bool]. *)
Definition py_or (v : value) (bit : Z) : outcome value :=
  match v with
  | VInt z => Returned (VInt (Z.lor z bit))
  | VBool b => Returned (VInt (Z.lor (if b then 1 else 0) bit))
  | _ => Raised (TypeError "unsupported operand type(s) for |")
  end.

(** [values.get(tag, dflt)] on a dictionary with string keys. *)
Definition py_get (values : attrs) (key : value) (dflt : value) : outcome value :=
  match key with
  | VStr s => Returned (default dflt (values !! s))
  | VList _ => Raised (TypeError "unhashable type: 'list'")
  | _ => Returned dflt
  end.

(** [list(v)] *)
Definition py_list (v : value) : outcome value :=
  match v with
  | VTuple items | VList items => Returned (VList items)
  | VVector v => Returned (VList [VFloat (vx v); VFloat (vy v); VFloat (vz v)])
  | VStr s => Returned (VList (map (fun c => VStr (String c EmptyString)) (list_ascii_of_string s)))
  | VObj h => Returned (VObj h)      (* an iterable of a collaborator: left as it is *)
  | _ => Raised (TypeError "object is not iterable")
  end.

(** [a / b] with a [float] divisor. *)
Definition py_truediv (a : number) (b : float) : outcome float :=
  match py_float a with
  | Raised e => Raised e
  | Returned a' =>
      if PrimFloat.eqb b 0%float then Raised (ZeroDivisionError "float division by zero")
      else Returned (PrimFloat.div a' b)
  end.

(** ** Collaborators *)

(** What this module imports and does not define.  The constants of
    [ezdxf.lldxf.const], the operations of [ezdxf.math.Vector], and the
    behaviour of the objects the factory talks to are parameters of the
    model: nothing below depends on their values unless a statement says so. *)
Class Externals := {
  (* ezdxf.lldxf.const *)
  DXF2000 : string;
  DXF2007 : string;
  POLYLINE_3D_POLYLINE : Z;
  POLYLINE_3D_POLYMESH : Z;
  POLYLINE_POLYFACE : Z;
  DIM_LINEAR : Z;
  DIM_ANGULAR : Z;
  DIM_DIAMETER : Z;
  DIM_RADIUS : Z;
  DIM_ANGULAR_3P : Z;
  DIM_ORDINATE : Z;
  DIM_BLOCK_EXCLUSIVE : Z;
  (* ezdxf.math.Vector: the constructor applied to its arguments, [a - b],
     [v.angle_deg], [v.orthogonal()] and [v.normalize(length)] *)
  Vector : list value -> outcome Vec;
  vec_sub : Vec -> Vec -> Vec;
  angle_deg : Vec -> float;
  orthogonal : Vec -> Vec;
  normalize : Vec -> number -> outcome Vec;
  (* math.cos, math.sin, math.radians, math.pi and round(x, 6) *)
  math_cos : float -> float;
  math_sin : float -> float;
  math_radians : float -> float;
  math_pi : float;
  round6 : float -> float;
  (* reading an attribute of a collaborator's object *)
  getattr : value -> string -> value;
  (* what a collaborator stores into a dictionary it is handed *)
  writes : string -> attrs -> attrs
}.

(** The document behind a layout: [doc.dxfversion], and for every block of
    [doc.blocks] the attribute sets [attdef.dxfattribs()] of its attribute
    definitions, in the order of [blockdef.attdefs()]. *)
Record Drawing := {
  dxfversion : string;
  blocks : gmap string (list attrs)
}.

Record CreatorInterface := {
  doc : Drawing;
  space : string        (* the entity space [add_entity] appends to *)
}.

Section Factory.
Context {E : Externals}.

(** Modelled from the spec: the collaborators of section 6 (entity classes,
    block table, style override and arrow renderers; none of them is under
    src/).  A call [receiver.callee(args)] (or [callee(args)]) is recorded
    with the dictionaries as they are at the call and returns a new object;
    the collaborator may store into the dictionaries it got.

    The model follows the runs in which the collaborator returns.  An error
    raised inside a collaborator is not caught by any method (section 7): the
    method ends at that call with that error, and what a statement says about
    the events after a call is said of the runs that get there. *)
Definition collaborator_writes (callee : string) (a : value + loc) : M unit :=
  match a with
  | inl _ => ret tt
  | inr d => fun w => (set_heap (<[d := writes callee (deref d w)]> (heap w)) w, Returned tt)
  end.

Definition record_arg (a : value + loc) (w : world) : arg :=
  match a with
  | inl v => AVal v
  | inr d => ADict d (deref d w)
  end.

Definition emit_call (callee : string) (receiver : value) (args : list (value + loc))
    (result : value) : M unit :=
  fun w => emit (EvCall callee receiver (map (fun a => record_arg a w) args) result) w.

Definition call (callee : string) (receiver : value) (args : list (value + loc)) : M value :=
  let! h := new_object in
  emit_call callee receiver args (VObj h) ;;;
  for_each args (collaborator_writes callee) ;;;
  ret (VObj h).

Definition call_ (callee : string) (receiver : value) (args : list (value + loc)) : M unit :=
  call callee receiver args ;;; ret tt.

(** Modelled from the spec: the entity creation collaborator,
    [create(entity_kind, attributes) -> EntityHandle], which allocates a
    unique handle: [self.dxffactory.create_db_entry(type_, dxfattribs)].
    As for [call], the run followed is the one in which the handle is
    returned; an error of the collaborator ends the method there. *)
Definition emit_create (type_ : string) (dxfattribs : loc) (h : handle) : M unit :=
  fun w => emit (EvCreateDbEntry type_ (deref dxfattribs w) h) w.

Definition create_db_entry (type_ : string) (dxfattribs : loc) : M value :=
  let! h := new_object in
  emit_create type_ dxfattribs h ;;;
  collaborator_writes "create_db_entry" (inr dxfattribs) ;;;
  ret (VObj h).

(** [self.add_entity(entity)] *)
Definition add_entity (self : CreatorInterface) (entity : value) : M unit :=
  match entity with
  | VObj h => emit (EvAddEntity (space self) h)
  | _ => ret tt
  end.

Definition new_entity (self : CreatorInterface) (type_ : string) (dxfattribs : loc) : M value :=
  let! entity := create_db_entry type_ dxfattribs in
  add_entity self entity ;;;
  ret entity.

Definition add_point (self : CreatorInterface) (location : value) (dxfattribs : option loc) : M value :=
  let! dxfattribs := dict_copy_or_empty dxfattribs in
  dict_set dxfattribs "location" location ;;;
  new_entity self "POINT" dxfattribs.

Definition add_line (self : CreatorInterface) (start end_ : value) (dxfattribs : option loc) : M value :=
  let! dxfattribs := dict_copy_or_empty dxfattribs in
  dict_set dxfattribs "start" start ;;;
  dict_set dxfattribs "end" end_ ;;;
  new_entity self "LINE" dxfattribs.

Definition add_circle (self : CreatorInterface) (center radius : value) (dxfattribs : option loc) : M value :=
  let! dxfattribs := dict_copy_or_empty dxfattribs in
  dict_set dxfattribs "center" center ;;;
  dict_set dxfattribs "radius" radius ;;;
  new_entity self "CIRCLE" dxfattribs.

Definition add_ellipse (self : CreatorInterface) (center major_axis : value) (ratio : number)
    (start_param end_param : value) (dxfattribs : option loc) : M value :=
  if String.ltb (dxfversion (doc self)) "AC1015" then
    raise (DXFVersionError "ELLIPSE requires DXF version R2000+")
  else if gt_one ratio then
    raise (DXFValueError "Parameter 'ratio' has to be <= 1.0")
  else
    let! dxfattribs := dict_copy_or_empty dxfattribs in
    dict_set dxfattribs "center" center ;;;
    dict_set dxfattribs "major_axis" major_axis ;;;
    dict_set dxfattribs "ratio" (number_value ratio) ;;;
    dict_set dxfattribs "start_param" start_param ;;;
    dict_set dxfattribs "end_param" end_param ;;;
    new_entity self "ELLIPSE" dxfattribs.

Definition add_arc (self : CreatorInterface) (center radius start_angle end_angle : value)
    (is_counter_clockwise : bool) (dxfattribs : option loc) : M value :=
  let! dxfattribs := dict_copy_or_empty dxfattribs in
  dict_set dxfattribs "center" center ;;;
  dict_set dxfattribs "radius" radius ;;;
  (if is_counter_clockwise then
     dict_set dxfattribs "start_angle" start_angle ;;;
     dict_set dxfattribs "end_angle" end_angle
   else
     dict_set dxfattribs "start_angle" end_angle ;;;
     dict_set dxfattribs "end_angle" start_angle) ;;;
  new_entity self "ARC" dxfattribs.

(** The generator [_four_points], by what iterating it gives: the exception
    is raised when the first item is asked for, before anything is yielded. *)
Definition _four_points (points : list value) : outcome (list value) :=
  let vertices := points in
  if negb (Nat.eqb (length vertices) 3 || Nat.eqb (length vertices) 4) then
    Raised (DXFValueError "3 or 4 points required.")
  else
    Returned (vertices ++ (if Nat.eqb (length vertices) 3
                           then match last vertices with Some v => [v] | None => [] end
                           else [])).

Definition _add_quadrilateral (self : CreatorInterface) (type_ : string) (points : list value)
    (dxfattribs : option loc) : M value :=
  let! dxfattribs := dict_copy_or_empty dxfattribs in
  let! entity := new_entity self type_ dxfattribs in
  let! four := lift (_four_points points) in
  for_each (enumerate four) (fun '(x, point) => emit (EvSetItem entity x point)) ;;;
  ret entity.

Definition add_solid (self : CreatorInterface) (points : list value) (dxfattribs : option loc) : M value :=
  _add_quadrilateral self "SOLID" points dxfattribs.

Definition add_trace (self : CreatorInterface) (points : list value) (dxfattribs : option loc) : M value :=
  _add_quadrilateral self "TRACE" points dxfattribs.

Definition add_3dface (self : CreatorInterface) (points : list value) (dxfattribs : option loc) : M value :=
  _add_quadrilateral self "3DFACE" points dxfattribs.

Definition add_text (self : CreatorInterface) (text : value) (dxfattribs : option loc) : M value :=
  let! dxfattribs := dict_copy_or_empty dxfattribs in
  dict_set dxfattribs "text" text ;;;
  let! origin := lift (Vector []) in
  dict_setdefault dxfattribs "insert" (VVector origin) ;;;
  new_entity self "TEXT" dxfattribs.

Definition add_blockref (self : CreatorInterface) (name insert : value) (dxfattribs : option loc) : M value :=
  let! dxfattribs := dict_copy_or_empty dxfattribs in
  dict_set dxfattribs "name" name ;;;
  dict_set dxfattribs "insert" insert ;;;
  let! blockref := new_entity self "INSERT" dxfattribs in
  ret blockref.

(** The three local functions of [add_auto_blockref].  [attdef] stands for
    the attribute set [attdef.dxfattribs()] returns, a new dictionary at every
    call. *)
Definition get_dxfattribs (attdef : attrs) : M loc :=
  let! dxfattribs := dict_new attdef in
  dict_pop_default dxfattribs "prompt" VNone ;;;
  dict_pop_default dxfattribs "handle" VNone ;;;
  ret dxfattribs.

Definition unpack (values : attrs) (dxfattribs : loc) : M (value * value * value) :=
  let! tag := dict_pop dxfattribs "tag" in
  let! text := lift (py_get values tag (VStr "")) in
  let! insert := dict_pop dxfattribs "insert" in
  ret (tag, text, insert).

Definition autofill (values : attrs) (blockref : value) (blockdef : list attrs) : M unit :=
  for_each blockdef (fun attdef =>
    let! dxfattribs := get_dxfattribs attdef in
    let! unpacked := unpack values dxfattribs in
    let '(tag, text, insert) := unpacked in
    call_ "add_attrib" blockref [inl tag; inl text; inl insert; inr dxfattribs]).

Definition add_auto_blockref (self : CreatorInterface) (name : string) (insert : value)
    (values : attrs) (dxfattribs : option loc) : M value :=
  let! dxfattribs := dict_copy_or_empty dxfattribs in
  let! autoblock := call "new_anonymous_block" (VStr "doc.blocks") [] in
  let! blockref := call "add_blockref" autoblock [inl (VStr name); inl (VTuple [VInt 0; VInt 0])] in
  let! blockdef := match blocks (doc self) !! name with
                   | Some attdefs => ret attdefs
                   | None => raise (KeyError name)
                   end in
  autofill values blockref blockdef ;;;
  add_blockref self (getattr autoblock "name") insert (Some dxfattribs).

Definition add_attrib (self : CreatorInterface) (tag text insert : value) (dxfattribs : option loc) : M value :=
  let! dxfattribs := dict_copy_or_empty dxfattribs in
  dict_set dxfattribs "tag" tag ;;;
  dict_set dxfattribs "text" text ;;;
  dict_set dxfattribs "insert" insert ;;;
  new_entity self "ATTRIB" dxfattribs.

Definition add_polyline2d (self : CreatorInterface) (points : value) (dxfattribs : option loc) : M value :=
  let! dxfattribs := dict_copy_or_empty dxfattribs in
  let! closed := dict_pop_default dxfattribs "closed" (VBool false) in
  let! polyline := new_entity self "POLYLINE" dxfattribs in
  call_ "close" polyline [inl closed] ;;;
  call_ "append_vertices" polyline [inl points] ;;;
  ret polyline.

Definition add_polyline3d (self : CreatorInterface) (points : value) (dxfattribs : option loc) : M value :=
  let! dxfattribs := dict_copy_or_empty dxfattribs in
  let! flags := dict_get dxfattribs "flags" (VInt 0) in
  let! flags := lift (py_or flags POLYLINE_3D_POLYLINE) in
  dict_set dxfattribs "flags" flags ;;;
  add_polyline2d self points (Some dxfattribs).

Definition add_polymesh (self : CreatorInterface) (size : Z * Z) (dxfattribs : option loc) : M value :=
  let! dxfattribs := dict_copy_or_empty dxfattribs in
  let! flags := dict_get dxfattribs "flags" (VInt 0) in
  let! flags := lift (py_or flags POLYLINE_3D_POLYMESH) in
  dict_set dxfattribs "flags" flags ;;;
  let m_size := Z.max (fst size) 2 in
  let n_size := Z.max (snd size) 2 in
  dict_set dxfattribs "m_count" (VInt m_size) ;;;
  dict_set dxfattribs "n_count" (VInt n_size) ;;;
  let! m_close := dict_pop_default dxfattribs "m_close" (VBool false) in
  let! n_close := dict_pop_default dxfattribs "n_close" (VBool false) in
  let! polymesh := new_entity self "POLYLINE" dxfattribs in
  let points := repeat (VTuple [VInt 0; VInt 0; VInt 0]) (Z.to_nat (m_size * n_size)) in
  call_ "append_vertices" polymesh [inl (VList points)] ;;;
  call_ "close" polymesh [inl m_close; inl n_close] ;;;
  call "cast" polymesh [].

Definition add_polyface (self : CreatorInterface) (dxfattribs : option loc) : M value :=
  let! dxfattribs := dict_copy_or_empty dxfattribs in
  let! flags := dict_get dxfattribs "flags" (VInt 0) in
  let! flags := lift (py_or flags POLYLINE_POLYFACE) in
  dict_set dxfattribs "flags" flags ;;;
  let! m_close := dict_pop_default dxfattribs "m_close" (VBool false) in
  let! n_close := dict_pop_default dxfattribs "n_close" (VBool false) in
  let! polyface := new_entity self "POLYLINE" dxfattribs in
  call_ "close" polyface [inl m_close; inl n_close] ;;;
  call "cast" polyface [].

Definition add_shape (self : CreatorInterface) (name insert size : value) (dxfattribs : option loc) : M value :=
  let! dxfattribs := dict_copy_or_empty dxfattribs in
  dict_set dxfattribs "name" name ;;;
  dict_set dxfattribs "insert" insert ;;;
  dict_set dxfattribs "size" size ;;;
  new_entity self "SHAPE" dxfattribs.

(** *** New entities in DXF AC1015 (R2000) *)

Definition add_lwpolyline (self : CreatorInterface) (points format : value) (dxfattribs : option loc) : M value :=
  if String.ltb (dxfversion (doc self)) DXF2000 then
    raise (DXFVersionError "LWPOLYLINE requires DXF version R2000+")
  else
    let! dxfattribs := dict_copy_or_empty dxfattribs in
    let! closed := dict_pop_default dxfattribs "closed" (VBool false) in
    let! lwpolyline := new_entity self "LWPOLYLINE" dxfattribs in
    call_ "set_points" lwpolyline [inl points; inl format] ;;;
    emit (EvSetAttr lwpolyline "closed" closed) ;;;
    ret lwpolyline.

Definition add_mtext (self : CreatorInterface) (text : value) (dxfattribs : option loc) : M value :=
  if String.ltb (dxfversion (doc self)) DXF2000 then
    raise (DXFVersionError "MTEXT requires DXF version R2000+")
  else
    let! dxfattribs := dict_copy_or_empty dxfattribs in
    let! mtext := new_entity self "MTEXT" dxfattribs in
    emit (EvSetAttr mtext "text" text) ;;;
    ret mtext.

Definition add_ray (self : CreatorInterface) (start unit_vector : value) (dxfattribs : option loc) : M value :=
  if String.ltb (dxfversion (doc self)) DXF2000 then
    raise (DXFVersionError "RAY requires DXF version R2000+")
  else
    let! dxfattribs := dict_copy_or_empty dxfattribs in
    dict_set dxfattribs "start" start ;;;
    dict_set dxfattribs "unit_vector" unit_vector ;;;
    new_entity self "RAY" dxfattribs.

Definition add_xline (self : CreatorInterface) (start unit_vector : value) (dxfattribs : option loc) : M value :=
  if String.ltb (dxfversion (doc self)) DXF2000 then
    raise (DXFVersionError "XLINE requires DXF version R2000+")
  else
    let! dxfattribs := dict_copy_or_empty dxfattribs in
    dict_set dxfattribs "start" start ;;;
    dict_set dxfattribs "unit_vector" unit_vector ;;;
    new_entity self "XLINE" dxfattribs.

Definition add_spline (self : CreatorInterface) (fit_points degree : value) (dxfattribs : option loc) : M value :=
  if String.ltb (dxfversion (doc self)) DXF2000 then
    raise (DXFVersionError "SPLINE requires DXF version R2000+")
  else
    let! dxfattribs := dict_copy_or_empty dxfattribs in
    dict_set dxfattribs "degree" degree ;;;
    let! spline := new_entity self "SPLINE" dxfattribs in
    match fit_points with
    | VNone => ret tt
    | _ => emit (EvSetAttr spline "fit_points" fit_points)
    end ;;;
    ret spline.

(** [spline.knots = knots] when [knots] is not [None]. *)
Definition set_knots (spline knots : value) : M unit :=
  match knots with
  | VNone => ret tt
  | _ => emit (EvSetAttr spline "knots" knots)
  end.

Definition add_open_spline (self : CreatorInterface) (control_points degree knots : value)
    (dxfattribs : option loc) : M value :=
  let! spline := add_spline self VNone (VInt 3) dxfattribs in
  let! points := lift (py_list control_points) in
  call_ "set_open_uniform" spline [inl points; inl degree] ;;;
  set_knots spline knots ;;;
  ret spline.

Definition add_spline_control_frame (self : CreatorInterface) (fit_points degree method power : value)
    (dxfattribs : option loc) : M value :=
  let! bspline := call "bspline_control_frame" VNone
                    [inl fit_points; inl degree; inl method; inl power] in
  let control_points := getattr bspline "control_points" in
  let degree := getattr bspline "degree" in
  let! knots := call "knot_values" bspline [] in
  add_open_spline self control_points degree knots dxfattribs.

Definition add_spline_approx (self : CreatorInterface) (fit_points count degree method power : value)
    (dxfattribs : option loc) : M value :=
  let! bspline := call "bspline_control_frame_approx" VNone
                    [inl fit_points; inl count; inl degree; inl method; inl power] in
  add_open_spline self (getattr bspline "control_points") (getattr bspline "degree") VNone dxfattribs.

Definition add_closed_spline (self : CreatorInterface) (control_points degree knots : value)
    (dxfattribs : option loc) : M value :=
  let! spline := add_spline self VNone (VInt 3) dxfattribs in
  let! points := lift (py_list control_points) in
  call_ "set_periodic" spline [inl points; inl degree] ;;;
  set_knots spline knots ;;;
  ret spline.

Definition add_rational_spline (self : CreatorInterface) (control_points weights degree knots : value)
    (dxfattribs : option loc) : M value :=
  let! spline := add_spline self VNone (VInt 3) dxfattribs in
  let! points := lift (py_list control_points) in
  call_ "set_open_rational" spline [inl points; inl weights; inl degree] ;;;
  set_knots spline knots ;;;
  ret spline.

Definition add_closed_rational_spline (self : CreatorInterface) (control_points weights degree knots : value)
    (dxfattribs : option loc) : M value :=
  let! spline := add_spline self VNone (VInt 3) dxfattribs in
  let! points := lift (py_list control_points) in
  call_ "set_periodic_rational" spline [inl points; inl weights; inl degree] ;;;
  set_knots spline knots ;;;
  ret spline.

Definition _add_acis_entiy (self : CreatorInterface) (name : string) (acis_data : value)
    (dxfattribs : option loc) : M value :=
  if String.ltb (dxfversion (doc self)) DXF2000 then
    raise (DXFVersionError (String.append name " requires DXF version R2000+"))
  else
    let! dxfattribs := dict_copy_or_empty dxfattribs in
    let! entity := new_entity self name dxfattribs in
    match acis_data with
    | VNone => ret tt
    | _ => call_ "set_acis_data" entity [inl acis_data]
    end ;;;
    ret entity.

Definition add_body (self : CreatorInterface) (acis_data : value) (dxfattribs : option loc) : M value :=
  _add_acis_entiy self "BODY" acis_data dxfattribs.

Definition add_region (self : CreatorInterface) (acis_data : value) (dxfattribs : option loc) : M value :=
  _add_acis_entiy self "REGION" acis_data dxfattribs.

Definition add_3dsolid (self : CreatorInterface) (acis_data : value) (dxfattribs : option loc) : M value :=
  _add_acis_entiy self "3DSOLID" acis_data dxfattribs.

Definition add_surface (self : CreatorInterface) (acis_data : value) (dxfattribs : option loc) : M value :=
  if String.ltb (dxfversion (doc self)) DXF2007 then
    raise (DXFVersionError "SURFACE requires DXF version R2007+")
  else _add_acis_entiy self "SURFACE" acis_data dxfattribs.

Definition add_extruded_surface (self : CreatorInterface) (acis_data : value) (dxfattribs : option loc) : M value :=
  if String.ltb (dxfversion (doc self)) DXF2007 then
    raise (DXFVersionError "EXTRUDEDSURFACE requires DXF version R2007+")
  else _add_acis_entiy self "EXTRUDEDSURFACE" acis_data dxfattribs.

Definition add_lofted_surface (self : CreatorInterface) (acis_data : value) (dxfattribs : option loc) : M value :=
  if String.ltb (dxfversion (doc self)) DXF2007 then
    raise (DXFVersionError "LOFTEDSURFACE requires DXF version R2007+")
  else _add_acis_entiy self "LOFTEDSURFACE" acis_data dxfattribs.

Definition add_revolved_surface (self : CreatorInterface) (acis_data : value) (dxfattribs : option loc) : M value :=
  if String.ltb (dxfversion (doc self)) DXF2007 then
    raise (DXFVersionError "REVOLVEDSURFACE requires DXF version R2007+")
  else _add_acis_entiy self "REVOLVEDSURFACE" acis_data dxfattribs.

Definition add_swept_surface (self : CreatorInterface) (acis_data : value) (dxfattribs : option loc) : M value :=
  if String.ltb (dxfversion (doc self)) DXF2007 then
    raise (DXFVersionError "SWEPT requires DXF version R2007+")
  else _add_acis_entiy self "SWEPTSURFACE" acis_data dxfattribs.

Definition add_hatch (self : CreatorInterface) (color : value) (dxfattribs : option loc) : M value :=
  if String.ltb (dxfversion (doc self)) DXF2000 then
    raise (DXFVersionError "HATCH requires DXF version R2000+")
  else
    let! dxfattribs := dict_copy_or_empty dxfattribs in
    dict_set dxfattribs "solid_fill" (VInt 1) ;;;
    dict_set dxfattribs "color" color ;;;
    dict_set dxfattribs "pattern_name" (VStr "SOLID") ;;;
    new_entity self "HATCH" dxfattribs.

Definition add_mesh (self : CreatorInterface) (dxfattribs : option loc) : M value :=
  if String.ltb (dxfversion (doc self)) DXF2000 then
    raise (DXFVersionError "MESH requires DXF version R2000+")
  else
    let! dxfattribs := dict_copy_or_empty dxfattribs in
    new_entity self "MESH" dxfattribs.

(** [math.cos(x)] and [math.sin(x)]: an infinite [x] is refused with
    [ValueError], a NaN gives a NaN. *)
Definition math_call (f : float -> float) (x : float) : outcome float :=
  if PrimFloat.is_infinity x then Raised (ValueError "math domain error")
  else Returned (f x).

(** The local function [to_vector] of [add_image]. *)
Definition to_vector (units_per_pixel angle_in_rad : float) : outcome value :=
  match math_call math_cos angle_in_rad with
  | Raised e => Raised e
  | Returned cosine =>
      match math_call math_sin angle_in_rad with
      | Raised e => Raised e
      | Returned sine =>
          let x := PrimFloat.mul cosine units_per_pixel in
          let y := PrimFloat.mul sine units_per_pixel in
          Returned (VTuple [VFloat (round6 x); VFloat (round6 y); VInt 0])
      end
  end.

Definition add_image (self : CreatorInterface) (image_def insert : value) (size_in_units : number * number)
    (rotation : number) (dxfattribs : option loc) : M value :=
  if String.ltb (dxfversion (doc self)) DXF2000 then
    raise (DXFVersionError "IMAGE requires DXF version R2000+")
  else
    let! dxfattribs := dict_copy_or_empty dxfattribs in
    let! image_size := match getattr image_def "dxf.image_size" with
                       | VVector v => ret v
                       | _ => raise (AttributeError "vec2")
                       end in
    let x_pixels := vx image_size in
    let y_pixels := vy image_size in
    let '(x_units, y_units) := size_in_units in
    let! x_units_per_pixel := lift (py_truediv x_units x_pixels) in
    let! y_units_per_pixel := lift (py_truediv y_units y_pixels) in
    let! rotation := lift (py_float rotation) in
    let x_angle_rad := math_radians rotation in
    let y_angle_rad := PrimFloat.add x_angle_rad (PrimFloat.div math_pi 2%float) in
    let! insert := lift (Vector [insert]) in
    dict_set dxfattribs "insert" (VVector insert) ;;;
    let! u_pixel := lift (to_vector x_units_per_pixel x_angle_rad) in
    dict_set dxfattribs "u_pixel" u_pixel ;;;
    let! v_pixel := lift (to_vector y_units_per_pixel y_angle_rad) in
    dict_set dxfattribs "v_pixel" v_pixel ;;;
    dict_set dxfattribs "image_def_handle" (getattr image_def "dxf.handle") ;;;
    dict_set dxfattribs "image_size" (getattr image_def "dxf.image_size") ;;;
    let! image := new_entity self "IMAGE" dxfattribs in
    let! image_def_reactor := call "add_image_def_reactor" (VStr "doc.objects")
                                [inl (getattr image "dxf.handle")] in
    let reactor_handle := getattr image_def_reactor "dxf.handle" in
    emit (EvSetAttr image "dxf.image_def_reactor_handle" reactor_handle) ;;;
    call_ "append_reactor_handle" image_def [inl reactor_handle] ;;;
    ret image.

(** [underlay_def.entity_name] is a [str]. *)
Definition str_of (v : value) : string :=
  match v with VStr s => s | _ => "" end.

Definition add_underlay (self : CreatorInterface) (underlay_def insert scale rotation : value)
    (dxfattribs : option loc) : M value :=
  if String.ltb (dxfversion (doc self)) DXF2000 then
    raise (DXFVersionError "UNDERLAY requires DXF version R2000+")
  else
    let! dxfattribs := dict_copy_or_empty dxfattribs in
    dict_set dxfattribs "insert" insert ;;;
    dict_set dxfattribs "underlay_def_handle" (getattr underlay_def "dxf.handle") ;;;
    dict_set dxfattribs "rotation" rotation ;;;
    let! underlay := new_entity self (str_of (getattr underlay_def "entity_name")) dxfattribs in
    emit (EvSetAttr underlay "scaling" scale) ;;;
    call_ "append_reactor_handle" underlay_def [inl (getattr underlay "dxf.handle")] ;;;
    ret underlay.

(** *** Dimensions *)

(** A dictionary argument that may be [None]. *)
Definition dict_arg (d : option loc) : value + loc :=
  match d with Some l => inr l | None => inl VNone end.

(** The layout itself as an argument, by the name of its entity space. *)
Definition self_ref (self : CreatorInterface) : value := VStr (space self).

Definition add_linear_dim (self : CreatorInterface) (base p1 p2 : value) (location : option value)
    (text : value) (angle : number) (text_rotation : option number) (dimstyle : value)
    (override dxfattribs : option loc) : M value :=
  let! type_ := dict_new {[ "dimtype" := VInt (Z.lor DIM_LINEAR DIM_BLOCK_EXCLUSIVE) ]} in
  let! dimline := new_entity self "DIMENSION" type_ in
  let! dxfattribs := dict_copy_or_empty dxfattribs in
  dict_set dxfattribs "dimstyle" dimstyle ;;;
  let! defpoint := lift (Vector [base]) in
  dict_set dxfattribs "defpoint" (VVector defpoint) ;;;
  dict_set dxfattribs "text" text ;;;
  let! defpoint2 := lift (Vector [p1]) in
  dict_set dxfattribs "defpoint2" (VVector defpoint2) ;;;
  let! defpoint3 := lift (Vector [p2]) in
  dict_set dxfattribs "defpoint3" (VVector defpoint3) ;;;
  let! angle := lift (py_float angle) in
  dict_set dxfattribs "angle" (VFloat angle) ;;;
  (* text_rotation ALWAYS overrides implicit angles as absolute angle (0 is horizontal)! *)
  match text_rotation with
  | Some r =>
      let! r := lift (py_float r) in
      dict_set dxfattribs "text_rotation" (VFloat r)
  | None => ret tt
  end ;;;
  call_ "update_dxf_attribs" dimline [inr dxfattribs] ;;;
  let! style := call "DimStyleOverride" VNone [inl dimline; dict_arg override] in
  match location with
  | Some location => call_ "set_location" style [inl location; inl (VBool false); inl (VBool false)]
  | None => ret tt
  end ;;;
  ret style.

Definition add_multi_point_linear_dim (self : CreatorInterface) (base points angle ucs : value)
    (avoid_double_rendering : value) (dimstyle : value) (override dxfattribs : option loc)
    (discard : value) : M value :=
  call_ "multi_point_linear_dimension" VNone
    [inl (self_ref self); inl base; inl points; inl angle; inl ucs; inl avoid_double_rendering;
     inl dimstyle; dict_arg override; dict_arg dxfattribs; inl discard] ;;;
  ret VNone.

Definition add_aligned_dim (self : CreatorInterface) (p1 p2 : value) (distance : number)
    (text dimstyle : value) (override dxfattribs : option loc) : M value :=
  let! p1 := lift (Vector [p1]) in
  let! p2 := lift (Vector [p2]) in
  let direction := vec_sub p2 p1 in
  let angle := angle_deg direction in
  let! base := lift (normalize (orthogonal direction) distance) in
  add_linear_dim self (VVector base) (VVector p1) (VVector p2) None text (NFloat angle) None
    dimstyle override dxfattribs.

Definition add_angular_dim (self : CreatorInterface) (override dxfattribs : option loc) : M value :=
  let! type_ := dict_new {[ "dimtype" := VInt (Z.lor DIM_ANGULAR DIM_BLOCK_EXCLUSIVE) ]} in
  let! entity := new_entity self "DIMENSION" type_ in
  let! dimline := call "cast" entity [] in
  let! dxfattribs := dict_copy_or_empty dxfattribs in
  call_ "update_dxf_attribs" dimline [inr dxfattribs] ;;;
  let! style := call "DimStyleOverride" VNone [inl dimline; dict_arg override] in
  ret style.

Definition add_diameter_dim (self : CreatorInterface) (override dxfattribs : option loc) : M value :=
  let! type_ := dict_new {[ "dimtype" := VInt (Z.lor DIM_DIAMETER DIM_BLOCK_EXCLUSIVE) ]} in
  let! entity := new_entity self "DIMENSION" type_ in
  let! dimline := call "cast" entity [] in
  let! dxfattribs := dict_copy_or_empty dxfattribs in
  call_ "update_dxf_attribs" dimline [inr dxfattribs] ;;;
  let! style := call "DimStyleOverride" VNone [inl dimline; dict_arg override] in
  ret style.

Definition add_radius_dim (self : CreatorInterface) (override dxfattribs : option loc) : M value :=
  let! type_ := dict_new {[ "dimtype" := VInt (Z.lor DIM_RADIUS DIM_BLOCK_EXCLUSIVE) ]} in
  let! entity := new_entity self "DIMENSION" type_ in
  let! dimline := call "cast" entity [] in
  let! dxfattribs := dict_copy_or_empty dxfattribs in
  call_ "update_dxf_attribs" dimline [inr dxfattribs] ;;;
  let! style := call "DimStyleOverride" VNone [inl dimline; dict_arg override] in
  ret style.

Definition add_angular_3p_dim (self : CreatorInterface) (override dxfattribs : option loc) : M value :=
  let! type_ := dict_new {[ "dimtype" := VInt (Z.lor DIM_ANGULAR_3P DIM_BLOCK_EXCLUSIVE) ]} in
  let! entity := new_entity self "DIMENSION" type_ in
  let! dimline := call "cast" entity [] in
  let! dxfattribs := dict_copy_or_empty dxfattribs in
  call_ "update_dxf_attribs" dimline [inr dxfattribs] ;;;
  let! style := call "DimStyleOverride" VNone [inl dimline; dict_arg override] in
  ret style.

Definition add_ordinate_dim (self : CreatorInterface) (override dxfattribs : option loc) : M value :=
  let! type_ := dict_new {[ "dimtype" := VInt (Z.lor DIM_ORDINATE DIM_BLOCK_EXCLUSIVE) ]} in
  let! entity := new_entity self "DIMENSION" type_ in
  let! dimline := call "cast" entity [] in
  let! dxfattribs := dict_copy_or_empty dxfattribs in
  call_ "update_dxf_attribs" dimline [inr dxfattribs] ;;;
  let! style := call "DimStyleOverride" VNone [inl dimline; dict_arg override] in
  ret style.

(** *** Arrows: the caller's dictionary goes to the renderer as it is. *)

Definition add_arrow (self : CreatorInterface) (name insert size rotation : value)
    (dxfattribs : option loc) : M value :=
  call "ARROWS.render_arrow" (self_ref self)
    [inl name; inl insert; inl size; inl rotation; dict_arg dxfattribs].

Definition add_arrow_blockref (self : CreatorInterface) (name insert size rotation : value)
    (dxfattribs : option loc) : M value :=
  call "ARROWS.insert_arrow" (self_ref self)
    [inl name; inl insert; inl size; inl rotation; dict_arg dxfattribs].

End Factory.

(** ** Every method, as one request *)

(** A call of a method of the factory, without its [dxfattribs] argument. *)
Inductive request :=
| AddPoint (location : value)
| AddLine (start end_ : value)
| AddCircle (center radius : value)
| AddEllipse (center major_axis : value) (ratio : number) (start_param end_param : value)
| AddArc (center radius start_angle end_angle : value) (is_counter_clockwise : bool)
| AddSolid (points : list value)
| AddTrace (points : list value)
| Add3dface (points : list value)
| AddText (text : value)
| AddBlockref (name insert : value)
| AddAutoBlockref (name : string) (insert : value) (values : attrs)
| AddAttrib (tag text insert : value)
| AddPolyline2d (points : value)
| AddPolyline3d (points : value)
| AddPolymesh (size : Z * Z)
| AddPolyface
| AddShape (name insert size : value)
| AddLwpolyline (points format : value)
| AddMtext (text : value)
| AddRay (start unit_vector : value)
| AddXline (start unit_vector : value)
| AddSpline (fit_points degree : value)
| AddSplineControlFrame (fit_points degree method power : value)
| AddSplineApprox (fit_points count degree method power : value)
| AddOpenSpline (control_points degree knots : value)
| AddClosedSpline (control_points degree knots : value)
| AddRationalSpline (control_points weights degree knots : value)
| AddClosedRationalSpline (control_points weights degree knots : value)
| AddBody (acis_data : value)
| AddRegion (acis_data : value)
| Add3dsolid (acis_data : value)
| AddSurface (acis_data : value)
| AddExtrudedSurface (acis_data : value)
| AddLoftedSurface (acis_data : value)
| AddRevolvedSurface (acis_data : value)
| AddSweptSurface (acis_data : value)
| AddHatch (color : value)
| AddMesh
| AddImage (image_def insert : value) (size_in_units : number * number) (rotation : number)
| AddUnderlay (underlay_def insert scale rotation : value)
| AddLinearDim (base p1 p2 : value) (location : option value) (text : value) (angle : number)
    (text_rotation : option number) (dimstyle : value) (override : option loc)
| AddMultiPointLinearDim (base points angle ucs avoid_double_rendering dimstyle : value)
    (override : option loc) (discard : value)
| AddAlignedDim (p1 p2 : value) (distance : number) (text dimstyle : value) (override : option loc)
| AddAngularDim (override : option loc)
| AddDiameterDim (override : option loc)
| AddRadiusDim (override : option loc)
| AddAngular3pDim (override : option loc)
| AddOrdinateDim (override : option loc)
| AddArrow (name insert size rotation : value)
| AddArrowBlockref (name insert size rotation : value).

(** The three methods that hand the caller's [dxfattribs] to a renderer
    without making a dictionary of their own. *)
Definition forwards_dxfattribs (r : request) : bool :=
  match r with
  | AddMultiPointLinearDim _ _ _ _ _ _ _ _ | AddArrow _ _ _ _ | AddArrowBlockref _ _ _ _ => true
  | _ => false
  end.

(** The [override] dictionary of a dimension request. *)
Definition override_of (r : request) : option loc :=
  match r with
  | AddLinearDim _ _ _ _ _ _ _ _ override
  | AddMultiPointLinearDim _ _ _ _ _ _ override _
  | AddAlignedDim _ _ _ _ _ override
  | AddAngularDim override | AddDiameterDim override | AddRadiusDim override
  | AddAngular3pDim override | AddOrdinateDim override => override
  | _ => None
  end.

Section Perform.
Context {E : Externals}.

Definition perform (self : CreatorInterface) (r : request) (dxfattribs : option loc) : M value :=
  match r with
  | AddPoint location => add_point self location dxfattribs
  | AddLine start end_ => add_line self start end_ dxfattribs
  | AddCircle center radius => add_circle self center radius dxfattribs
  | AddEllipse center major_axis ratio start_param end_param =>
      add_ellipse self center major_axis ratio start_param end_param dxfattribs
  | AddArc center radius start_angle end_angle is_counter_clockwise =>
      add_arc self center radius start_angle end_angle is_counter_clockwise dxfattribs
  | AddSolid points => add_solid self points dxfattribs
  | AddTrace points => add_trace self points dxfattribs
  | Add3dface points => add_3dface self points dxfattribs
  | AddText text => add_text self text dxfattribs
  | AddBlockref name insert => add_blockref self name insert dxfattribs
  | AddAutoBlockref name insert values => add_auto_blockref self name insert values dxfattribs
  | AddAttrib tag text insert => add_attrib self tag text insert dxfattribs
  | AddPolyline2d points => add_polyline2d self points dxfattribs
  | AddPolyline3d points => add_polyline3d self points dxfattribs
  | AddPolymesh size => add_polymesh self size dxfattribs
  | AddPolyface => add_polyface self dxfattribs
  | AddShape name insert size => add_shape self name insert size dxfattribs
  | AddLwpolyline points format => add_lwpolyline self points format dxfattribs
  | AddMtext text => add_mtext self text dxfattribs
  | AddRay start unit_vector => add_ray self start unit_vector dxfattribs
  | AddXline start unit_vector => add_xline self start unit_vector dxfattribs
  | AddSpline fit_points degree => add_spline self fit_points degree dxfattribs
  | AddSplineControlFrame fit_points degree method power =>
      add_spline_control_frame self fit_points degree method power dxfattribs
  | AddSplineApprox fit_points count degree method power =>
      add_spline_approx self fit_points count degree method power dxfattribs
  | AddOpenSpline control_points degree knots =>
      add_open_spline self control_points degree knots dxfattribs
  | AddClosedSpline control_points degree knots =>
      add_closed_spline self control_points degree knots dxfattribs
  | AddRationalSpline control_points weights degree knots =>
      add_rational_spline self control_points weights degree knots dxfattribs
  | AddClosedRationalSpline control_points weights degree knots =>
      add_closed_rational_spline self control_points weights degree knots dxfattribs
  | AddBody acis_data => add_body self acis_data dxfattribs
  | AddRegion acis_data => add_region self acis_data dxfattribs
  | Add3dsolid acis_data => add_3dsolid self acis_data dxfattribs
  | AddSurface acis_data => add_surface self acis_data dxfattribs
  | AddExtrudedSurface acis_data => add_extruded_surface self acis_data dxfattribs
  | AddLoftedSurface acis_data => add_lofted_surface self acis_data dxfattribs
  | AddRevolvedSurface acis_data => add_revolved_surface self acis_data dxfattribs
  | AddSweptSurface acis_data => add_swept_surface self acis_data dxfattribs
  | AddHatch color => add_hatch self color dxfattribs
  | AddMesh => add_mesh self dxfattribs
  | AddImage image_def insert size_in_units rotation =>
      add_image self image_def insert size_in_units rotation dxfattribs
  | AddUnderlay underlay_def insert scale rotation =>
      add_underlay self underlay_def insert scale rotation dxfattribs
  | AddLinearDim base p1 p2 location text angle text_rotation dimstyle override =>
      add_linear_dim self base p1 p2 location text angle text_rotation dimstyle override dxfattribs
  | AddMultiPointLinearDim base points angle ucs avoid_double_rendering dimstyle override discard =>
      add_multi_point_linear_dim self base points angle ucs avoid_double_rendering dimstyle
        override dxfattribs discard
  | AddAlignedDim p1 p2 distance text dimstyle override =>
      add_aligned_dim self p1 p2 distance text dimstyle override dxfattribs
  | AddAngularDim override => add_angular_dim self override dxfattribs
  | AddDiameterDim override => add_diameter_dim self override dxfattribs
  | AddRadiusDim override => add_radius_dim self override dxfattribs
  | AddAngular3pDim override => add_angular_3p_dim self override dxfattribs
  | AddOrdinateDim override => add_ordinate_dim self override dxfattribs
  | AddArrow name insert size rotation => add_arrow self name insert size rotation dxfattribs
  | AddArrowBlockref name insert size rotation =>
      add_arrow_blockref self name insert size rotation dxfattribs
  end.

End Perform.

(** ** Reading the world after a call *)

(** The entities asked of the database, oldest first: kind and attribute set. *)
Definition created (t : list event) : list (string * attrs) :=
  omap (fun e => match e with
                 | EvCreateDbEntry type_ a _ => Some (type_, a)
                 | _ => None
                 end) t.

(** The attribute sets handed to [update_dxf_attribs], oldest first. *)
Definition updated (t : list event) : list attrs :=
  omap (fun e => match e with
                 | EvCall "update_dxf_attribs" _ [ADict _ a] _ => Some a
                 | _ => None
                 end) t.

(** The [add_attrib] calls made on block references, oldest first: tag,
    text, insert and the attribute set passed along. *)
Definition attribs_added (t : list event) : list (value * value * value * attrs) :=
  omap (fun e => match e with
                 | EvCall "add_attrib" _ [AVal tag; AVal text; AVal insert; ADict _ a] _ =>
                     Some (tag, text, insert, a)
                 | _ => None
                 end) t.

(** The attributes [add_linear_dim] sets before it looks at [text_rotation]. *)
Definition linear_dim_attribs (given : attrs) (dimstyle : value) (defpoint : Vec) (text : value)
    (defpoint2 defpoint3 : Vec) (angle : float) : attrs :=
  <["angle" := VFloat angle]>
    (<["defpoint3" := VVector defpoint3]>
       (<["defpoint2" := VVector defpoint2]>
          (<["text" := text]>
             (<["defpoint" := VVector defpoint]>
                (<["dimstyle" := dimstyle]> given))))).

(** The caller's dictionary, when there is one, is a dictionary of the store. *)
Definition allocated (d : option loc) (w : world) : Prop :=
  match d with Some l => l < length (heap w) | None => True end.

(** What is copied from an attribute definition: everything but the prompt,
    the handle, and the tag and insert point that are passed on their own. *)
Definition copied_attribs (attdef : attrs) : attrs :=
  delete "insert" (delete "tag" (delete "handle" (delete "prompt" attdef))).

(** An attribute definition with the string [tag] at the point [insert]. *)
Definition placeholder (attdef : attrs) (tag : string) (insert : value) : Prop :=
  attdef !! "tag" = Some (VStr tag) /\ attdef !! "insert" = Some insert.

(** The attribute made for a placeholder. *)
Definition attrib_for (values : attrs) (attdef : attrs) (tag_insert : string * value)
    : value * value * value * attrs :=
  (VStr (fst tag_insert), default (VStr "") (values !! fst tag_insert), snd tag_insert,
   copied_attribs attdef).

Section SurfaceFamily.
Context {E : Externals}.

(** The five methods of the SURFACE family, with the entity kind each creates. *)
Definition surface_methods :
    list ((CreatorInterface -> value -> option loc -> M value) * string) :=
  [(add_surface, "SURFACE");
   (add_extruded_surface, "EXTRUDEDSURFACE");
   (add_lofted_surface, "LOFTEDSURFACE");
   (add_revolved_surface, "REVOLVEDSURFACE");
   (add_swept_surface, "SWEPTSURFACE")].

End SurfaceFamily.

(** [frame w w']: the dictionaries of [w] are in [w'] what they are in [w],
    at the same addresses. *)
Definition frame (w w' : world) : Prop :=
  length (heap w) <= length (heap w') /\
  forall l, l < length (heap w) -> heap w' !! l = heap w !! l.

(** *** Weakest preconditions

    [wp m w Q]: running [m] from [w] ends in a world and an outcome that
    satisfy [Q].  The rules below walk through a method one statement at a
    time, so that the store is simplified after every step. *)
Definition wp {A} (m : M A) (w : world) (Q : world -> outcome A -> Prop) : Prop :=
  Q (fst (m w)) (snd (m w)).

(** The postcondition of the first half of a [bind]: go on with the
    continuation, or stop at the exception. *)
Definition wp_cont {A B} (k : A -> M B) (Q : world -> outcome B -> Prop)
    (w : world) (r : outcome A) : Prop :=
  match r with
  | Returned a => wp (k a) w Q
  | Raised e => Q w (Raised e)
  end.

(** ** A concrete set of collaborators

    For the examples only; no theorem depends on it.  The constants have
    their values in the DXF reference, vectors are computed on doubles, and
    the collaborators store nothing into the dictionaries they receive.  The
    trigonometric functions are not among the operations on doubles: they
    are left undefined (NaN), and the examples of [add_image] do not look
    at the pixel vectors. *)

Definition coordinate (v : value) : outcome float :=
  match v with
  | VInt z => py_float (NInt z)
  | VFloat f => Returned f
  | _ => Raised (TypeError "a number is required")
  end.

Definition vector_of_coordinates (items : list value) : outcome Vec :=
  match items with
  | [x; y] =>
      match coordinate x, coordinate y with
      | Returned x, Returned y => Returned (mkVec x y 0)
      | Raised e, _ | _, Raised e => Raised e
      end
  | [x; y; z] =>
      match coordinate x, coordinate y, coordinate z with
      | Returned x, Returned y, Returned z => Returned (mkVec x y z)
      | Raised e, _, _ | _, Raised e, _ | _, _, Raised e => Raised e
      end
  | _ => Raised (ValueError "invalid argument count")
  end.

Definition example_Vector (args : list value) : outcome Vec :=
  match args with
  | [] => Returned (mkVec 0 0 0)
  | [VVector v] => Returned v
  | [VTuple items] | [VList items] => vector_of_coordinates items
  | _ => vector_of_coordinates args
  end.

Definition example_vec_sub (a b : Vec) : Vec :=
  mkVec (PrimFloat.sub (vx a) (vx b)) (PrimFloat.sub (vy a) (vy b)) (PrimFloat.sub (vz a) (vz b)).

Definition example_orthogonal (v : Vec) : Vec :=
  mkVec (PrimFloat.opp (vy v)) (vx v) (vz v).

Definition example_magnitude (v : Vec) : float :=
  PrimFloat.sqrt (PrimFloat.add (PrimFloat.add (PrimFloat.mul (vx v) (vx v))
                                               (PrimFloat.mul (vy v) (vy v)))
                                (PrimFloat.mul (vz v) (vz v))).

Definition example_normalize (v : Vec) (length : number) : outcome Vec :=
  match py_truediv length (example_magnitude v) with
  | Raised e => Raised e
  | Returned s => Returned (mkVec (PrimFloat.mul (vx v) s) (PrimFloat.mul (vy v) s)
                                  (PrimFloat.mul (vz v) s))
  end.

(** The arc tangent is not among the operations on doubles: the angle is
    given for the directions of the four half axes, and is a NaN elsewhere. *)
Definition example_angle_deg (v : Vec) : float :=
  if PrimFloat.eqb (vy v) 0 then
    if PrimFloat.ltb 0 (vx v) then 0%float
    else if PrimFloat.ltb (vx v) 0 then 180%float else PrimFloat.nan
  else if PrimFloat.eqb (vx v) 0 then
    if PrimFloat.ltb 0 (vy v) then 90%float else (-90)%float
  else PrimFloat.nan.

Definition example_externals : Externals := {|
  DXF2000 := "AC1015";
  DXF2007 := "AC1021";
  POLYLINE_3D_POLYLINE := 8;
  POLYLINE_3D_POLYMESH := 16;
  POLYLINE_POLYFACE := 64;
  DIM_LINEAR := 0;
  DIM_ANGULAR := 2;
  DIM_DIAMETER := 3;
  DIM_RADIUS := 4;
  DIM_ANGULAR_3P := 5;
  DIM_ORDINATE := 6;
  DIM_BLOCK_EXCLUSIVE := 32;
  Vector := example_Vector;
  vec_sub := example_vec_sub;
  angle_deg := example_angle_deg;
  orthogonal := example_orthogonal;
  normalize := example_normalize;
  math_cos := fun _ => PrimFloat.nan;
  math_sin := fun _ => PrimFloat.nan;
  math_radians := fun _ => PrimFloat.nan;
  math_pi := PrimFloat.nan;
  round6 := fun x => x;
  getattr := fun _ _ => VNone;
  writes := fun _ a => a
|}.

(** A layout of an R2000 document, one of an R12 document, and an empty world. *)
Definition r2000_modelspace : CreatorInterface :=
  {| doc := {| dxfversion := "AC1015"; blocks := ∅ |}; space := "Model" |}.

Definition r12_modelspace : CreatorInterface :=
  {| doc := {| dxfversion := "AC1009"; blocks := ∅ |}; space := "Model" |}.

Definition r2007_modelspace : CreatorInterface :=
  {| doc := {| dxfversion := "AC1021"; blocks := ∅ |}; space := "Model" |}.

Definition empty_world : world := {| heap := []; objects := 0; trace := [] |}.

(** A world in which the caller holds one dictionary, at address 0. *)
Definition world_with (dxfattribs : attrs) : world :=
  {| heap := [dxfattribs]; objects := 0; trace := [] |}.

(** A block with one attribute definition, and a layout of its document. *)
Definition example_attdef : attrs :=
  <["tag" := VStr "NAME"]>
    (<["insert" := VTuple [VInt 1; VInt 2]]>
       (<["prompt" := VStr "Name?"]> (<["handle" := VStr "2A"]> ∅))).

Definition title_modelspace : CreatorInterface :=
  {| doc := {| dxfversion := "AC1015"; blocks := {[ "TITLE" := [example_attdef] ]} |};
     space := "Model" |}.


(** ** Families of methods

    The methods come in families that differ in a kind, a key or a constant
    only.  The functions below say, for a request, which family it is of and
    with what data, so that one statement can speak of the whole family. *)

(** [d[k1] = v1; ...; d[kn] = vn], in this order, on a dictionary that holds
    [given]. *)
Definition assign_all (fields : list (string * value)) (given : attrs) : attrs :=
  fold_left (fun d kv => <[fst kv := snd kv]> d) fields given.

(** The methods that only store their positional arguments into the copy of
    [dxfattribs] before they create the entity: the kind of the entity and the
    assignments, in the order of the source. *)
Definition positional (r : request) : option (string * list (string * value)) :=
  match r with
  | AddPoint location => Some ("POINT", [("location", location)])
  | AddLine start end_ => Some ("LINE", [("start", start); ("end", end_)])
  | AddCircle center radius => Some ("CIRCLE", [("center", center); ("radius", radius)])
  | AddArc center radius start_angle end_angle is_counter_clockwise =>
      Some ("ARC", [("center", center); ("radius", radius);
                    ("start_angle", if is_counter_clockwise then start_angle else end_angle);
                    ("end_angle", if is_counter_clockwise then end_angle else start_angle)])
  | AddBlockref name insert => Some ("INSERT", [("name", name); ("insert", insert)])
  | AddAttrib tag text insert =>
      Some ("ATTRIB", [("tag", tag); ("text", text); ("insert", insert)])
  | AddShape name insert size =>
      Some ("SHAPE", [("name", name); ("insert", insert); ("size", size)])
  | AddRay start unit_vector => Some ("RAY", [("start", start); ("unit_vector", unit_vector)])
  | AddXline start unit_vector => Some ("XLINE", [("start", start); ("unit_vector", unit_vector)])
  | AddHatch color =>
      Some ("HATCH", [("solid_fill", VInt 1); ("color", color); ("pattern_name", VStr "SOLID")])
  | AddSpline _ degree => Some ("SPLINE", [("degree", degree)])
  | AddMtext _ => Some ("MTEXT", [])
  | AddMesh => Some ("MESH", [])
  | _ => None
  end.

(** The methods that check the version against [DXF2000] before they do
    anything else, themselves or in the method they begin with (the SURFACE
    family checks R2007 first, and then R2000 in [_add_acis_entiy]).  The
    ELLIPSE compares with the literal ['AC1015'], and [add_spline_control_frame]
    and [add_spline_approx] compute the control frame before any check: they
    are not among them. *)
Definition checks_r2000 (r : request) : bool :=
  match r with
  | AddLwpolyline _ _ | AddMtext _ | AddRay _ _ | AddXline _ _ | AddSpline _ _
  | AddOpenSpline _ _ _ | AddClosedSpline _ _ _
  | AddRationalSpline _ _ _ _ | AddClosedRationalSpline _ _ _ _
  | AddBody _ | AddRegion _ | Add3dsolid _
  | AddSurface _ | AddExtrudedSurface _ | AddLoftedSurface _ | AddRevolvedSurface _
  | AddSweptSurface _
  | AddHatch _ | AddMesh | AddImage _ _ _ _ | AddUnderlay _ _ _ _ => true
  | _ => false
  end.

Section DimensionTypes.
Context {E : Externals}.

(** The five dimensions that are created with their type and nothing else:
    the type constant of the method. *)
Definition dimension_type (r : request) : option Z :=
  match r with
  | AddAngularDim _ => Some DIM_ANGULAR
  | AddDiameterDim _ => Some DIM_DIAMETER
  | AddRadiusDim _ => Some DIM_RADIUS
  | AddAngular3pDim _ => Some DIM_ANGULAR_3P
  | AddOrdinateDim _ => Some DIM_ORDINATE
  | _ => None
  end.

End DimensionTypes.

(** The four splines made from control points: the method of the new
    spline that takes the points, the control points, what is passed after
    them, and the knots. *)
Definition control_point_setter (r : request)
    : option (string * value * list value * value) :=
  match r with
  | AddOpenSpline control_points degree knots =>
      Some ("set_open_uniform", control_points, [degree], knots)
  | AddClosedSpline control_points degree knots =>
      Some ("set_periodic", control_points, [degree], knots)
  | AddRationalSpline control_points weights degree knots =>
      Some ("set_open_rational", control_points, [weights; degree], knots)
  | AddClosedRationalSpline control_points weights degree knots =>
      Some ("set_periodic_rational", control_points, [weights; degree], knots)
  | _ => None
  end.

(** [entity[0] = p0; entity[1] = p1; ...] *)
Definition set_items (entity : value) (items : list value) : list event :=
  imap (fun x point => EvSetItem entity x point) items.

(** The three quadrilaterals: kind and points. *)
Definition quadrilateral (r : request) : option (string * list value) :=
  match r with
  | AddSolid points => Some ("SOLID", points)
  | AddTrace points => Some ("TRACE", points)
  | Add3dface points => Some ("3DFACE", points)
  | _ => None
  end.

(** A block whose second attribute definition has no tag. *)
Definition untagged_modelspace : CreatorInterface :=
  {| doc := {| dxfversion := "AC1015";
               blocks := {[ "TITLE" := [example_attdef; ∅; example_attdef] ]} |};
     space := "Model" |}.

Section PolylineModes.
Context {E : Externals}.

(** The bit a polyline method sets in ['flags']. *)
Definition polyline_mode (r : request) : option Z :=
  match r with
  | AddPolyline3d _ => Some POLYLINE_3D_POLYLINE
  | AddPolymesh _ => Some POLYLINE_3D_POLYMESH
  | AddPolyface => Some POLYLINE_POLYFACE
  | _ => None
  end.

End PolylineModes.

(** The ACIS entities: kind, data, and whether the method has the R2007 gate
    of the SURFACE family before the R2000 gate of [_add_acis_entiy]. *)
Definition acis_entity (r : request) : option (string * value * bool) :=
  match r with
  | AddBody acis_data => Some ("BODY", acis_data, false)
  | AddRegion acis_data => Some ("REGION", acis_data, false)
  | Add3dsolid acis_data => Some ("3DSOLID", acis_data, false)
  | AddSurface acis_data => Some ("SURFACE", acis_data, true)
  | AddExtrudedSurface acis_data => Some ("EXTRUDEDSURFACE", acis_data, true)
  | AddLoftedSurface acis_data => Some ("LOFTEDSURFACE", acis_data, true)
  | AddRevolvedSurface acis_data => Some ("REVOLVEDSURFACE", acis_data, true)
  | AddSweptSurface acis_data => Some ("SWEPTSURFACE", acis_data, true)
  | _ => None
  end.

(** Collaborators with definitions to read from: an image definition has
    640 by 480 pixels (the one called "blank" has none), and an underlay
    definition is one of a PDF. *)
Definition example_getattr (obj : value) (name : string) : value :=
  match name with
  | "dxf.image_size" =>
      match obj with
      | VStr "blank" => VVector (mkVec 0 0 0)
      | _ => VVector (mkVec 640 480 0)
      end
  | "entity_name" => VStr "PDFUNDERLAY"
  | _ => VNone
  end.

(** The collaborators of the examples, with these definitions. *)
Definition image_externals : Externals := {|
  DXF2000 := "AC1015";
  DXF2007 := "AC1021";
  POLYLINE_3D_POLYLINE := 8;
  POLYLINE_3D_POLYMESH := 16;
  POLYLINE_POLYFACE := 64;
  DIM_LINEAR := 0;
  DIM_ANGULAR := 2;
  DIM_DIAMETER := 3;
  DIM_RADIUS := 4;
  DIM_ANGULAR_3P := 5;
  DIM_ORDINATE := 6;
  DIM_BLOCK_EXCLUSIVE := 32;
  Vector := example_Vector;
  vec_sub := example_vec_sub;
  angle_deg := example_angle_deg;
  orthogonal := example_orthogonal;
  normalize := example_normalize;
  math_cos := fun _ => PrimFloat.nan;
  math_sin := fun _ => PrimFloat.nan;
  math_radians := fun _ => PrimFloat.nan;
  math_pi := PrimFloat.nan;
  round6 := fun x => x;
  getattr := example_getattr;
  writes := fun _ a => a
|}.

Section Conversions.
Context {E : Externals}.

(** The conversions [add_linear_dim] makes of its arguments, in the order of
    the source: [Vector(base)], [Vector(p1)], [Vector(p2)], [float(angle)] and,
    when it is given, [float(text_rotation)].  The first that raises, if any. *)
Definition linear_dim_conversions (base p1 p2 : value) (angle : number)
    (text_rotation : option number) : outcome unit :=
  match Vector [base] with
  | Raised e => Raised e
  | Returned _ =>
      match Vector [p1] with
      | Raised e => Raised e
      | Returned _ =>
          match Vector [p2] with
          | Raised e => Raised e
          | Returned _ =>
              match py_float angle with
              | Raised e => Raised e
              | Returned _ =>
                  match text_rotation with
                  | Some r =>
                      match py_float r with
                      | Raised e => Raised e
                      | Returned _ => Returned tt
                      end
                  | None => Returned tt
                  end
              end
          end
      end
  end.

(** The pixel vector of an image: what [to_vector] returns for an angle that
    is not infinite. *)
Definition pixel_vector (units_per_pixel angle_in_rad : float) : value :=
  VTuple [VFloat (round6 (PrimFloat.mul (math_cos angle_in_rad) units_per_pixel));
          VFloat (round6 (PrimFloat.mul (math_sin angle_in_rad) units_per_pixel));
          VInt 0].

End Conversions.

(** The [add_attrib] calls of [autofill] on the block reference [blockref],
    one for every attribute definition with its tag and insert point, when the
    next new dictionary gets the address [address] and the next new object the
    handle [h]. *)
Fixpoint attrib_calls (values : attrs) (blockref : value) (attdefs : list attrs)
    (placeholders : list (string * value)) (address : loc) (h : handle) : list event :=
  match attdefs, placeholders with
  | attdef :: attdefs', p :: placeholders' =>
      EvCall "add_attrib" blockref
        [AVal (VStr (fst p)); AVal (default (VStr "") (values !! fst p)); AVal (snd p);
         ADict address (copied_attribs attdef)] (VObj h)
      :: attrib_calls values blockref attdefs' placeholders' (S address) (S h)
  | _, _ => []
  end.

(** What a method does through its own [new_entity]: the entities it asks
    of the database of its layout, and the entities it adds to its entity
    space.  Entities that collaborators make (the reference and the attributes
    in an anonymous block, a reactor, what a renderer draws) are not among
    them. *)
Definition own_entities (t : list event) : list event :=
  omap (fun e => match e with
                 | EvCreateDbEntry _ _ _ | EvAddEntity _ _ => Some e
                 | _ => None
                 end) t.

(** ** Running the model: elementary facts about the store *)

(** A new dictionary is read back at its address. *)
Lemma lookup_alloc (h : list attrs) (c : attrs) : (h ++ [c]) !! length h = Some c.
Proof. rewrite lookup_app_r by lia. now rewrite Nat.sub_diag. Qed.

(** A write at the address of the newest dictionary replaces it. *)
Lemma insert_alloc (h : list attrs) (c a : attrs) : <[length h := a]> (h ++ [c]) = h ++ [a].
Proof.
  rewrite insert_app_r_alt by lia. now rewrite Nat.sub_diag.
Qed.

Lemma created_app (t1 t2 : list event) : created (t1 ++ t2) = created t1 ++ created t2.
Proof. unfold created. apply omap_app. Qed.

Lemma created_snoc (t : list event) (e : event) :
  created (t ++ [e]) = created t ++ match e with
                                    | EvCreateDbEntry type_ a _ => [(type_, a)]
                                    | _ => []
                                    end.
Proof. rewrite created_app. destruct e; reflexivity. Qed.

Lemma wp_bind {A B} (m : M A) (k : A -> M B) (w : world) (Q : world -> outcome B -> Prop) :
  wp m w (wp_cont k Q) -> wp (bind m k) w Q.
Proof.
  unfold wp, wp_cont, bind. destruct (m w) as [w' [e | a]]; simpl; auto.
Qed.

Lemma wp_cont_returned {A B} (k : A -> M B) (Q : world -> outcome B -> Prop) (w : world) (a : A) :
  wp (k a) w Q -> wp_cont k Q w (Returned a).
Proof. auto. Qed.

Lemma wp_cont_raised {A B} (k : A -> M B) (Q : world -> outcome B -> Prop) (w : world) (e : exn) :
  Q w (Raised e) -> wp_cont k Q w (Raised e).
Proof. auto. Qed.

Lemma wp_for_each_nil {A} (body : A -> M unit) (w : world) (Q : world -> outcome unit -> Prop) :
  Q w (Returned tt) -> wp (for_each [] body) w Q.
Proof. auto. Qed.

Lemma wp_for_each_cons {A} (x : A) (xs : list A) (body : A -> M unit) (w : world)
    (Q : world -> outcome unit -> Prop) :
  wp (body x ;;; for_each xs body) w Q -> wp (for_each (x :: xs) body) w Q.
Proof. auto. Qed.

Section Rules.
Context {E : Externals} {A : Type}.
Implicit Types (w : world) (d : loc) (key : string) (v dflt : value).

Lemma wp_ret (a : A) w (Q : world -> outcome A -> Prop) : Q w (Returned a) -> wp (ret a) w Q.
Proof. auto. Qed.

Lemma wp_raise (e : exn) w (Q : world -> outcome A -> Prop) : Q w (Raised e) -> wp (raise e) w Q.
Proof. auto. Qed.

Lemma wp_lift (r : outcome A) w (Q : world -> outcome A -> Prop) : Q w r -> wp (lift r) w Q.
Proof. auto. Qed.

Lemma wp_dict_new (c : attrs) w Q :
  Q (set_heap (heap w ++ [c]) w) (Returned (length (heap w))) -> wp (dict_new c) w Q.
Proof. auto. Qed.

Lemma wp_dict_copy_or_empty (dxfattribs : option loc) w Q :
  Q (set_heap (heap w ++ [match dxfattribs with Some l => deref l w | None => ∅ end]) w)
    (Returned (length (heap w))) ->
  wp (dict_copy_or_empty dxfattribs) w Q.
Proof. auto. Qed.

Lemma wp_dict_set d key v w Q :
  Q (set_heap (<[d := <[key := v]> (deref d w)]> (heap w)) w) (Returned tt) ->
  wp (dict_set d key v) w Q.
Proof. auto. Qed.

Lemma wp_dict_get d key dflt w Q :
  Q w (Returned (default dflt (deref d w !! key))) -> wp (dict_get d key dflt) w Q.
Proof. auto. Qed.

Lemma wp_dict_pop_default d key dflt w Q :
  Q (set_heap (<[d := delete key (deref d w)]> (heap w)) w)
    (Returned (default dflt (deref d w !! key))) ->
  wp (dict_pop_default d key dflt) w Q.
Proof. auto. Qed.

Lemma wp_dict_pop d key v w Q :
  deref d w !! key = Some v ->
  Q (set_heap (<[d := delete key (deref d w)]> (heap w)) w) (Returned v) ->
  wp (dict_pop d key) w Q.
Proof. intros Hkey. unfold wp, dict_pop. now rewrite Hkey. Qed.

Lemma wp_dict_setdefault d key v w Q :
  (is_Some (deref d w !! key) -> Q w (Returned tt)) ->
  (deref d w !! key = None ->
   Q (set_heap (<[d := <[key := v]> (deref d w)]> (heap w)) w) (Returned tt)) ->
  wp (dict_setdefault d key v) w Q.
Proof.
  intros Hsome Hnone. unfold wp, dict_setdefault.
  destruct (deref d w !! key) eqn:Hkey; [apply Hsome; eauto | now apply Hnone].
Qed.

Lemma wp_dict_pop_cases d key w Q :
  (forall v, Q (set_heap (<[d := delete key (deref d w)]> (heap w)) w) (Returned v)) ->
  Q w (Raised (KeyError key)) ->
  wp (dict_pop d key) w Q.
Proof.
  intros Hsome Hnone. unfold wp, dict_pop.
  destruct (deref d w !! key); [apply Hsome | apply Hnone].
Qed.

Lemma wp_emit (e : event) w Q :
  Q {| heap := heap w; objects := objects w; trace := trace w ++ [e] |} (Returned tt) ->
  wp (emit e) w Q.
Proof. auto. Qed.

Lemma wp_emit_call callee receiver args result w Q :
  Q {| heap := heap w; objects := objects w;
       trace := trace w ++ [EvCall callee receiver (map (fun a => record_arg a w) args) result] |}
    (Returned tt) ->
  wp (emit_call callee receiver args result) w Q.
Proof. auto. Qed.

Lemma wp_emit_create type_ d h w Q :
  Q {| heap := heap w; objects := objects w;
       trace := trace w ++ [EvCreateDbEntry type_ (deref d w) h] |} (Returned tt) ->
  wp (emit_create type_ d h) w Q.
Proof. auto. Qed.

Lemma wp_new_object w Q :
  Q {| heap := heap w; objects := S (objects w); trace := trace w |} (Returned (objects w)) ->
  wp new_object w Q.
Proof. auto. Qed.

Lemma wp_writes_value callee v w Q :
  Q w (Returned tt) -> wp (collaborator_writes callee (inl v)) w Q.
Proof. auto. Qed.

Lemma wp_writes_dict callee d w Q :
  Q (set_heap (<[d := writes callee (deref d w)]> (heap w)) w) (Returned tt) ->
  wp (collaborator_writes callee (inr d)) w Q.
Proof. auto. Qed.

End Rules.

Ltac store_len := rewrite ?length_insert, ?length_app; cbn [length]; lia.

(** Brings the store back to the form [heap w ++ [d1] ++ ...]. *)
Ltac store_rewrite :=
  repeat first
    [ rewrite insert_alloc
    | rewrite lookup_alloc
    | rewrite lookup_app_l by store_len
    | rewrite insert_app_l by store_len
    | progress unfold deref, set_heap, record_arg, dict_arg
    | progress cbn [default from_option id fst snd heap objects trace map] ].

(** The same, with the rest of the method out of the way. *)
Ltac store_simpl :=
  lazymatch goal with
  | |- wp_cont ?k ?Q _ _ =>
      let k' := fresh "k" in
      let Q' := fresh "Q" in
      set (k' := k); set (Q' := Q); store_rewrite; subst k' Q'
  | |- _ => store_rewrite
  end.

(** One statement of a method. *)
Ltac wp_step :=
  lazymatch goal with
  | |- wp_cont _ _ _ (Returned _) => apply wp_cont_returned; cbv beta
  | |- wp_cont _ _ _ (Raised _) => apply wp_cont_raised
  | |- wp (bind _ _) _ _ => apply wp_bind
  | |- wp (for_each [] _) _ _ => apply wp_for_each_nil
  | |- wp (for_each (_ :: _) _) _ _ => apply wp_for_each_cons
  | |- wp (call_ _ _ _) _ _ => unfold call_
  | |- wp (call _ _ _) _ _ => unfold call
  | |- wp (new_entity _ _ _) _ _ => unfold new_entity
  | |- wp (create_db_entry _ _) _ _ => unfold create_db_entry
  | |- wp (add_entity _ (VObj _)) _ _ => unfold add_entity
  | |- wp (ret _) _ _ => apply wp_ret
  | |- wp (raise _) _ _ => apply wp_raise
  | |- wp (lift _) _ _ => apply wp_lift
  | |- wp (collaborator_writes _ (inl _)) _ _ => apply wp_writes_value
  | |- wp (collaborator_writes _ (inr _)) _ _ => apply wp_writes_dict; store_simpl
  | |- wp (collaborator_writes _ (dict_arg ?d)) _ _ => destruct d; unfold dict_arg at 1
  | |- wp (dict_copy_or_empty _) _ _ => apply wp_dict_copy_or_empty; store_simpl
  | |- wp (dict_new _) _ _ => apply wp_dict_new; store_simpl
  | |- wp (dict_set _ _ _) _ _ => apply wp_dict_set; store_simpl
  | |- wp (dict_get _ _ _) _ _ => apply wp_dict_get; store_simpl
  | |- wp (dict_pop_default _ _ _) _ _ => apply wp_dict_pop_default; store_simpl
  | |- wp (dict_setdefault _ _ _) _ _ =>
      apply wp_dict_setdefault; [intros _ | intros _]; store_simpl
  | |- wp (emit _) _ _ => apply wp_emit; store_simpl
  | |- wp (emit_call _ _ _ _) _ _ => apply wp_emit_call; store_simpl
  | |- wp (emit_create _ _ _) _ _ => apply wp_emit_create; store_simpl
  | |- wp new_object _ _ => apply wp_new_object; store_simpl
  | |- wp (match ?x with _ => _ end) _ _ => is_var x; destruct x
  end.

Ltac wp_run := repeat wp_step; cbn [heap objects trace fst snd].

(** ** The quadrilateral normalizer *)

(** A number of points other than 3 and 4 is refused. *)
Lemma four_points_bad_length (points : list value) :
  length points <> 3 -> length points <> 4 ->
  _four_points points = Raised (DXFValueError "3 or 4 points required.").
Proof.
  intros H3 H4. unfold _four_points.
  destruct (Nat.eqb_spec (length points) 3); [contradiction |].
  destruct (Nat.eqb_spec (length points) 4); [contradiction |].
  reflexivity.
Qed.

(** C3: [_four_points] maps [A, B, C] to [A, B, C, C] (the last point again),
    leaves [A, B, C, D] as it is, and raises [DXFValueError] for every input
    whose length is neither 3 nor 4. *)
Theorem four_points_normalize :
  (forall A B C : value, _four_points [A; B; C] = Returned [A; B; C; C]) /\
  (forall A B C D : value, _four_points [A; B; C; D] = Returned [A; B; C; D]) /\
  (forall points : list value,
      length points <> 3 -> length points <> 4 ->
      _four_points points = Raised (DXFValueError "3 or 4 points required.")).
Proof.
  split; [| split].
  - intros A B C. reflexivity.
  - intros A B C D. reflexivity.
  - exact four_points_bad_length.
Qed.

Lemma four_points_normalize_witness :
  _four_points [VInt 0; VInt 1] = Raised (DXFValueError "3 or 4 points required.").
Proof.
  apply (proj2 (proj2 four_points_normalize)); simpl; lia.
Defined.

(** ** Quadrilaterals: the entity exists when the points are refused *)

Section Quadrilateral.
Context {E : Externals}.

Lemma add_quadrilateral_bad_points (self : CreatorInterface) (type_ : string)
    (points : list value) (dxfattribs : option loc) (w : world) :
  length points <> 3 -> length points <> 4 ->
  let r := _add_quadrilateral self type_ points dxfattribs w in
  snd r = Raised (DXFValueError "3 or 4 points required.") /\
  exists contents,
    trace (fst r) = trace w ++ [EvCreateDbEntry type_ contents (objects w);
                                EvAddEntity (space self) (objects w)].
Proof.
  intros H3 H4.
  pose proof (four_points_bad_length points H3 H4) as Hfour.
  change (wp (_add_quadrilateral self type_ points dxfattribs) w
            (fun w' r => r = Raised (DXFValueError "3 or 4 points required.") /\
                         exists contents,
                           trace w' = trace w ++ [EvCreateDbEntry type_ contents (objects w);
                                                  EvAddEntity (space self) (objects w)])).
  unfold _add_quadrilateral. wp_run. rewrite Hfour. wp_run.
  split; [reflexivity |]. eexists. rewrite <- app_assoc. reflexivity.
Qed.

(** C1 (what the code does): [add_solid] with two points raises
    [DXFValueError] after [new_entity] has run: a SOLID without vertices has
    been created in the database and added to the entity space. *)
Theorem add_solid_two_points_creates_entity (self : CreatorInterface) (A B : value) (w : world) :
  snd (add_solid self [A; B] None w) = Raised (DXFValueError "3 or 4 points required.") /\
  trace (fst (add_solid self [A; B] None w))
  = trace w ++ [EvCreateDbEntry "SOLID" ∅ (objects w); EvAddEntity (space self) (objects w)].
Proof.
  change (wp (add_solid self [A; B] None) w
            (fun w' r => r = Raised (DXFValueError "3 or 4 points required.") /\
                         trace w' = trace w ++ [EvCreateDbEntry "SOLID" ∅ (objects w);
                                                EvAddEntity (space self) (objects w)])).
  unfold add_solid, _add_quadrilateral. wp_run.
  split; [reflexivity |]. rewrite <- app_assoc. reflexivity.
Qed.

End Quadrilateral.

(** A triangle becomes a SOLID with its last vertex in the fourth slot. *)
Example add_solid_triangle :
  trace (fst (add_solid (E := example_externals) r2000_modelspace
                [VTuple [VInt 0; VInt 0]; VTuple [VInt 1; VInt 0]; VTuple [VInt 0; VInt 1]]
                None empty_world))
  = [EvCreateDbEntry "SOLID" ∅ 0;
     EvAddEntity "Model" 0;
     EvSetItem (VObj 0) 0 (VTuple [VInt 0; VInt 0]);
     EvSetItem (VObj 0) 1 (VTuple [VInt 1; VInt 0]);
     EvSetItem (VObj 0) 2 (VTuple [VInt 0; VInt 1]);
     EvSetItem (VObj 0) 3 (VTuple [VInt 0; VInt 1])].
Proof. reflexivity. Qed.

(** ** Polylines, meshes and faces *)

Section Polylines.
Context {E : Externals}.

(** Bitwise OR keeps every bit of its left operand and sets the right one. *)
Lemma lor_keeps_bits (f bit : Z) :
  (forall n, Z.testbit f n = true -> Z.testbit (Z.lor f bit) n = true) /\
  Z.land (Z.lor f bit) bit = bit.
Proof.
  split.
  - intros n Hn. rewrite Z.lor_spec, Hn. reflexivity.
  - apply Z.bits_inj'. intros n _.
    rewrite Z.land_spec, Z.lor_spec. destruct (Z.testbit f n), (Z.testbit bit n); reflexivity.
Qed.

(** C4: with a caller's ['flags'] value [f], the attribute set that
    [add_polyline3d], [add_polymesh] and [add_polyface] hand to the database
    has ['flags'] equal to [f] OR-ed with the mode bit of the method; every bit
    of [f] is still set in it, and the mode bit is set. *)
Theorem polyline_flags_are_ored (self : CreatorInterface) (l : loc) (f : Z) (w : world) :
  deref l w !! "flags" = Some (VInt f) ->
  (forall points, exists a,
      created (trace (fst (add_polyline3d self points (Some l) w)))
      = created (trace w) ++ [("POLYLINE", a)] /\
      a !! "flags" = Some (VInt (Z.lor f POLYLINE_3D_POLYLINE))) /\
  (forall size, exists a,
      created (trace (fst (add_polymesh self size (Some l) w)))
      = created (trace w) ++ [("POLYLINE", a)] /\
      a !! "flags" = Some (VInt (Z.lor f POLYLINE_3D_POLYMESH))) /\
  (exists a,
      created (trace (fst (add_polyface self (Some l) w)))
      = created (trace w) ++ [("POLYLINE", a)] /\
      a !! "flags" = Some (VInt (Z.lor f POLYLINE_POLYFACE))) /\
  (forall bit n, Z.testbit f n = true -> Z.testbit (Z.lor f bit) n = true) /\
  (forall bit, Z.land (Z.lor f bit) bit = bit).
Proof.
  intros Hf. unfold deref in Hf.
  split; [| split; [| split; [| split]]].
  - intros points.
    change (wp (add_polyline3d self points (Some l)) w
              (fun w' _ => exists a, created (trace w') = created (trace w) ++ [("POLYLINE", a)] /\
                                     a !! "flags" = Some (VInt (Z.lor f POLYLINE_3D_POLYLINE)))).
    unfold add_polyline3d, add_polyline2d. wp_run. rewrite Hf. cbn [default from_option id py_or].
    wp_run. eexists. split.
    + rewrite !created_snoc, <- !app_assoc. cbn [app]. reflexivity.
    + rewrite lookup_delete_ne by discriminate. apply lookup_insert_eq.
  - intros size.
    change (wp (add_polymesh self size (Some l)) w
              (fun w' _ => exists a, created (trace w') = created (trace w) ++ [("POLYLINE", a)] /\
                                     a !! "flags" = Some (VInt (Z.lor f POLYLINE_3D_POLYMESH)))).
    unfold add_polymesh. wp_run. rewrite Hf. cbn [default from_option id py_or].
    wp_run. eexists. split.
    + rewrite !created_snoc, <- !app_assoc. cbn [app]. rewrite ?app_nil_r. reflexivity.
    + rewrite !lookup_delete_ne by discriminate. rewrite !lookup_insert_ne by discriminate.
      apply lookup_insert_eq.
  - change (wp (add_polyface self (Some l)) w
              (fun w' _ => exists a, created (trace w') = created (trace w) ++ [("POLYLINE", a)] /\
                                     a !! "flags" = Some (VInt (Z.lor f POLYLINE_POLYFACE)))).
    unfold add_polyface. wp_run. rewrite Hf. cbn [default from_option id py_or].
    wp_run. eexists. split.
    + rewrite !created_snoc, <- !app_assoc. cbn [app]. rewrite ?app_nil_r. reflexivity.
    + rewrite !lookup_delete_ne by discriminate. apply lookup_insert_eq.
  - intros bit. apply lor_keeps_bits.
  - intros bit. apply lor_keeps_bits.
Qed.

End Polylines.

Lemma polyline_flags_are_ored_witness :
  exists a,
    created (trace (fst (add_polyface (E := example_externals) r2000_modelspace (Some 0)
                           (world_with {[ "flags" := VInt 1 ]}))))
    = [("POLYLINE", a)] /\
    a !! "flags" = Some (VInt 65).
Proof.
  apply (polyline_flags_are_ored (E := example_externals) r2000_modelspace 0 1
           (world_with {[ "flags" := VInt 1 ]})).
  vm_compute. reflexivity.
Defined.

Section Polymesh.
Context {E : Externals}.

(** C10: [add_polymesh] clamps both sizes to at least 2: the attribute set
    of the new POLYLINE has [m_count = max(m, 2)] and [n_count = max(n, 2)],
    and one [append_vertices] call hands over [m_count * n_count] vertices,
    all of them [(0, 0, 0)]. *)
Theorem add_polymesh_clamps_size (self : CreatorInterface) (m n : Z) (dxfattribs : option loc)
    (w : world) (flags : value) :
  let given := match dxfattribs with Some l => deref l w | None => ∅ end in
  let m_count := Z.max m 2 in
  let n_count := Z.max n 2 in
  let vertices := repeat (VTuple [VInt 0; VInt 0; VInt 0]) (Z.to_nat (m_count * n_count)) in
  let h := objects w in
  py_or (default (VInt 0) (given !! "flags")) POLYLINE_3D_POLYMESH = Returned flags ->
  exists a,
    a !! "m_count" = Some (VInt m_count) /\
    a !! "n_count" = Some (VInt n_count) /\
    length vertices = Z.to_nat (m_count * n_count) /\
    Forall (fun v => v = VTuple [VInt 0; VInt 0; VInt 0]) vertices /\
    trace (fst (add_polymesh self (m, n) dxfattribs w))
    = trace w ++ [EvCreateDbEntry "POLYLINE" a h;
                  EvAddEntity (space self) h;
                  EvCall "append_vertices" (VObj h) [AVal (VList vertices)] (VObj (S h));
                  EvCall "close" (VObj h)
                    [AVal (default (VBool false) (given !! "m_close"));
                     AVal (default (VBool false) (given !! "n_close"))] (VObj (S (S h)));
                  EvCall "cast" (VObj h) [] (VObj (S (S (S h))))].
Proof.
  intros given m_count n_count vertices h Hflags.
  change (wp (add_polymesh self (m, n) dxfattribs) w
            (fun w' _ => exists a,
               a !! "m_count" = Some (VInt m_count) /\
               a !! "n_count" = Some (VInt n_count) /\
               length vertices = Z.to_nat (m_count * n_count) /\
               Forall (fun v => v = VTuple [VInt 0; VInt 0; VInt 0]) vertices /\
               trace w'
               = trace w ++ [EvCreateDbEntry "POLYLINE" a h;
                             EvAddEntity (space self) h;
                             EvCall "append_vertices" (VObj h) [AVal (VList vertices)] (VObj (S h));
                             EvCall "close" (VObj h)
                               [AVal (default (VBool false) (given !! "m_close"));
                                AVal (default (VBool false) (given !! "n_close"))]
                               (VObj (S (S h)));
                             EvCall "cast" (VObj h) [] (VObj (S (S (S h))))])).
  subst given. unfold deref in *.
  unfold add_polymesh. wp_run. rewrite Hflags. wp_run.
  eexists. split; [| split; [| split; [| split]]].
  5: { rewrite <- !app_assoc. cbn [app].
       rewrite lookup_delete_ne by discriminate. rewrite !lookup_insert_ne by discriminate.
       reflexivity. }
  - rewrite !lookup_delete_ne by discriminate. rewrite lookup_insert_ne by discriminate. apply lookup_insert_eq.
  - rewrite !lookup_delete_ne by discriminate. apply lookup_insert_eq.
  - apply repeat_length.
  - apply Forall_forall. intros v Hv. apply list_elem_of_In in Hv.
    now apply repeat_spec in Hv.
Qed.

End Polymesh.

Lemma add_polymesh_clamps_size_witness :
  exists a,
    a !! "m_count" = Some (VInt 2) /\
    a !! "n_count" = Some (VInt 5) /\
    length (repeat (VTuple [VInt 0; VInt 0; VInt 0]) 10) = 10 /\
    Forall (fun v => v = VTuple [VInt 0; VInt 0; VInt 0])
      (repeat (VTuple [VInt 0; VInt 0; VInt 0]) 10) /\
    trace (fst (add_polymesh (E := example_externals) r2000_modelspace (1, 5)%Z None empty_world))
    = [EvCreateDbEntry "POLYLINE" a 0;
       EvAddEntity "Model" 0;
       EvCall "append_vertices" (VObj 0)
         [AVal (VList (repeat (VTuple [VInt 0; VInt 0; VInt 0]) 10))] (VObj 1);
       EvCall "close" (VObj 0) [AVal (VBool false); AVal (VBool false)] (VObj 2);
       EvCall "cast" (VObj 0) [] (VObj 3)].
Proof.
  apply (add_polymesh_clamps_size (E := example_externals) r2000_modelspace 1 5 None
           empty_world (VInt 16)).
  reflexivity.
Defined.

(** ** Version gates *)

(** Python compares [str] values lexicographically; the order is transitive. *)
Lemma ascii_compare_refl (c : ascii) : Ascii.compare c c = Eq.
Proof. unfold Ascii.compare. apply N.compare_refl. Qed.

Lemma ascii_compare_lt_trans (a b c : ascii) :
  Ascii.compare a b = Lt -> Ascii.compare b c = Lt -> Ascii.compare a c = Lt.
Proof.
  unfold Ascii.compare. rewrite !N.compare_lt_iff. apply N.lt_trans.
Qed.

Lemma string_compare_lt_trans (a b c : string) :
  String.compare a b = Lt -> String.compare b c = Lt -> String.compare a c = Lt.
Proof.
  revert b c. induction a as [| x a IH]; intros [| y b] [| z c]; simpl; try congruence.
  destruct (Ascii.compare x y) eqn:Hxy; try discriminate.
  - apply Ascii.compare_eq_iff in Hxy. subst y.
    destruct (Ascii.compare x z); try congruence. apply IH.
  - intros _. destruct (Ascii.compare y z) eqn:Hyz; try discriminate.
    + apply Ascii.compare_eq_iff in Hyz. subst z. now rewrite Hxy.
    + intros _. now rewrite (ascii_compare_lt_trans x y z Hxy Hyz).
Qed.

(** A version that is not below [hi] is not below any [lo <= hi]. *)
Lemma not_below_weaken (v lo hi : string) :
  String.leb lo hi = true -> String.ltb v hi = false -> String.ltb v lo = false.
Proof.
  unfold String.leb, String.ltb. intros Hle Hv.
  destruct (String.compare v lo) eqn:Hvlo; try reflexivity.
  destruct (String.compare lo hi) eqn:Hlohi; try discriminate.
  - apply String.compare_eq_iff in Hlohi. subst hi. now rewrite Hvlo in Hv.
  - now rewrite (string_compare_lt_trans v lo hi Hvlo Hlohi) in Hv.
Qed.

Section Versions.
Context {E : Externals}.

(** What [_add_acis_entiy] does once the version is accepted. *)
Lemma add_acis_entity_runs (self : CreatorInterface) (name : string) (acis_data : value)
    (dxfattribs : option loc) (w : world) :
  String.ltb (dxfversion (doc self)) DXF2000 = false ->
  snd (_add_acis_entiy self name acis_data dxfattribs w) = Returned (VObj (objects w)) /\
  created (trace (fst (_add_acis_entiy self name acis_data dxfattribs w)))
  = created (trace w) ++ [(name, match dxfattribs with Some l => deref l w | None => ∅ end)].
Proof.
  intros Hv.
  change (wp (_add_acis_entiy self name acis_data dxfattribs) w
            (fun w' r => r = Returned (VObj (objects w)) /\
                         created (trace w')
                         = created (trace w)
                           ++ [(name, match dxfattribs with Some l => deref l w | None => ∅ end)])).
  unfold _add_acis_entiy. rewrite Hv. wp_run.
  all: (split; [reflexivity |]);
    rewrite !created_snoc, <- ?app_assoc; cbn [app]; rewrite ?app_nil_r; reflexivity.
Qed.

(** C7: each method of the SURFACE family raises [DXFVersionError] and
    leaves the world untouched when the document version is below R2007;
    from R2007 on it returns the new entity, created with the caller's
    attributes under the kind of the method. *)
Theorem surface_version_gate (self : CreatorInterface) (acis_data : value)
    (dxfattribs : option loc) (w : world) :
  String.leb DXF2000 DXF2007 = true ->
  Forall (fun '(add, type_) =>
            (String.ltb (dxfversion (doc self)) DXF2007 = true ->
             exists msg, add self acis_data dxfattribs w = (w, Raised (DXFVersionError msg))) /\
            (String.ltb (dxfversion (doc self)) DXF2007 = false ->
             snd (add self acis_data dxfattribs w) = Returned (VObj (objects w)) /\
             created (trace (fst (add self acis_data dxfattribs w)))
             = created (trace w)
               ++ [(type_, match dxfattribs with Some l => deref l w | None => ∅ end)]))
         surface_methods.
Proof.
  intros Hconst. unfold surface_methods.
  repeat (apply Forall_cons_2; [split; [intros Hlow | intros Hhigh] |]); try apply Forall_nil_2.
  all: unfold add_surface, add_extruded_surface, add_lofted_surface, add_revolved_surface,
         add_swept_surface.
  all: try (rewrite Hlow; eexists; reflexivity).
  all: rewrite Hhigh; apply add_acis_entity_runs;
         exact (not_below_weaken _ _ _ Hconst Hhigh).
Qed.

End Versions.

Lemma surface_version_gate_witness :
  (exists msg,
      add_surface (E := example_externals) r2000_modelspace VNone None empty_world
      = (empty_world, Raised (DXFVersionError msg))) /\
  snd (add_surface (E := example_externals) r2007_modelspace VNone None empty_world)
  = Returned (VObj 0).
Proof.
  split.
  - pose proof (surface_version_gate (E := example_externals) r2000_modelspace VNone None
                  empty_world eq_refl) as H.
    apply Forall_cons_1 in H. destruct H as [[Hlow _] _]. apply Hlow. reflexivity.
  - pose proof (surface_version_gate (E := example_externals) r2007_modelspace VNone None
                  empty_world eq_refl) as H.
    apply Forall_cons_1 in H. destruct H as [[_ Hhigh] _]. apply Hhigh. reflexivity.
Defined.

(** ** The ellipse: version first, then the ratio *)

Section Ellipse.
Context {E : Externals}.

(** C8 (as the code has it): on a document of version R2000 or later,
    [add_ellipse] with [ratio > 1.0] raises [DXFValueError] and leaves the
    world untouched, and with [ratio == 1.0] (the int 1 or the float 1.0) it
    creates the ELLIPSE; below R2000 it raises [DXFVersionError] whatever the
    ratio is. *)
Theorem add_ellipse_ratio_check (self : CreatorInterface) (center major_axis : value)
    (ratio : number) (start_param end_param : value) (dxfattribs : option loc) (w : world) :
  (String.ltb (dxfversion (doc self)) "AC1015" = true ->
   add_ellipse self center major_axis ratio start_param end_param dxfattribs w
   = (w, Raised (DXFVersionError "ELLIPSE requires DXF version R2000+"))) /\
  (String.ltb (dxfversion (doc self)) "AC1015" = false ->
   (gt_one ratio = true ->
    add_ellipse self center major_axis ratio start_param end_param dxfattribs w
    = (w, Raised (DXFValueError "Parameter 'ratio' has to be <= 1.0"))) /\
   (ratio = NInt 1 \/ ratio = NFloat 1 ->
    snd (add_ellipse self center major_axis ratio start_param end_param dxfattribs w)
    = Returned (VObj (objects w)) /\
    exists a,
      created (trace (fst (add_ellipse self center major_axis ratio start_param end_param
                             dxfattribs w)))
      = created (trace w) ++ [("ELLIPSE", a)] /\
      a !! "ratio" = Some (number_value ratio))).
Proof.
  split; [| intros Hv; split].
  - intros Hv. unfold add_ellipse. now rewrite Hv.
  - intros Hr. unfold add_ellipse. now rewrite Hv, Hr.
  - intros Hone.
    assert (gt_one ratio = false) as Hr by (destruct Hone; subst ratio; reflexivity).
    change (wp (add_ellipse self center major_axis ratio start_param end_param dxfattribs) w
              (fun w' r => r = Returned (VObj (objects w)) /\
                           exists a, created (trace w') = created (trace w) ++ [("ELLIPSE", a)] /\
                                     a !! "ratio" = Some (number_value ratio))).
    unfold add_ellipse. rewrite Hv, Hr. wp_run.
    split; [reflexivity |]. eexists. split.
    + rewrite !created_snoc, <- ?app_assoc. cbn [app]. rewrite ?app_nil_r. reflexivity.
    + rewrite !lookup_insert_ne by discriminate. apply lookup_insert_eq.
Qed.

End Ellipse.

Lemma add_ellipse_ratio_check_witness :
  add_ellipse (E := example_externals) r2000_modelspace (VTuple [VInt 0; VInt 0])
    (VTuple [VInt 1; VInt 0; VInt 0]) (NFloat 1.5) (VInt 0) (VFloat 0x1.921fb54442d18p+2) None empty_world
  = (empty_world, Raised (DXFValueError "Parameter 'ratio' has to be <= 1.0")).
Proof.
  apply (add_ellipse_ratio_check (E := example_externals) r2000_modelspace); reflexivity.
Defined.

(** C8 (as the specification has it) fails below R2000: a ratio of 2 on an R12
    document is refused for the version, not for the ratio. *)
Lemma add_ellipse_ratio_r12_version_error :
  gt_one (NFloat 2) = true /\
  add_ellipse (E := example_externals) r12_modelspace (VTuple [VInt 0; VInt 0])
    (VTuple [VInt 1; VInt 0; VInt 0]) (NFloat 2) (VInt 0) (VFloat 0x1.921fb54442d18p+2) None empty_world
  = (empty_world, Raised (DXFVersionError "ELLIPSE requires DXF version R2000+")).
Proof. split; reflexivity. Qed.

(** ** Linear and aligned dimensions *)

Lemma updated_app (t1 t2 : list event) : updated (t1 ++ t2) = updated t1 ++ updated t2.
Proof. unfold updated. apply omap_app. Qed.

Section LinearDim.
Context {E : Externals}.

(** What [add_linear_dim] hands to [update_dxf_attribs] when its conversions
    succeed. *)
Lemma add_linear_dim_updates (self : CreatorInterface) (base p1 p2 : value)
    (location : option value) (text : value) (angle : number) (text_rotation : option number)
    (dimstyle : value) (override dxfattribs : option loc) (w : world)
    (b v1 v2 : Vec) (a : float) (rotation : option float) :
  allocated dxfattribs w ->
  Vector [base] = Returned b -> Vector [p1] = Returned v1 -> Vector [p2] = Returned v2 ->
  py_float angle = Returned a ->
  match text_rotation, rotation with
  | Some r, Some f => py_float r = Returned f
  | None, None => True
  | _, _ => False
  end ->
  let given := match dxfattribs with Some l => deref l w | None => ∅ end in
  let basic := linear_dim_attribs given dimstyle b text v1 v2 a in
  updated (trace (fst (add_linear_dim self base p1 p2 location text angle text_rotation
                         dimstyle override dxfattribs w)))
  = updated (trace w) ++ [match rotation with
                          | Some f => <["text_rotation" := VFloat f]> basic
                          | None => basic
                          end].
Proof.
  intros Hl Hb H1 H2 Ha Hr given basic. subst given basic. unfold linear_dim_attribs, deref.
  match goal with |- updated (trace (fst (?m w))) = ?rhs =>
    change (wp m w (fun w' _ => updated (trace w') = rhs)) end.
  unfold add_linear_dim.
  assert (match dxfattribs with
          | Some l => default ∅ ((heap w ++ [writes "create_db_entry"
                        {[ "dimtype" := VInt (Z.lor DIM_LINEAR DIM_BLOCK_EXCLUSIVE) ]}]) !! l)
          | None => ∅
          end
          = match dxfattribs with Some l => default ∅ (heap w !! l) | None => ∅ end) as Hgiven.
  { destruct dxfattribs as [l |]; [| reflexivity]. cbn [allocated] in Hl.
    now rewrite lookup_app_l by lia. }
  wp_run. rewrite Hgiven, Hb. wp_run. rewrite H1. wp_run. rewrite H2. wp_run. rewrite Ha.
  destruct text_rotation as [r |], rotation as [f |]; try contradiction;
    wp_run; rewrite ?Hr; wp_run.
  all: rewrite !updated_app, <- ?app_assoc; cbn [updated omap list_omap app];
         rewrite ?app_nil_r; reflexivity.
Qed.

(** C5: when [text_rotation] is given, the attribute set [add_linear_dim]
    hands to the dimension has ['text_rotation'] equal to
    [float(text_rotation)], whatever [angle] (and every other argument) is;
    when it is [None], ['text_rotation'] is what the caller's [dxfattribs]
    has for it, if anything. *)
Theorem text_rotation_is_absolute (self : CreatorInterface) (base p1 p2 : value)
    (location : option value) (text : value) (angle : number) (text_rotation : option number)
    (dimstyle : value) (override dxfattribs : option loc) (w : world)
    (b v1 v2 : Vec) (a : float) :
  allocated dxfattribs w ->
  Vector [base] = Returned b -> Vector [p1] = Returned v1 -> Vector [p2] = Returned v2 ->
  py_float angle = Returned a ->
  let given := match dxfattribs with Some l => deref l w | None => ∅ end in
  let result := add_linear_dim self base p1 p2 location text angle text_rotation
                  dimstyle override dxfattribs w in
  (forall r f, text_rotation = Some r -> py_float r = Returned f ->
     exists sent, updated (trace (fst result)) = updated (trace w) ++ [sent] /\
                  sent !! "text_rotation" = Some (VFloat f)) /\
  (text_rotation = None ->
     exists sent, updated (trace (fst result)) = updated (trace w) ++ [sent] /\
                  sent !! "text_rotation" = given !! "text_rotation").
Proof.
  intros Hl Hb H1 H2 Ha given result. subst result. split.
  - intros r f -> Hr. eexists. split.
    + apply (add_linear_dim_updates self base p1 p2 location text angle (Some r) dimstyle
               override dxfattribs w b v1 v2 a (Some f)); assumption.
    + apply lookup_insert_eq.
  - intros ->. eexists. split.
    + apply (add_linear_dim_updates self base p1 p2 location text angle None dimstyle
               override dxfattribs w b v1 v2 a None); try assumption. exact I.
    + unfold linear_dim_attribs. now rewrite !lookup_insert_ne by discriminate.
Qed.

End LinearDim.

Lemma text_rotation_is_absolute_witness :
  exists sent,
    updated (trace (fst (add_linear_dim (E := example_externals) r2000_modelspace
                           (VTuple [VInt 0; VInt 5]) (VTuple [VInt 0; VInt 0])
                           (VTuple [VInt 10; VInt 0]) None (VStr "<>") (NInt 90)
                           (Some (NInt 45)) (VStr "EZDXF") None None empty_world)))
    = [sent] /\
    sent !! "text_rotation" = Some (VFloat 45).
Proof.
  refine (proj1 (text_rotation_is_absolute (E := example_externals) r2000_modelspace
                   (VTuple [VInt 0; VInt 5]) (VTuple [VInt 0; VInt 0])
                   (VTuple [VInt 10; VInt 0]) None (VStr "<>") (NInt 90)
                   (Some (NInt 45)) (VStr "EZDXF") None None empty_world
                   (mkVec 0 5 0) (mkVec 0 0 0) (mkVec 10 0 0) 90 I eq_refl eq_refl eq_refl eq_refl)
                (NInt 45) 45%float eq_refl eq_refl).
Defined.

Section AlignedDim.
Context {E : Externals}.

(** [add_linear_dim] looks at its points through [Vector] only. *)
Lemma add_linear_dim_points (self : CreatorInterface) (base p1 p2 p1' p2' : value)
    (location : option value) (text : value) (angle : number) (text_rotation : option number)
    (dimstyle : value) (override dxfattribs : option loc) :
  Vector [p1] = Vector [p1'] -> Vector [p2] = Vector [p2'] ->
  add_linear_dim self base p1 p2 location text angle text_rotation dimstyle override dxfattribs
  = add_linear_dim self base p1' p2' location text angle text_rotation dimstyle override dxfattribs.
Proof.
  intros H1 H2. unfold add_linear_dim. rewrite H1, H2. reflexivity.
Qed.

(** When the direction cannot be normalized, nothing is created. *)
Lemma add_aligned_dim_raises (self : CreatorInterface) (p1 p2 : value) (distance : number)
    (text dimstyle : value) (override dxfattribs : option loc) (w : world) (v1 v2 : Vec) (e : exn) :
  Vector [p1] = Returned v1 -> Vector [p2] = Returned v2 ->
  normalize (orthogonal (vec_sub v2 v1)) distance = Raised e ->
  add_aligned_dim self p1 p2 distance text dimstyle override dxfattribs w = (w, Raised e).
Proof.
  intros H1 H2 Hbase. unfold add_aligned_dim, bind, lift. now rewrite H1, H2, Hbase.
Qed.

(** C2: [add_aligned_dim(p1, p2, d)] is [add_linear_dim] with
    [base = orthogonal(p2 - p1).normalize(d)], the same two points and
    [angle = (p2 - p1).angle_deg]: the two calls end in the same world (the
    same entity, the same attribute set handed to it) and return the same
    style object.  [p1 != p2] is what makes the base defined. *)
Theorem aligned_dim_is_linear_dim (self : CreatorInterface) (p1 p2 : value) (distance : number)
    (text dimstyle : value) (override dxfattribs : option loc) (w : world) (v1 v2 base : Vec) :
  (forall v, Vector [VVector v] = Returned v) ->
  Vector [p1] = Returned v1 -> Vector [p2] = Returned v2 ->
  v1 <> v2 ->
  normalize (orthogonal (vec_sub v2 v1)) distance = Returned base ->
  add_aligned_dim self p1 p2 distance text dimstyle override dxfattribs w
  = add_linear_dim self (VVector base) p1 p2 None text (NFloat (angle_deg (vec_sub v2 v1))) None
      dimstyle override dxfattribs w.
Proof.
  intros Hvec H1 H2 _ Hbase.
  rewrite (add_linear_dim_points self (VVector base) p1 p2 (VVector v1) (VVector v2)) by
    (rewrite Hvec; assumption).
  unfold add_aligned_dim. unfold bind at 1 2 3, lift at 1 2 3.
  rewrite H1, H2, Hbase. reflexivity.
Qed.

End AlignedDim.

Lemma aligned_dim_is_linear_dim_witness :
  add_aligned_dim (E := example_externals) r2000_modelspace
    (VTuple [VInt 0; VInt 0]) (VTuple [VInt 10; VInt 0]) (NInt 5)
    (VStr "<>") (VStr "EZDXF") None None empty_world
  = add_linear_dim (E := example_externals) r2000_modelspace
      (VVector (mkVec (-0) 5 0)) (VTuple [VInt 0; VInt 0]) (VTuple [VInt 10; VInt 0])
      None (VStr "<>") (NFloat 0) None (VStr "EZDXF") None None empty_world.
Proof.
  apply (aligned_dim_is_linear_dim (E := example_externals) r2000_modelspace
           (VTuple [VInt 0; VInt 0]) (VTuple [VInt 10; VInt 0]) (NInt 5)
           (VStr "<>") (VStr "EZDXF") None None empty_world
           (mkVec 0 0 0) (mkVec 10 0 0) (mkVec (-0) 5 0)).
  - intros v. reflexivity.
  - reflexivity.
  - reflexivity.
  - intros Heq. apply (f_equal (fun v => PrimFloat.eqb (vx v) 0)) in Heq.
    vm_compute in Heq. discriminate Heq.
  - reflexivity.
Defined.

(** The aligned dimension of the segment from (0, 0) to (10, 0) at distance
    5: the dimension line has angle 0 and goes through (0, 5, 0) (the first
    coordinate is a negative zero, which is equal to 0). *)
Example add_aligned_dim_horizontal :
  updated (trace (fst (add_aligned_dim (E := example_externals) r2000_modelspace
                         (VTuple [VInt 0; VInt 0]) (VTuple [VInt 10; VInt 0]) (NInt 5)
                         (VStr "<>") (VStr "EZDXF") None None empty_world)))
  = [linear_dim_attribs ∅ (VStr "EZDXF") (mkVec (-0) 5 0) (VStr "<>")
       (mkVec 0 0 0) (mkVec 10 0 0) 0].
Proof. reflexivity. Qed.

(** ** Automatic block references *)

Lemma attribs_added_app (t1 t2 : list event) :
  attribs_added (t1 ++ t2) = attribs_added t1 ++ attribs_added t2.
Proof. unfold attribs_added. apply omap_app. Qed.

Section AutoBlockref.
Context {E : Externals}.

Lemma autofill_adds (values : attrs) (blockref : value) (attdefs : list attrs)
    (placeholders : list (string * value)) :
  Forall2 (fun attdef p => placeholder attdef (fst p) (snd p)) attdefs placeholders ->
  forall w,
    wp (autofill values blockref attdefs) w
      (fun w' r => r = Returned tt /\
                   length (heap w) <= length (heap w') /\
                   (forall l, l < length (heap w) -> heap w' !! l = heap w !! l) /\
                   attribs_added (trace w')
                   = attribs_added (trace w) ++ zip_with (attrib_for values) attdefs placeholders).
Proof.
  unfold autofill.
  induction 1 as [| attdef [tag insert] attdefs placeholders [Htag Hinsert] _ IH]; intros w.
  - wp_run. rewrite app_nil_r. repeat split; auto.
  - cbn [fst snd] in *. unfold get_dxfattribs, unpack. wp_run.
    eapply wp_dict_pop;
      [store_simpl; rewrite !lookup_delete_ne by discriminate; exact Htag | store_simpl].
    wp_run. unfold py_get. wp_run.
    eapply wp_dict_pop;
      [store_simpl; rewrite !lookup_delete_ne by discriminate; exact Hinsert | store_simpl].
    wp_run.
    match goal with |- wp _ ?w1 _ => specialize (IH w1) end.
    unfold wp in *. destruct (for_each attdefs _ _) as [w2 r2].
    cbn [fst snd heap trace] in *. destruct IH as (Hr & Hlen & Hframe & Hadded).
    rewrite length_app in Hlen. cbn [length] in Hlen.
    split; [exact Hr |]. split; [lia |]. split.
    + intros l Hl. rewrite Hframe by (rewrite length_app; lia).
      now rewrite lookup_app_l by lia.
    + rewrite Hadded, !attribs_added_app, <- !app_assoc. reflexivity.
Qed.

(** C6: for a block whose attribute definitions each have a tag and an
    insert point, [add_auto_blockref] makes one [add_attrib] call per
    definition, in order: the tag, the text found for the tag in [values] (the
    empty string when there is none), the insert point of the definition, and
    the attributes of the definition without ['prompt'] and ['handle']. *)
Theorem auto_blockref_attribs (self : CreatorInterface) (name : string) (insert : value)
    (values : attrs) (dxfattribs : option loc) (w : world)
    (attdefs : list attrs) (placeholders : list (string * value)) :
  blocks (doc self) !! name = Some attdefs ->
  Forall2 (fun attdef p => placeholder attdef (fst p) (snd p)) attdefs placeholders ->
  let added := zip_with (attrib_for values) attdefs placeholders in
  attribs_added (trace (fst (add_auto_blockref self name insert values dxfattribs w)))
  = attribs_added (trace w) ++ added /\
  length added = length attdefs /\
  Forall (fun '(_, _, _, copied) => copied !! "prompt" = None /\ copied !! "handle" = None) added.
Proof.
  intros Hblock Hdefs added. split; [| split].
  - match goal with |- attribs_added (trace (fst (?m w))) = ?rhs =>
      change (wp m w (fun w' _ => attribs_added (trace w') = rhs)) end.
    unfold add_auto_blockref. wp_run. rewrite Hblock. wp_run.
    match goal with |- wp (autofill _ ?b _) ?w1 ?Q =>
      pose proof (autofill_adds values b attdefs placeholders Hdefs w1) as Hfill end.
    unfold wp in *. destruct (autofill _ _ _ _) as [w2 r2]. cbn [fst snd] in *.
    destruct Hfill as (-> & _ & _ & Hadded). cbn [trace] in Hadded.
    unfold add_blockref.
    match goal with |- context [dict_copy_or_empty ?d] =>
      change (wp (let! dxfattribs := dict_copy_or_empty d in
                  dict_set dxfattribs "name" (getattr (VObj (objects w)) "name") ;;;
                  dict_set dxfattribs "insert" insert ;;;
                  let! blockref := new_entity self "INSERT" dxfattribs in
                  ret blockref) w2
                (fun w' _ => attribs_added (trace w') = attribs_added (trace w) ++ added)) end.
    wp_run. rewrite !attribs_added_app, Hadded, !attribs_added_app. cbn [attribs_added omap list_omap].
    now rewrite !app_nil_r.
  - subst added. rewrite length_zip_with. apply Forall2_length in Hdefs. lia.
  - subst added. clear Hblock. induction Hdefs as [| attdef p attdefs placeholders _ _ IH].
    + constructor.
    + cbn [zip_with]. constructor; [| exact IH].
      unfold attrib_for, copied_attribs. split.
      * rewrite !lookup_delete_ne by discriminate. apply lookup_delete_eq.
      * rewrite !lookup_delete_ne by discriminate. apply lookup_delete_eq.
Qed.

End AutoBlockref.

Lemma auto_blockref_attribs_witness :
  attribs_added (trace (fst (add_auto_blockref (E := example_externals) title_modelspace "TITLE"
                               (VTuple [VInt 0; VInt 0]) {[ "NAME" := VStr "A-101" ]} None
                               empty_world)))
  = [(VStr "NAME", VStr "A-101", VTuple [VInt 1; VInt 2], copied_attribs example_attdef)].
Proof.
  assert (Forall2 (fun attdef p => placeholder attdef (fst p) (snd p))
            [example_attdef] [("NAME", VTuple [VInt 1; VInt 2])]) as Hdefs.
  { apply Forall2_cons_2; [split; reflexivity | apply Forall2_nil_2]. }
  destruct (auto_blockref_attribs (E := example_externals) title_modelspace "TITLE"
              (VTuple [VInt 0; VInt 0]) {[ "NAME" := VStr "A-101" ]} None empty_world
              [example_attdef] [("NAME", VTuple [VInt 1; VInt 2])] eq_refl Hdefs) as [Hadded _].
  etransitivity; [exact Hadded | reflexivity].
Defined.

(** ** The caller's dictionary is left alone *)

Lemma wp_mono {A} (m : M A) (w : world) (P Q : world -> outcome A -> Prop) :
  wp m w P -> (forall w' r, P w' r -> Q w' r) -> wp m w Q.
Proof. unfold wp. auto. Qed.

Lemma frame_refl (w : world) : frame w w.
Proof. split; auto. Qed.

Lemma frame_trans (w1 w2 w3 : world) : frame w1 w2 -> frame w2 w3 -> frame w1 w3.
Proof.
  intros [Hlen1 H1] [Hlen2 H2]. split; [lia |].
  intros l Hl. rewrite H2 by lia. now apply H1.
Qed.

Section Frame.
Context {E : Externals}.

Lemma set_items_frame (entity : value) (xs : list (nat * value)) (w : world) :
  wp (for_each xs (fun '(x, point) => emit (EvSetItem entity x point))) w
    (fun w' _ => heap w' = heap w).
Proof.
  revert w. induction xs as [| [x point] xs IH]; intros w; [reflexivity |].
  apply wp_for_each_cons, wp_bind, wp_emit, wp_cont_returned.
  apply (wp_mono _ _ _ _ (IH _)). auto.
Qed.

(** Unfolds the methods down to the statements of the store and the trace. *)
Ltac unfold_methods :=
  unfold add_point, add_line, add_circle, add_ellipse, add_arc, add_solid, add_trace,
    add_3dface, _add_quadrilateral, add_text, add_auto_blockref, add_attrib,
    add_polyline3d, add_polymesh, add_polyface, add_shape, add_lwpolyline, add_mtext,
    add_ray, add_xline, add_spline_control_frame, add_spline_approx, add_open_spline,
    add_closed_spline, add_rational_spline, add_closed_rational_spline, add_body, add_region,
    add_3dsolid, add_surface, add_extruded_surface, add_lofted_surface, add_revolved_surface,
    add_swept_surface, _add_acis_entiy, add_hatch, add_mesh, add_image, add_underlay,
    add_aligned_dim, add_linear_dim, add_multi_point_linear_dim, add_angular_dim,
    add_diameter_dim, add_radius_dim, add_angular_3p_dim, add_ordinate_dim, add_arrow,
    add_arrow_blockref, add_polyline2d, add_blockref, add_spline, set_knots.

(** A statement, or a case distinction where the next statement depends on
    a value that is not known. *)
Ltac frame_step :=
  lazymatch goal with
  | |- wp_cont _ _ _ (Returned _) => wp_step
  | |- wp_cont _ _ _ (Raised _) => wp_step
  | |- wp_cont _ _ _ ?r => destruct r
  | |- wp (dict_pop _ _) _ _ => apply wp_dict_pop_cases; [intros ? |]; store_simpl
  | |- wp (if ?b then _ else _) _ _ => destruct b
  | |- wp (match ?x with _ => _ end) _ _ => destruct x
  | |- wp (for_each _ (fun '(x, point) => emit (EvSetItem _ x point))) ?w _ =>
      let w' := fresh "w" in
      let Hheap := fresh "Hheap" in
      apply (wp_mono _ _ _ _ (set_items_frame _ _ _)); intros w' ? Hheap; cbn [heap] in Hheap
  | |- _ => wp_step
  end.

Ltac frame_done :=
  cbn [heap objects trace fst snd];
  repeat match goal with H : heap _ = _ |- _ => rewrite H end;
  store_simpl;
  rewrite ?list_lookup_insert_ne by congruence;
  store_simpl;
  repeat match goal with
         | H : forall l, _ -> heap _ !! l = _ |- _ => rewrite H by store_len
         end;
  store_simpl;
  try reflexivity.

Lemma frame_alloc (w : world) (c : attrs) (o : nat) (t : list event) :
  frame w {| heap := heap w ++ [c]; objects := o; trace := t |}.
Proof.
  split; cbn [heap]; [rewrite length_app; lia |].
  intros l Hl. now rewrite lookup_app_l.
Qed.

(** [autofill] writes into the dictionaries it makes, and into no other. *)
Lemma autofill_frame (values : attrs) (blockref : value) (attdefs : list attrs) (w : world) :
  wp (autofill values blockref attdefs) w (fun w' _ => frame w w').
Proof.
  unfold autofill. revert w. induction attdefs as [| attdef attdefs IH]; intros w.
  - apply wp_for_each_nil, frame_refl.
  - unfold get_dxfattribs, unpack.
    repeat frame_step; try apply frame_alloc.
    all: try match goal with p : (value * value * value)%type |- _ => destruct p as [[? ?] ?] end.
    all: repeat frame_step; try apply frame_alloc.
    all: match goal with |- wp _ ?w1 _ => apply (wp_mono _ _ _ _ (IH w1)) end.
    all: intros w2 r Hframe; apply (frame_trans _ _ _ (frame_alloc _ _ _ _) Hframe).
Qed.

(** The frame of [autofill], at the place of the loop in a method. *)
Ltac frame_step' :=
  lazymatch goal with
  | |- wp (autofill _ _ _) ?w _ =>
      let w' := fresh "w" in
      let Hlen := fresh "Hlen" in
      let Hframe := fresh "Hframe" in
      apply (wp_mono _ _ _ _ (autofill_frame _ _ _ _)); intros w' ? [Hlen Hframe];
      cbn [heap] in Hlen, Hframe; rewrite ?length_app in Hlen; cbn [length] in Hlen
  | |- _ => frame_step
  end.

(** C9 (as the code has it): every method that makes its own copy of
    [dxfattribs] (all but [add_arrow], [add_arrow_blockref] and
    [add_multi_point_linear_dim]) leaves the caller's dictionary as it was,
    whatever the collaborators store into the dictionaries they are handed,
    and also when the method raises.  For a dimension, the caller's
    [override] is another dictionary than [dxfattribs]. *)
Theorem caller_dxfattribs_unchanged (self : CreatorInterface) (r : request) (l : loc) (w : world) :
  forwards_dxfattribs r = false ->
  override_of r <> Some l ->
  l < length (heap w) ->
  heap (fst (perform self r (Some l) w)) !! l = heap w !! l.
Proof.
  intros Hfwd Hover Hl.
  change (wp (perform self r (Some l)) w (fun w' _ => heap w' !! l = heap w !! l)).
  destruct r; try discriminate Hfwd; cbn [perform override_of] in *; unfold_methods.
  all: repeat frame_step'; frame_done.
Qed.

End Frame.

Lemma caller_dxfattribs_unchanged_witness :
  heap (fst (perform (E := example_externals) r2000_modelspace (AddPolyline2d (VList []))
               (Some 0) (world_with {[ "closed" := VBool true ]}))) !! 0
  = Some {[ "closed" := VBool true ]}.
Proof.
  etransitivity.
  - apply (caller_dxfattribs_unchanged (E := example_externals) r2000_modelspace
             (AddPolyline2d (VList [])) 0 (world_with {[ "closed" := VBool true ]})).
    + reflexivity.
    + discriminate.
    + cbn. lia.
  - reflexivity.
Defined.

(** C9 (as the specification has it) says that every method works on a
    fresh copy.  [add_arrow], [add_arrow_blockref] and
    [add_multi_point_linear_dim] make no copy: after the call the store holds
    the caller's dictionary and no other, and what the renderer has been handed
    is the caller's dictionary itself, the one at address 0.  The same holds of
    a dictionary that the caller gives a dimension both as [dxfattribs] and as
    [override]: [add_radius_dim] copies it for [update_dxf_attribs] (the copy
    is at address 2), and hands the dictionary at address 0 itself to
    [DimStyleOverride]. *)
Lemma forwarding_methods_make_no_copy :
  perform (E := example_externals) r2000_modelspace
    (AddArrow (VStr "CLOSED") (VTuple [VInt 0; VInt 0]) (VInt 1) (VInt 0))
    (Some 0) (world_with {[ "layer" := VStr "DIM" ]})
  = ({| heap := [ {[ "layer" := VStr "DIM" ]} ]; objects := 1;
        trace := [EvCall "ARROWS.render_arrow" (VStr "Model")
                    [AVal (VStr "CLOSED"); AVal (VTuple [VInt 0; VInt 0]); AVal (VInt 1);
                     AVal (VInt 0); ADict 0 {[ "layer" := VStr "DIM" ]}] (VObj 0)] |},
     Returned (VObj 0)) /\
  perform (E := example_externals) r2000_modelspace
    (AddArrowBlockref (VStr "CLOSED") (VTuple [VInt 0; VInt 0]) (VInt 1) (VInt 0))
    (Some 0) (world_with {[ "layer" := VStr "DIM" ]})
  = ({| heap := [ {[ "layer" := VStr "DIM" ]} ]; objects := 1;
        trace := [EvCall "ARROWS.insert_arrow" (VStr "Model")
                    [AVal (VStr "CLOSED"); AVal (VTuple [VInt 0; VInt 0]); AVal (VInt 1);
                     AVal (VInt 0); ADict 0 {[ "layer" := VStr "DIM" ]}] (VObj 0)] |},
     Returned (VObj 0)) /\
  perform (E := example_externals) r2000_modelspace
    (AddMultiPointLinearDim (VTuple [VInt 0; VInt 0]) (VList []) (VInt 0) VNone (VBool true)
       (VStr "EZDXF") None (VBool false))
    (Some 0) (world_with {[ "layer" := VStr "DIM" ]})
  = ({| heap := [ {[ "layer" := VStr "DIM" ]} ]; objects := 1;
        trace := [EvCall "multi_point_linear_dimension" VNone
                    [AVal (VStr "Model"); AVal (VTuple [VInt 0; VInt 0]); AVal (VList []);
                     AVal (VInt 0); AVal VNone; AVal (VBool true); AVal (VStr "EZDXF");
                     AVal VNone; ADict 0 {[ "layer" := VStr "DIM" ]}; AVal (VBool false)]
                    (VObj 0)] |},
     Returned VNone) /\
  trace (fst (perform (E := example_externals) r2000_modelspace (AddRadiusDim (Some 0))
                (Some 0) (world_with {[ "layer" := VStr "DIM" ]})))
  = [EvCreateDbEntry "DIMENSION" {[ "dimtype" := VInt 36 ]} 0;
     EvAddEntity "Model" 0;
     EvCall "cast" (VObj 0) [] (VObj 1);
     EvCall "update_dxf_attribs" (VObj 1) [ADict 2 {[ "layer" := VStr "DIM" ]}] (VObj 2);
     EvCall "DimStyleOverride" VNone [AVal (VObj 1); ADict 0 {[ "layer" := VStr "DIM" ]}]
       (VObj 3)].
Proof. repeat split; reflexivity. Qed.

(** ** More about the methods

    The statements below are read off the code of the methods, one family
    at a time. *)

(** A case distinction on a value the model does not fix. *)
Ltac wp_case :=
  lazymatch goal with
  | |- wp_cont _ _ _ ?r => destruct r
  | |- wp (if ?b then _ else _) _ _ => destruct b eqn:?
  end.

Lemma wp_dict_pop_missing (d : loc) (key : string) (w : world)
    (Q : world -> outcome value -> Prop) :
  deref d w !! key = None -> Q w (Raised (KeyError key)) -> wp (dict_pop d key) w Q.
Proof. intros Hkey. unfold wp, dict_pop. now rewrite Hkey. Qed.

(** *** Positional arguments win over [dxfattribs] *)

Lemma assign_all_lookup_other (fields : list (string * value)) (given : attrs) (k : string) :
  k ∉ fields.*1 -> assign_all fields given !! k = given !! k.
Proof.
  unfold assign_all. revert given.
  induction fields as [| [k' v'] fields IH]; intros given Hk; [reflexivity |].
  cbn [fold_left fst snd]. rewrite fmap_cons in Hk. cbn [fst] in Hk.
  apply not_elem_of_cons in Hk as [Hne Hk].
  rewrite IH by exact Hk. now apply lookup_insert_ne.
Qed.

Lemma assign_all_lookup (fields : list (string * value)) (given : attrs) (k : string) (v : value) :
  NoDup fields.*1 -> (k, v) ∈ fields -> assign_all fields given !! k = Some v.
Proof.
  unfold assign_all. revert given.
  induction fields as [| [k' v'] fields IH]; intros given Hnodup Hin.
  - apply elem_of_nil in Hin as [].
  - rewrite fmap_cons in Hnodup. cbn [fst] in Hnodup.
    apply NoDup_cons in Hnodup as [Hfresh Hnodup].
    cbn [fold_left fst snd]. apply elem_of_cons in Hin as [Heq | Hin].
    + injection Heq as -> ->.
      fold (assign_all fields (<[k' := v']> given)).
      rewrite assign_all_lookup_other by exact Hfresh. apply lookup_insert_eq.
    + now apply IH.
Qed.

Section Positional.
Context {E : Externals}.

(** X1: a method of the table creates, at every version it accepts, exactly
    one entity of its kind and returns it; the attribute set of the entity is
    the caller's, with the positional arguments stored over it: a positional
    argument replaces what the caller has under the same key, every other key
    of the caller is kept. *)
Theorem positional_arguments_win (self : CreatorInterface) (r : request)
    (dxfattribs : option loc) (w : world) (kind : string) (fields : list (string * value)) :
  positional r = Some (kind, fields) ->
  (checks_r2000 r = true -> String.ltb (dxfversion (doc self)) DXF2000 = false) ->
  let given := match dxfattribs with Some l => deref l w | None => ∅ end in
  let sent := assign_all fields given in
  snd (perform self r dxfattribs w) = Returned (VObj (objects w)) /\
  created (trace (fst (perform self r dxfattribs w))) = created (trace w) ++ [(kind, sent)] /\
  (forall k v, (k, v) ∈ fields -> sent !! k = Some v) /\
  (forall k, k ∉ fields.*1 -> sent !! k = given !! k).
Proof.
  intros Hr Hversion given sent. split; [| split; [| split]].
  3: { intros k v Hin. apply assign_all_lookup; [| exact Hin].
       destruct r; try discriminate Hr; injection Hr as <- <-; cbn [fmap list_fmap fst];
         apply (bool_decide_unpack _); vm_compute; reflexivity. }
  3: { intros k Hk. now apply assign_all_lookup_other. }
  all: subst sent given; unfold deref;
    destruct r; try discriminate Hr; injection Hr as <- <-;
    cbn [perform checks_r2000] in *; try rewrite (Hversion eq_refl).
  all: match goal with
       | |- snd (?m ?w0) = ?res => change (wp m w0 (fun _ r => r = res))
       | |- created (trace (fst (?m ?w0))) = ?rhs =>
           change (wp m w0 (fun w' _ => created (trace w') = rhs))
       end.
  all: unfold add_point, add_line, add_circle, add_arc, add_blockref, add_attrib, add_shape,
         add_ray, add_xline, add_hatch, add_spline, add_mtext, add_mesh;
       try rewrite (Hversion eq_refl); wp_run.
  all: try reflexivity.
  all: rewrite !created_snoc, <- ?app_assoc; cbn [app]; rewrite ?app_nil_r; reflexivity.
Qed.

End Positional.

Lemma positional_arguments_win_witness :
  exists sent : attrs,
    created (trace (fst (perform (E := example_externals) r2000_modelspace
                           (AddCircle (VTuple [VInt 0; VInt 0]) (VInt 5)) (Some 0)
                           (world_with (<["radius" := VInt 1]> {[ "layer" := VStr "0" ]})))))
    = [("CIRCLE", sent)] /\
    sent !! "radius" = Some (VInt 5) /\ sent !! "layer" = Some (VStr "0").
Proof.
  destruct (positional_arguments_win (E := example_externals) r2000_modelspace
              (AddCircle (VTuple [VInt 0; VInt 0]) (VInt 5)) (Some 0)
              (world_with (<["radius" := VInt 1]> {[ "layer" := VStr "0" ]}))
              "CIRCLE" [("center", VTuple [VInt 0; VInt 0]); ("radius", VInt 5)]
              eq_refl (fun H => match Bool.diff_false_true H with end))
    as (_ & Hcreated & Hfields & Hother).
  eexists. split; [exact Hcreated | split].
  - apply Hfields. apply elem_of_cons. right. apply elem_of_cons. left. reflexivity.
  - rewrite Hother; [reflexivity |]. apply (bool_decide_unpack _). vm_compute. reflexivity.
Defined.

(** *** Defaults and keys that are not attributes *)

Section Defaults.
Context {E : Externals}.

(** X2: [add_text] stores the text over the caller's attributes, and the
    origin [Vector()] as insert point only when the caller has no ['insert']:
    unlike a positional argument, the default never replaces a caller's
    entry. *)
Theorem add_text_default_insert (self : CreatorInterface) (text : value)
    (dxfattribs : option loc) (w : world) (origin : Vec) :
  Vector [] = Returned origin ->
  let given := match dxfattribs with Some l => deref l w | None => ∅ end in
  exists sent : attrs,
    snd (add_text self text dxfattribs w) = Returned (VObj (objects w)) /\
    created (trace (fst (add_text self text dxfattribs w))) = created (trace w) ++ [("TEXT", sent)] /\
    sent !! "text" = Some text /\
    sent !! "insert" = Some (default (VVector origin) (given !! "insert")) /\
    (forall k, k <> "text" -> k <> "insert" -> sent !! k = given !! k).
Proof.
  intros Horigin given. subst given. unfold deref.
  match goal with |- exists sent : attrs, snd (?m ?w0) = ?res /\ _ =>
    change (wp m w0 (fun w' r => exists sent : attrs,
              r = res /\
              created (trace w') = created (trace w) ++ [("TEXT", sent)] /\
              sent !! "text" = Some text /\
              sent !! "insert"
              = Some (default (VVector origin)
                        (match dxfattribs with
                         | Some l => default ∅ (heap w !! l)
                         | None => ∅
                         end !! "insert")) /\
              (forall k, k <> "text" -> k <> "insert" ->
                 sent !! k = match dxfattribs with
                             | Some l => default ∅ (heap w !! l)
                             | None => ∅
                             end !! k)))
  end.
  unfold add_text.
  repeat (lazymatch goal with
          | |- wp (dict_setdefault _ _ _) _ _ => fail
          | |- _ => wp_step
          end).
  rewrite Horigin. wp_step.
  apply wp_bind, wp_dict_setdefault; store_simpl.
  - intros [v Hv]. rewrite lookup_insert_ne in Hv by discriminate.
    wp_run. eexists. split; [reflexivity |]. split; [| split; [| split]].
    + rewrite !created_snoc, <- ?app_assoc. cbn [app]. rewrite ?app_nil_r. reflexivity.
    + apply lookup_insert_eq.
    + rewrite lookup_insert_ne by discriminate. now rewrite Hv.
    + intros k Htext _. now rewrite lookup_insert_ne.
  - intros Hnone. rewrite lookup_insert_ne in Hnone by discriminate.
    wp_run. eexists. split; [reflexivity |]. split; [| split; [| split]].
    + rewrite !created_snoc, <- ?app_assoc. cbn [app]. rewrite ?app_nil_r. reflexivity.
    + rewrite lookup_insert_ne by discriminate. apply lookup_insert_eq.
    + rewrite Hnone. apply lookup_insert_eq.
    + intros k Htext Hinsert. now rewrite !lookup_insert_ne.
Qed.

(** X3: the ['closed'] entry of [dxfattribs] is never handed to the
    database.  [add_polyline2d] takes it out of the attribute set and passes it
    (or [False]) to [close]; [add_lwpolyline] does the same and assigns it to
    the [closed] attribute of the new entity, after the points are set. *)
Theorem closed_is_not_an_attribute (self : CreatorInterface) (points format : value)
    (dxfattribs : option loc) (w : world) :
  let given := match dxfattribs with Some l => deref l w | None => ∅ end in
  let closed := default (VBool false) (given !! "closed") in
  let h := objects w in
  delete "closed" given !! "closed" = None /\
  trace (fst (add_polyline2d self points dxfattribs w))
  = trace w ++ [EvCreateDbEntry "POLYLINE" (delete "closed" given) h;
                EvAddEntity (space self) h;
                EvCall "close" (VObj h) [AVal closed] (VObj (S h));
                EvCall "append_vertices" (VObj h) [AVal points] (VObj (S (S h)))] /\
  (String.ltb (dxfversion (doc self)) DXF2000 = false ->
   trace (fst (add_lwpolyline self points format dxfattribs w))
   = trace w ++ [EvCreateDbEntry "LWPOLYLINE" (delete "closed" given) h;
                 EvAddEntity (space self) h;
                 EvCall "set_points" (VObj h) [AVal points; AVal format] (VObj (S h));
                 EvSetAttr (VObj h) "closed" closed]).
Proof.
  intros given closed h. subst given closed h. unfold deref.
  split; [apply lookup_delete_eq | split].
  - match goal with |- trace (fst (?m ?w0)) = ?rhs =>
      change (wp m w0 (fun w' _ => trace w' = rhs)) end.
    unfold add_polyline2d. wp_run. rewrite <- !app_assoc. reflexivity.
  - intros Hversion.
    match goal with |- trace (fst (?m ?w0)) = ?rhs =>
      change (wp m w0 (fun w' _ => trace w' = rhs)) end.
    unfold add_lwpolyline. rewrite Hversion. wp_run. rewrite <- !app_assoc. reflexivity.
Qed.

End Defaults.

Lemma add_text_default_insert_witness :
  exists sent : attrs,
    snd (add_text (E := example_externals) r2000_modelspace (VStr "A") (Some 0)
           (world_with {[ "insert" := VTuple [VInt 3; VInt 4] ]}))
    = Returned (VObj 0) /\
    sent !! "insert" = Some (VTuple [VInt 3; VInt 4]).
Proof.
  destruct (add_text_default_insert (E := example_externals) r2000_modelspace (VStr "A") (Some 0)
              (world_with {[ "insert" := VTuple [VInt 3; VInt 4] ]}) (mkVec 0 0 0) eq_refl)
    as (sent & Hres & _ & _ & Hinsert & _).
  exists sent. split; [exact Hres | exact Hinsert].
Defined.

Lemma closed_is_not_an_attribute_witness :
  trace (fst (add_lwpolyline (E := example_externals) r2000_modelspace (VList []) (VStr "xyseb")
                (Some 0) (world_with {[ "closed" := VBool true ]})))
  = [EvCreateDbEntry "LWPOLYLINE" (delete "closed" {[ "closed" := VBool true ]}) 0;
     EvAddEntity "Model" 0;
     EvCall "set_points" (VObj 0) [AVal (VList []); AVal (VStr "xyseb")] (VObj 1);
     EvSetAttr (VObj 0) "closed" (VBool true)].
Proof.
  etransitivity.
  - apply (proj2 (proj2 (closed_is_not_an_attribute (E := example_externals) r2000_modelspace
                           (VList []) (VStr "xyseb") (Some 0)
                           (world_with {[ "closed" := VBool true ]})))).
    reflexivity.
  - vm_compute. reflexivity.
Defined.

(** ** Version gates, all at once *)

Section Gates.
Context {E : Externals}.

(** X4: in a document older than DXF R2000, every method whose first
    statement is the R2000 version check raises [DXFVersionError] at once: the
    world is as it was before the call (no dictionary made, no collaborator
    called, nothing asked of the database). *)
Theorem r2000_gate (self : CreatorInterface) (r : request) (dxfattribs : option loc) (w : world) :
  checks_r2000 r = true ->
  String.ltb (dxfversion (doc self)) DXF2000 = true ->
  exists message, perform self r dxfattribs w = (w, Raised (DXFVersionError message)).
Proof.
  intros Hchecks Hold.
  destruct r; try discriminate Hchecks; cbn [perform].
  all: unfold add_lwpolyline, add_mtext, add_ray, add_xline, add_open_spline, add_closed_spline,
         add_rational_spline, add_closed_rational_spline, add_spline, add_body, add_region,
         add_3dsolid, add_surface, add_extruded_surface, add_lofted_surface,
         add_revolved_surface, add_swept_surface, _add_acis_entiy, add_hatch, add_mesh,
         add_image, add_underlay.
  all: try destruct (String.ltb (dxfversion (doc self)) DXF2007).
  all: unfold bind; rewrite ?Hold; eexists; reflexivity.
Qed.

End Gates.

Lemma r2000_gate_witness :
  exists message,
    perform (E := example_externals) r12_modelspace (AddHatch (VInt 7)) None empty_world
    = (empty_world, Raised (DXFVersionError message)).
Proof.
  apply (r2000_gate (E := example_externals) r12_modelspace (AddHatch (VInt 7)) None empty_world);
    reflexivity.
Defined.

(** ** Polylines: a missing or unusable ['flags'] *)

Section PolylineFlags.
Context {E : Externals}.

(** X5: [add_polyline3d], [add_polymesh] and [add_polyface] read the
    caller's ['flags'] with 0 as default: without a caller's value the new
    POLYLINE has exactly the mode bit of the method.  A value that [|] does
    not take (a string, say) makes the call raise before anything is asked of
    the database. *)
Theorem polyline_flags_default_and_error (self : CreatorInterface) (r : request) (bit : Z)
    (dxfattribs : option loc) (w : world) :
  polyline_mode r = Some bit ->
  let given := match dxfattribs with Some l => deref l w | None => ∅ end in
  (given !! "flags" = None ->
   exists a : attrs,
     created (trace (fst (perform self r dxfattribs w))) = created (trace w) ++ [("POLYLINE", a)] /\
     a !! "flags" = Some (VInt bit)) /\
  (forall e, py_or (default (VInt 0) (given !! "flags")) bit = Raised e ->
     snd (perform self r dxfattribs w) = Raised e /\
     trace (fst (perform self r dxfattribs w)) = trace w).
Proof.
  intros Hmode given. subst given. unfold deref. split.
  - intros Hnone.
    match goal with |- exists a : attrs, created (trace (fst (?m ?w0))) = _ /\ _ =>
      change (wp m w0 (fun w' _ => exists a : attrs,
                         created (trace w') = created (trace w) ++ [("POLYLINE", a)] /\
                         a !! "flags" = Some (VInt bit)))
    end.
    destruct r; try discriminate Hmode; cbn [polyline_mode] in Hmode; injection Hmode as <-;
      cbn [perform]; unfold add_polyline3d, add_polyline2d, add_polymesh, add_polyface.
    all: wp_run; rewrite Hnone; cbn [default from_option id py_or]; wp_run.
    all: eexists; split;
           [rewrite !created_snoc, <- ?app_assoc; cbn [app]; rewrite ?app_nil_r; reflexivity |].
    all: rewrite ?lookup_delete_ne by discriminate; rewrite ?lookup_insert_ne by discriminate.
    all: rewrite Z.lor_0_l; apply lookup_insert_eq.
  - intros e Hraised.
    match goal with |- snd (?m ?w0) = ?res /\ _ =>
      change (wp m w0 (fun w' r' => r' = res /\ trace w' = trace w))
    end.
    destruct r; try discriminate Hmode; cbn [polyline_mode] in Hmode; injection Hmode as <-;
      cbn [perform]; unfold add_polyline3d, add_polymesh, add_polyface.
    all: wp_run; rewrite Hraised; wp_run; split; reflexivity.
Qed.

End PolylineFlags.

Lemma polyline_flags_default_and_error_witness :
  (exists a : attrs,
      created (trace (fst (perform (E := example_externals) r2000_modelspace
                             (AddPolyline3d (VList [])) None empty_world)))
      = [("POLYLINE", a)] /\
      a !! "flags" = Some (VInt 8)) /\
  snd (perform (E := example_externals) r2000_modelspace (AddPolyline3d (VList []))
         (Some 0) (world_with {[ "flags" := VStr "8" ]}))
  = Raised (TypeError "unsupported operand type(s) for |").
Proof.
  split.
  - apply (polyline_flags_default_and_error (E := example_externals) r2000_modelspace
             (AddPolyline3d (VList [])) 8 None empty_world eq_refl).
    reflexivity.
  - apply (polyline_flags_default_and_error (E := example_externals) r2000_modelspace
             (AddPolyline3d (VList [])) 8 (Some 0) (world_with {[ "flags" := VStr "8" ]})
             eq_refl).
    reflexivity.
Defined.

(** ** Quadrilaterals: the vertices of the new entity *)

Lemma set_items_from (entity : value) (items : list value) (i : nat) (w : world) :
  for_each (enumerate_from i items) (fun '(x, point) => emit (EvSetItem entity x point)) w
  = ({| heap := heap w; objects := objects w;
        trace := trace w ++ imap (fun x point => EvSetItem entity (i + x) point) items |},
     Returned tt).
Proof.
  revert i w. induction items as [| point items IH]; intros i w.
  - cbn [enumerate_from for_each imap]. rewrite app_nil_r. now destruct w.
  - cbn [enumerate_from for_each imap]. unfold bind at 1. unfold emit at 1.
    rewrite IH. cbn [heap objects trace]. rewrite <- app_assoc. cbn [app].
    rewrite Nat.add_0_r. do 4 f_equal. apply imap_ext. intros x point' _. cbn.
    f_equal. lia.
Qed.

Section QuadrilateralVertices.
Context {E : Externals}.

(** X6: with 3 or 4 points, [add_solid], [add_trace] and [add_3dface]
    create the entity from a copy of the caller's attributes alone, and then
    assign the four normalized points to its indices 0, 1, 2 and 3, in this
    order; the entity is returned. *)
Theorem quadrilateral_vertices (self : CreatorInterface) (r : request) (kind : string)
    (points four : list value) (dxfattribs : option loc) (w : world) :
  quadrilateral r = Some (kind, points) ->
  _four_points points = Returned four ->
  let given := match dxfattribs with Some l => deref l w | None => ∅ end in
  let h := objects w in
  snd (perform self r dxfattribs w) = Returned (VObj h) /\
  trace (fst (perform self r dxfattribs w))
  = trace w ++ [EvCreateDbEntry kind given h; EvAddEntity (space self) h]
            ++ set_items (VObj h) four /\
  length (set_items (VObj h) four) = 4.
Proof.
  intros Hkind Hfour given h. subst given h. unfold deref.
  split; [| split].
  3: { unfold set_items. rewrite length_imap. unfold _four_points in Hfour.
       destruct points as [| a [| b [| c [| d [| ? ?]]]]]; cbn in Hfour; try discriminate Hfour;
         injection Hfour as <-; reflexivity. }
  all: match goal with
       | |- snd (?m ?w0) = ?res => change (wp m w0 (fun _ r' => r' = res))
       | |- trace (fst (?m ?w0)) = ?t => change (wp m w0 (fun w' _ => trace w' = t))
       end.
  all: destruct r; try discriminate Hkind; cbn [quadrilateral] in Hkind;
         injection Hkind as <- <-; cbn [perform];
         unfold add_solid, add_trace, add_3dface, _add_quadrilateral.
  all: wp_run; rewrite Hfour; wp_run.
  all: unfold wp, enumerate; rewrite set_items_from; cbn [fst snd trace].
  all: try reflexivity.
  all: rewrite <- !app_assoc; reflexivity.
Qed.

End QuadrilateralVertices.

Lemma quadrilateral_vertices_witness :
  trace (fst (perform (E := example_externals) r2000_modelspace
                (AddSolid [VInt 1; VInt 2; VInt 3]) None empty_world))
  = [EvCreateDbEntry "SOLID" ∅ 0; EvAddEntity "Model" 0;
     EvSetItem (VObj 0) 0 (VInt 1); EvSetItem (VObj 0) 1 (VInt 2);
     EvSetItem (VObj 0) 2 (VInt 3); EvSetItem (VObj 0) 3 (VInt 3)].
Proof.
  destruct (quadrilateral_vertices (E := example_externals) r2000_modelspace
              (AddSolid [VInt 1; VInt 2; VInt 3]) "SOLID" [VInt 1; VInt 2; VInt 3]
              [VInt 1; VInt 2; VInt 3; VInt 3] None empty_world eq_refl eq_refl)
    as (_ & Htrace & _).
  etransitivity; [exact Htrace | reflexivity].
Defined.

(** ** The ellipse below the bound *)

Section EllipseRatios.
Context {E : Externals}.

(** X7: the ratio of an ellipse has an upper bound only.  Every [int] up
    to 1 (zero and the negative ones too) passes the test, and so does every
    [float] that is not greater than 1, a NaN for one; [add_ellipse] then
    creates the ELLIPSE with the ratio as it was given, at its place among the
    five attributes of the arguments. *)
Theorem add_ellipse_has_no_lower_bound (self : CreatorInterface) (center major_axis : value)
    (ratio : number) (start_param end_param : value) (dxfattribs : option loc) (w : world) :
  String.ltb (dxfversion (doc self)) "AC1015" = false ->
  gt_one ratio = false ->
  let given := match dxfattribs with Some l => deref l w | None => ∅ end in
  snd (add_ellipse self center major_axis ratio start_param end_param dxfattribs w)
  = Returned (VObj (objects w)) /\
  created (trace (fst (add_ellipse self center major_axis ratio start_param end_param
                         dxfattribs w)))
  = created (trace w)
    ++ [("ELLIPSE", assign_all [("center", center); ("major_axis", major_axis);
                                ("ratio", number_value ratio);
                                ("start_param", start_param); ("end_param", end_param)]
                      given)] /\
  (forall z, (z <= 1)%Z -> gt_one (NInt z) = false) /\
  gt_one (NFloat PrimFloat.nan) = false.
Proof.
  intros Hversion Hratio given. subst given. unfold deref.
  split; [| split; [| split]].
  - change (wp (add_ellipse self center major_axis ratio start_param end_param dxfattribs) w
              (fun _ r => r = Returned (VObj (objects w)))).
    unfold add_ellipse. rewrite Hversion, Hratio. wp_run. reflexivity.
  - match goal with |- created (trace (fst (?m ?w0))) = ?c =>
      change (wp m w0 (fun w' _ => created (trace w') = c)) end.
    unfold add_ellipse. rewrite Hversion, Hratio. wp_run.
    rewrite !created_snoc, <- ?app_assoc. cbn [app]. rewrite ?app_nil_r. reflexivity.
  - intros z Hz. cbn [gt_one]. lia.
  - reflexivity.
Qed.

End EllipseRatios.

Lemma add_ellipse_has_no_lower_bound_witness :
  snd (add_ellipse (E := example_externals) r2000_modelspace (VTuple [VInt 0; VInt 0])
         (VTuple [VInt 1; VInt 0; VInt 0]) (NInt (-3)) (VInt 0) (VInt 1) None empty_world)
  = Returned (VObj 0).
Proof.
  apply (add_ellipse_has_no_lower_bound (E := example_externals) r2000_modelspace
           (VTuple [VInt 0; VInt 0]) (VTuple [VInt 1; VInt 0; VInt 0]) (NInt (-3)) (VInt 0)
           (VInt 1) None empty_world eq_refl eq_refl).
Defined.

(** ** The aligned dimension: conversions first *)

Section AlignedDimFailures.
Context {E : Externals}.

(** X8: [add_aligned_dim] converts its two points and computes the base
    of the dimension line before it calls [add_linear_dim].  When one of the
    three steps raises, the call ends there with the world as it was: unlike
    in [add_linear_dim] itself, no DIMENSION has been created. *)
Theorem add_aligned_dim_fails_before_creating (self : CreatorInterface) (p1 p2 : value)
    (distance : number) (text dimstyle : value) (override dxfattribs : option loc) (w : world)
    (e : exn) :
  Vector [p1] = Raised e \/
  (exists v1, Vector [p1] = Returned v1 /\
     (Vector [p2] = Raised e \/
      exists v2, Vector [p2] = Returned v2 /\
                 normalize (orthogonal (vec_sub v2 v1)) distance = Raised e)) ->
  add_aligned_dim self p1 p2 distance text dimstyle override dxfattribs w = (w, Raised e).
Proof.
  intros [H1 | (v1 & H1 & [H2 | (v2 & H2 & Hbase)])];
    unfold add_aligned_dim, bind, lift; rewrite H1; try rewrite H2; try rewrite Hbase;
    reflexivity.
Qed.

End AlignedDimFailures.

Lemma add_aligned_dim_fails_before_creating_witness :
  add_aligned_dim (E := example_externals) r2000_modelspace
    (VTuple [VInt 0; VInt 0]) (VTuple [VStr "x"; VInt 0]) (NInt 5)
    (VStr "<>") (VStr "EZDXF") None None empty_world
  = (empty_world, Raised (TypeError "a number is required")).
Proof.
  apply (add_aligned_dim_fails_before_creating (E := example_externals) r2000_modelspace
           (VTuple [VInt 0; VInt 0]) (VTuple [VStr "x"; VInt 0]) (NInt 5)
           (VStr "<>") (VStr "EZDXF") None None empty_world).
  right. exists (mkVec 0 0 0). split; [reflexivity |]. left. reflexivity.
Defined.

(** ** ACIS entities: the data *)

Section AcisData.
Context {E : Externals}.

(** X9: once the version is accepted, each of the eight ACIS methods
    creates its entity from a copy of the caller's attributes alone; the ACIS
    data are no attribute, they are handed to [set_acis_data] of the new entity,
    and only when they are not [None]. *)
Theorem acis_data_is_set_after_creation (self : CreatorInterface) (r : request) (kind : string)
    (acis_data : value) (surface : bool) (dxfattribs : option loc) (w : world) :
  acis_entity r = Some (kind, acis_data, surface) ->
  String.ltb (dxfversion (doc self)) DXF2000 = false ->
  (surface = true -> String.ltb (dxfversion (doc self)) DXF2007 = false) ->
  let given := match dxfattribs with Some l => deref l w | None => ∅ end in
  let h := objects w in
  snd (perform self r dxfattribs w) = Returned (VObj h) /\
  trace (fst (perform self r dxfattribs w))
  = trace w ++ [EvCreateDbEntry kind given h; EvAddEntity (space self) h]
            ++ match acis_data with
               | VNone => []
               | _ => [EvCall "set_acis_data" (VObj h) [AVal acis_data] (VObj (S h))]
               end.
Proof.
  intros Hkind H2000 H2007 given h. subst given h. unfold deref.
  match goal with |- snd (?m ?w0) = ?res /\ _ = ?t =>
    change (wp m w0 (fun w' r' => r' = res /\ trace w' = t))
  end.
  destruct r; try discriminate Hkind; cbn [acis_entity] in Hkind;
    injection Hkind as <- <- <-; cbn [perform];
    unfold add_body, add_region, add_3dsolid, add_surface, add_extruded_surface,
      add_lofted_surface, add_revolved_surface, add_swept_surface, _add_acis_entiy.
  all: rewrite ?(H2007 eq_refl), H2000.
  all: wp_run.
  all: rewrite <- ?app_assoc; cbn [app]; rewrite ?app_nil_r; split; reflexivity.
Qed.

End AcisData.

Lemma acis_data_is_set_after_creation_witness :
  trace (fst (perform (E := example_externals) r2000_modelspace (AddBody (VStr "acis")) None
                empty_world))
  = [EvCreateDbEntry "BODY" ∅ 0; EvAddEntity "Model" 0;
     EvCall "set_acis_data" (VObj 0) [AVal (VStr "acis")] (VObj 1)].
Proof.
  destruct (acis_data_is_set_after_creation (E := example_externals) r2000_modelspace
              (AddBody (VStr "acis")) "BODY" (VStr "acis") false None empty_world
              eq_refl eq_refl) as [_ Htrace].
  - discriminate.
  - etransitivity; [exact Htrace | reflexivity].
Defined.

(** ** What is assigned after the entity is there *)

Section AfterCreation.
Context {E : Externals}.

(** X10: the text of an MTEXT and the fit points of a SPLINE are no
    attributes of the creation: [add_mtext] creates the entity from a copy of
    the caller's attributes alone and assigns the text to it afterwards;
    [add_spline] creates it with the degree and assigns the fit points
    afterwards, when they are not [None]. *)
Theorem text_and_fit_points_are_assigned (self : CreatorInterface) (text fit_points degree : value)
    (dxfattribs : option loc) (w : world) :
  String.ltb (dxfversion (doc self)) DXF2000 = false ->
  let given := match dxfattribs with Some l => deref l w | None => ∅ end in
  let h := objects w in
  trace (fst (add_mtext self text dxfattribs w))
  = trace w ++ [EvCreateDbEntry "MTEXT" given h; EvAddEntity (space self) h;
                EvSetAttr (VObj h) "text" text] /\
  trace (fst (add_spline self fit_points degree dxfattribs w))
  = trace w ++ [EvCreateDbEntry "SPLINE" (<["degree" := degree]> given) h;
                EvAddEntity (space self) h]
            ++ match fit_points with
               | VNone => []
               | _ => [EvSetAttr (VObj h) "fit_points" fit_points]
               end.
Proof.
  intros Hversion given h. subst given h. unfold deref. split.
  all: match goal with |- trace (fst (?m ?w0)) = ?t =>
         change (wp m w0 (fun w' _ => trace w' = t)) end.
  - unfold add_mtext. rewrite Hversion. wp_run. rewrite <- !app_assoc. reflexivity.
  - unfold add_spline. rewrite Hversion. wp_run.
    all: rewrite <- ?app_assoc; cbn [app]; rewrite ?app_nil_r; reflexivity.
Qed.

(** X11: when its conversions succeed, [add_linear_dim] does four things
    and then, only when a location is given, a fifth: it creates the DIMENSION
    with its type, adds it to the layout, hands the assembled attributes to
    [update_dxf_attribs] of this entity, makes the [DimStyleOverride] of this
    entity and the caller's [override], and calls [set_location] of this
    override with [leader] and [relative] both [False].  The override is what
    the call returns. *)
Theorem add_linear_dim_sets_location (self : CreatorInterface) (base p1 p2 : value)
    (location : option value) (text : value) (angle : number) (text_rotation : option number)
    (dimstyle : value) (override dxfattribs : option loc) (w : world)
    (b v1 v2 : Vec) (a : float) (rotation : option float) :
  allocated dxfattribs w -> allocated override w ->
  Vector [base] = Returned b -> Vector [p1] = Returned v1 -> Vector [p2] = Returned v2 ->
  py_float angle = Returned a ->
  match text_rotation, rotation with
  | Some r, Some f => py_float r = Returned f
  | None, None => True
  | _, _ => False
  end ->
  let given := match dxfattribs with Some l => deref l w | None => ∅ end in
  let basic := linear_dim_attribs given dimstyle b text v1 v2 a in
  let sent := match rotation with
              | Some f => <["text_rotation" := VFloat f]> basic
              | None => basic
              end in
  let h := objects w in
  let dimline := VObj h in
  let style := VObj (2 + h) in
  let result := add_linear_dim self base p1 p2 location text angle text_rotation dimstyle
                  override dxfattribs w in
  snd result = Returned style /\
  trace (fst result)
  = trace w
    ++ [EvCreateDbEntry "DIMENSION"
          {[ "dimtype" := VInt (Z.lor DIM_LINEAR DIM_BLOCK_EXCLUSIVE) ]} h;
        EvAddEntity (space self) h;
        EvCall "update_dxf_attribs" dimline [ADict (S (length (heap w))) sent] (VObj (1 + h));
        EvCall "DimStyleOverride" VNone
          [AVal dimline;
           match override with
           | Some o => ADict o (deref o w)
           | None => AVal VNone
           end] style]
    ++ match location with
       | Some at_ => [EvCall "set_location" style
                        [AVal at_; AVal (VBool false); AVal (VBool false)] (VObj (3 + h))]
       | None => []
       end.
Proof.
  intros Hl Ho Hb H1 H2 Ha Hr given basic sent h dimline style result.
  subst given basic sent h dimline style result. unfold linear_dim_attribs, deref.
  match goal with |- snd (?m ?w0) = ?res /\ _ = ?t =>
    change (wp m w0 (fun w' r' => r' = res /\ trace w' = t))
  end.
  unfold add_linear_dim.
  destruct dxfattribs as [l |], override as [o |]; cbn [allocated] in Hl, Ho.
  all: wp_run; rewrite Hb; wp_run; rewrite H1; wp_run; rewrite H2; wp_run; rewrite Ha.
  all: destruct text_rotation as [r |], rotation as [f |]; try contradiction;
         wp_run; rewrite ?Hr; wp_run.
  all: rewrite <- ?app_assoc, ?length_app; cbn [app length];
       rewrite ?Nat.add_1_r, ?app_nil_r; split; reflexivity.
Qed.

End AfterCreation.

Lemma text_and_fit_points_are_assigned_witness :
  trace (fst (add_mtext (E := example_externals) r2000_modelspace (VStr "note") (Some 0)
                (world_with {[ "text" := VStr "old" ]})))
  = [EvCreateDbEntry "MTEXT" {[ "text" := VStr "old" ]} 0; EvAddEntity "Model" 0;
     EvSetAttr (VObj 0) "text" (VStr "note")].
Proof.
  destruct (text_and_fit_points_are_assigned (E := example_externals) r2000_modelspace
              (VStr "note") VNone (VInt 3) (Some 0) (world_with {[ "text" := VStr "old" ]})
              eq_refl) as [Hmtext _].
  etransitivity; [exact Hmtext | reflexivity].
Defined.

Lemma add_linear_dim_sets_location_witness :
  snd (add_linear_dim (E := example_externals) r2000_modelspace
         (VTuple [VInt 0; VInt 5]) (VTuple [VInt 0; VInt 0]) (VTuple [VInt 10; VInt 0])
         (Some (VTuple [VInt 5; VInt 6])) (VStr "<>") (NInt 0) None (VStr "EZDXF") None None
         empty_world)
  = Returned (VObj 2) /\
  last (trace (fst (add_linear_dim (E := example_externals) r2000_modelspace
                      (VTuple [VInt 0; VInt 5]) (VTuple [VInt 0; VInt 0])
                      (VTuple [VInt 10; VInt 0]) (Some (VTuple [VInt 5; VInt 6])) (VStr "<>")
                      (NInt 0) None (VStr "EZDXF") None None empty_world)))
  = Some (EvCall "set_location" (VObj 2)
            [AVal (VTuple [VInt 5; VInt 6]); AVal (VBool false); AVal (VBool false)] (VObj 3)).
Proof.
  destruct (add_linear_dim_sets_location (E := example_externals) r2000_modelspace
              (VTuple [VInt 0; VInt 5]) (VTuple [VInt 0; VInt 0]) (VTuple [VInt 10; VInt 0])
              (Some (VTuple [VInt 5; VInt 6])) (VStr "<>") (NInt 0) None (VStr "EZDXF") None None
              empty_world (mkVec 0 5 0) (mkVec 0 0 0) (mkVec 10 0 0) 0 None
              I I eq_refl eq_refl eq_refl eq_refl I) as [Hres Htrace].
  split; [exact Hres | rewrite Htrace; reflexivity].
Defined.

(** ** Dimensions: what is there when a conversion fails *)

Section DimensionFailures.
Context {E : Externals}.

(** X12: [add_linear_dim] has the DIMENSION entity made, with its type and
    nothing else, before it converts a single argument.  So when one of its
    conversions raises (a point [Vector] refuses, an angle that is no double),
    the call ends with that error after the entity has been created and added
    to the layout, and [update_dxf_attribs] has not been called for it: the
    entity stays without its definition points. *)
Theorem add_linear_dim_failure_leaves_entity (self : CreatorInterface) (base p1 p2 : value)
    (location : option value) (text : value) (angle : number) (text_rotation : option number)
    (dimstyle : value) (override dxfattribs : option loc) (w : world) (e : exn) :
  linear_dim_conversions base p1 p2 angle text_rotation = Raised e ->
  let result := add_linear_dim self base p1 p2 location text angle text_rotation dimstyle
                  override dxfattribs w in
  snd result = Raised e /\
  trace (fst result)
  = trace w ++ [EvCreateDbEntry "DIMENSION"
                  {[ "dimtype" := VInt (Z.lor DIM_LINEAR DIM_BLOCK_EXCLUSIVE) ]} (objects w);
                EvAddEntity (space self) (objects w)] /\
  updated (trace (fst result)) = updated (trace w).
Proof.
  intros Hraised result. subst result. revert Hraised. unfold linear_dim_conversions.
  match goal with |- ?H -> snd (?m ?w0) = _ /\ trace _ = ?t /\ _ =>
    change (wp m w0 (fun w' r => H -> r = Raised e /\ trace w' = t /\
                                 updated (trace w') = updated (trace w)))
  end.
  unfold add_linear_dim.
  repeat first [wp_step | wp_case].
  all: cbn [heap objects trace]; intros Hraised; try discriminate Hraised.
  all: injection Hraised as ->.
  all: rewrite <- ?app_assoc; cbn [app]; split; [reflexivity |]; split; [reflexivity |].
  all: rewrite updated_app; apply app_nil_r.
Qed.

End DimensionFailures.

Lemma add_linear_dim_failure_leaves_entity_witness :
  snd (add_linear_dim (E := example_externals) r2000_modelspace
         (VTuple [VStr "x"; VInt 5]) (VTuple [VInt 0; VInt 0]) (VTuple [VInt 10; VInt 0])
         None (VStr "<>") (NInt 0) None (VStr "EZDXF") None None empty_world)
  = Raised (TypeError "a number is required") /\
  trace (fst (add_linear_dim (E := example_externals) r2000_modelspace
                (VTuple [VStr "x"; VInt 5]) (VTuple [VInt 0; VInt 0]) (VTuple [VInt 10; VInt 0])
                None (VStr "<>") (NInt 0) None (VStr "EZDXF") None None empty_world))
  = [EvCreateDbEntry "DIMENSION" {[ "dimtype" := VInt 32 ]} 0; EvAddEntity "Model" 0].
Proof.
  destruct (add_linear_dim_failure_leaves_entity (E := example_externals) r2000_modelspace
              (VTuple [VStr "x"; VInt 5]) (VTuple [VInt 0; VInt 0]) (VTuple [VInt 10; VInt 0])
              None (VStr "<>") (NInt 0) None (VStr "EZDXF") None None empty_world
              (TypeError "a number is required") eq_refl) as (Hres & Htrace & _).
  split; [exact Hres | exact Htrace].
Defined.

(** ** The five dimensions that have a type and nothing else *)

Section TypedDimensions.
Context {E : Externals}.

(** X13: [add_angular_dim], [add_diameter_dim], [add_radius_dim],
    [add_angular_3p_dim] and [add_ordinate_dim] ask the database for a
    DIMENSION whose only attribute is its type, OR-ed with
    [DIM_BLOCK_EXCLUSIVE]; a copy of the caller's attributes goes to
    [update_dxf_attribs] of the cast entity, and the call returns the style
    override made for the cast entity and the caller's [override]. *)
Theorem typed_dimension_trace (self : CreatorInterface) (r : request) (dimtype : Z)
    (dxfattribs : option loc) (w : world) :
  dimension_type r = Some dimtype ->
  allocated dxfattribs w ->
  allocated (override_of r) w ->
  let given := match dxfattribs with Some l => deref l w | None => ∅ end in
  let h := objects w in
  snd (perform self r dxfattribs w) = Returned (VObj (3 + h)) /\
  trace (fst (perform self r dxfattribs w))
  = trace w ++ [EvCreateDbEntry "DIMENSION"
                  {[ "dimtype" := VInt (Z.lor dimtype DIM_BLOCK_EXCLUSIVE) ]} h;
                EvAddEntity (space self) h;
                EvCall "cast" (VObj h) [] (VObj (1 + h));
                EvCall "update_dxf_attribs" (VObj (1 + h)) [ADict (S (length (heap w))) given]
                  (VObj (2 + h));
                EvCall "DimStyleOverride" VNone
                  [AVal (VObj (1 + h));
                   match override_of r with
                   | Some o => ADict o (deref o w)
                   | None => AVal VNone
                   end] (VObj (3 + h))].
Proof.
  intros Htype Hl Ho given h. subst given h. unfold deref.
  match goal with |- snd (?m ?w0) = ?res /\ _ = ?t =>
    change (wp m w0 (fun w' r' => r' = res /\ trace w' = t))
  end.
  destruct r; try discriminate Htype; cbn [dimension_type] in Htype;
    injection Htype as <-; cbn [perform override_of] in *;
    unfold add_angular_dim, add_diameter_dim, add_radius_dim, add_angular_3p_dim,
      add_ordinate_dim.
  all: destruct dxfattribs as [l |], override as [o |]; cbn [allocated] in Hl, Ho.
  all: wp_run.
  all: rewrite <- ?app_assoc, ?length_app; cbn [app length];
       rewrite ?Nat.add_1_r; split; reflexivity.
Qed.

End TypedDimensions.

Lemma typed_dimension_trace_witness :
  trace (fst (perform (E := example_externals) r2000_modelspace (AddRadiusDim None)
                (Some 0) (world_with {[ "layer" := VStr "DIM" ]})))
  = [EvCreateDbEntry "DIMENSION" {[ "dimtype" := VInt 36 ]} 0;
     EvAddEntity "Model" 0;
     EvCall "cast" (VObj 0) [] (VObj 1);
     EvCall "update_dxf_attribs" (VObj 1) [ADict 2 {[ "layer" := VStr "DIM" ]}] (VObj 2);
     EvCall "DimStyleOverride" VNone [AVal (VObj 1); AVal VNone] (VObj 3)].
Proof.
  destruct (typed_dimension_trace (E := example_externals) r2000_modelspace (AddRadiusDim None) 4
              (Some 0) (world_with {[ "layer" := VStr "DIM" ]}) eq_refl) as [_ Htrace].
  - cbn. lia.
  - exact I.
  - etransitivity; [exact Htrace | reflexivity].
Defined.

(** ** Splines from control points *)

Section ControlPointSplines.
Context {E : Externals}.

(** X14: the four methods that make a spline from control points create the
    SPLINE with degree 3 whatever [degree] they are given; the given degree
    goes to the setter of the control points only, together with the points as
    a list (and the weights for a rational spline).  No fit points are set,
    and the knots are set last, when they are not [None]. *)
Theorem control_point_spline_trace (self : CreatorInterface) (r : request)
    (setter : string) (control_points : value) (rest : list value) (knots points : value)
    (dxfattribs : option loc) (w : world) :
  control_point_setter r = Some (setter, control_points, rest, knots) ->
  String.ltb (dxfversion (doc self)) DXF2000 = false ->
  py_list control_points = Returned points ->
  let given := match dxfattribs with Some l => deref l w | None => ∅ end in
  let h := objects w in
  snd (perform self r dxfattribs w) = Returned (VObj h) /\
  trace (fst (perform self r dxfattribs w))
  = trace w ++ [EvCreateDbEntry "SPLINE" (<["degree" := VInt 3]> given) h;
                EvAddEntity (space self) h;
                EvCall setter (VObj h) (map AVal (points :: rest)) (VObj (S h))]
            ++ match knots with
               | VNone => []
               | _ => [EvSetAttr (VObj h) "knots" knots]
               end.
Proof.
  intros Hsetter Hversion Hpoints given h. subst given h. unfold deref.
  match goal with |- snd (?m ?w0) = ?res /\ _ = ?t =>
    change (wp m w0 (fun w' r' => r' = res /\ trace w' = t))
  end.
  destruct r; try discriminate Hsetter; cbn [control_point_setter] in Hsetter;
    injection Hsetter as <- <- <- <-; cbn [perform];
    unfold add_open_spline, add_closed_spline, add_rational_spline, add_closed_rational_spline,
      add_spline.
  all: rewrite Hversion, Hpoints; wp_run.
  all: match goal with |- wp (set_knots _ ?k) _ _ => destruct k; unfold set_knots end; wp_run.
  all: rewrite <- ?app_assoc; cbn [app map]; rewrite ?app_nil_r; split; reflexivity.
Qed.

End ControlPointSplines.

Lemma control_point_spline_trace_witness :
  trace (fst (perform (E := example_externals) r2000_modelspace
                (AddOpenSpline (VTuple [VInt 1; VInt 2]) (VInt 5) VNone) None empty_world))
  = [EvCreateDbEntry "SPLINE" {[ "degree" := VInt 3 ]} 0;
     EvAddEntity "Model" 0;
     EvCall "set_open_uniform" (VObj 0) [AVal (VList [VInt 1; VInt 2]); AVal (VInt 5)] (VObj 1)].
Proof.
  destruct (control_point_spline_trace (E := example_externals) r2000_modelspace
              (AddOpenSpline (VTuple [VInt 1; VInt 2]) (VInt 5) VNone)
              "set_open_uniform" (VTuple [VInt 1; VInt 2]) [VInt 5] VNone (VList [VInt 1; VInt 2])
              None empty_world eq_refl eq_refl eq_refl) as [_ Htrace].
  etransitivity; [exact Htrace | reflexivity].
Defined.

(** ** Images and underlays: the definition and its entity know each other *)

Lemma py_truediv_zero (a : number) (b x : float) :
  py_float a = Returned x -> PrimFloat.eqb b 0 = true ->
  py_truediv a b = Raised (ZeroDivisionError "float division by zero").
Proof. intros Ha Hb. unfold py_truediv. now rewrite Ha, Hb. Qed.

Section Definitions.
Context {E : Externals}.

(** X15: [add_image] creates the IMAGE with the insert point as a vector,
    one pixel vector along the rotation and one a quarter turn further, and
    the handle and size of the image definition.  It then has a reactor made
    for the handle of the image, and writes the handle of this reactor into the
    image and into the image definition.  This is the run in which every
    conversion succeeds: the sizes divide, the rotation is a double, the two
    angles are not infinite (the cosine and the sine refuse an infinite angle),
    and the insert point is a vector. *)
Theorem add_image_links_reactor (self : CreatorInterface) (image_def insert : value)
    (size_in_units : number * number) (rotation : number) (dxfattribs : option loc) (w : world)
    (size at_ : Vec) (x_units_per_pixel y_units_per_pixel angle : float) :
  String.ltb (dxfversion (doc self)) DXF2000 = false ->
  getattr image_def "dxf.image_size" = VVector size ->
  py_truediv (fst size_in_units) (vx size) = Returned x_units_per_pixel ->
  py_truediv (snd size_in_units) (vy size) = Returned y_units_per_pixel ->
  py_float rotation = Returned angle ->
  Vector [insert] = Returned at_ ->
  let x_angle := math_radians angle in
  let y_angle := PrimFloat.add x_angle (PrimFloat.div math_pi 2%float) in
  PrimFloat.is_infinity x_angle = false ->
  PrimFloat.is_infinity y_angle = false ->
  let given := match dxfattribs with Some l => deref l w | None => ∅ end in
  let h := objects w in
  let reactor_handle := getattr (VObj (S h)) "dxf.handle" in
  snd (add_image self image_def insert size_in_units rotation dxfattribs w) = Returned (VObj h) /\
  trace (fst (add_image self image_def insert size_in_units rotation dxfattribs w))
  = trace w
    ++ [EvCreateDbEntry "IMAGE"
          (assign_all [("insert", VVector at_);
                       ("u_pixel", pixel_vector x_units_per_pixel x_angle);
                       ("v_pixel", pixel_vector y_units_per_pixel y_angle);
                       ("image_def_handle", getattr image_def "dxf.handle");
                       ("image_size", VVector size)] given) h;
        EvAddEntity (space self) h;
        EvCall "add_image_def_reactor" (VStr "doc.objects")
          [AVal (getattr (VObj h) "dxf.handle")] (VObj (S h));
        EvSetAttr (VObj h) "dxf.image_def_reactor_handle" reactor_handle;
        EvCall "append_reactor_handle" image_def [AVal reactor_handle] (VObj (S (S h)))].
Proof.
  intros Hversion Hsize Hx Hy Hangle Hat x_angle y_angle Hfinite_x Hfinite_y
    given h reactor_handle.
  subst given h reactor_handle. unfold deref.
  assert (to_vector x_units_per_pixel x_angle
          = Returned (pixel_vector x_units_per_pixel x_angle)) as Hu
    by (unfold to_vector, math_call; now rewrite Hfinite_x).
  assert (to_vector y_units_per_pixel y_angle
          = Returned (pixel_vector y_units_per_pixel y_angle)) as Hv
    by (unfold to_vector, math_call; now rewrite Hfinite_y).
  subst x_angle y_angle.
  match goal with |- snd (?m ?w0) = ?res /\ _ = ?t =>
    change (wp m w0 (fun w' r' => r' = res /\ trace w' = t))
  end.
  unfold add_image. rewrite Hversion. destruct size_in_units as [x_units y_units].
  cbn [fst snd] in Hx, Hy. wp_run. rewrite Hsize. wp_run.
  rewrite Hx. wp_run. rewrite Hy. wp_run. rewrite Hangle. wp_run. rewrite Hat. wp_run.
  rewrite Hu. wp_run. rewrite Hv. wp_run.
  rewrite ?Hsize. rewrite <- !app_assoc. cbn [app]. split; reflexivity.
Qed.

(** An infinite rotation is refused by the cosine: [add_image] raises
    [ValueError] and nothing has been asked of the database. *)
Lemma add_image_infinite_rotation (self : CreatorInterface) (image_def insert : value)
    (size_in_units : number * number) (rotation : number) (dxfattribs : option loc) (w : world)
    (size at_ : Vec) (x_units_per_pixel y_units_per_pixel angle : float) :
  String.ltb (dxfversion (doc self)) DXF2000 = false ->
  getattr image_def "dxf.image_size" = VVector size ->
  py_truediv (fst size_in_units) (vx size) = Returned x_units_per_pixel ->
  py_truediv (snd size_in_units) (vy size) = Returned y_units_per_pixel ->
  py_float rotation = Returned angle ->
  Vector [insert] = Returned at_ ->
  PrimFloat.is_infinity (math_radians angle) = true ->
  snd (add_image self image_def insert size_in_units rotation dxfattribs w)
  = Raised (ValueError "math domain error") /\
  trace (fst (add_image self image_def insert size_in_units rotation dxfattribs w)) = trace w.
Proof.
  intros Hversion Hsize Hx Hy Hangle Hat Hinfinite.
  match goal with |- snd (?m ?w0) = ?res /\ _ = ?t =>
    change (wp m w0 (fun w' r' => r' = res /\ trace w' = t))
  end.
  unfold add_image. rewrite Hversion. destruct size_in_units as [x_units y_units].
  cbn [fst snd] in Hx, Hy. wp_run. rewrite Hsize. wp_run.
  rewrite Hx. wp_run. rewrite Hy. wp_run. rewrite Hangle. wp_run. rewrite Hat. wp_run.
  assert (to_vector x_units_per_pixel (math_radians angle)
          = Raised (ValueError "math domain error")) as Hu
    by (unfold to_vector, math_call; now rewrite Hinfinite).
  rewrite Hu. wp_run. split; reflexivity.
Qed.

(** X16: a zero in the pixel size of the image definition makes [add_image]
    raise [ZeroDivisionError]; this is found before the insert point is looked
    at, and nothing has been asked of the database. *)
Theorem add_image_zero_pixels (self : CreatorInterface) (image_def insert : value)
    (size_in_units : number * number) (rotation : number) (dxfattribs : option loc) (w : world)
    (size : Vec) (x_units : float) :
  String.ltb (dxfversion (doc self)) DXF2000 = false ->
  getattr image_def "dxf.image_size" = VVector size ->
  py_float (fst size_in_units) = Returned x_units ->
  PrimFloat.eqb (vx size) 0 = true ->
  snd (add_image self image_def insert size_in_units rotation dxfattribs w)
  = Raised (ZeroDivisionError "float division by zero") /\
  trace (fst (add_image self image_def insert size_in_units rotation dxfattribs w)) = trace w.
Proof.
  intros Hversion Hsize Hx Hzero.
  match goal with |- snd (?m ?w0) = ?res /\ _ = ?t =>
    change (wp m w0 (fun w' r' => r' = res /\ trace w' = t))
  end.
  unfold add_image. rewrite Hversion. destruct size_in_units as [x_units' y_units].
  cbn [fst] in Hx. wp_run. rewrite Hsize. wp_run.
  rewrite (py_truediv_zero _ _ _ Hx Hzero). wp_run. split; reflexivity.
Qed.

(** X17: [add_underlay] creates an entity of the kind its definition names,
    with the insert point, the handle of the definition and the rotation.  The
    scale is no attribute of the new entity: it is assigned to its [scaling]
    afterwards, and then the definition gets the handle of the entity. *)
Theorem add_underlay_links_definition (self : CreatorInterface)
    (underlay_def insert scale rotation : value) (dxfattribs : option loc) (w : world) :
  String.ltb (dxfversion (doc self)) DXF2000 = false ->
  let given := match dxfattribs with Some l => deref l w | None => ∅ end in
  let h := objects w in
  let sent := assign_all [("insert", insert);
                          ("underlay_def_handle", getattr underlay_def "dxf.handle");
                          ("rotation", rotation)] given in
  snd (add_underlay self underlay_def insert scale rotation dxfattribs w) = Returned (VObj h) /\
  trace (fst (add_underlay self underlay_def insert scale rotation dxfattribs w))
  = trace w
    ++ [EvCreateDbEntry (str_of (getattr underlay_def "entity_name")) sent h;
        EvAddEntity (space self) h;
        EvSetAttr (VObj h) "scaling" scale;
        EvCall "append_reactor_handle" underlay_def [AVal (getattr (VObj h) "dxf.handle")]
          (VObj (S h))] /\
  sent !! "scale" = given !! "scale" /\
  sent !! "scaling" = given !! "scaling".
Proof.
  intros Hversion given h sent. subst given h sent. unfold deref.
  split; [| split; [| split]].
  3, 4: unfold assign_all; cbn [fold_left fst snd]; now rewrite !lookup_insert_ne by discriminate.
  all: match goal with
       | |- snd (?m ?w0) = ?res => change (wp m w0 (fun _ r' => r' = res))
       | |- trace (fst (?m ?w0)) = ?t => change (wp m w0 (fun w' _ => trace w' = t))
       end.
  all: unfold add_underlay; rewrite Hversion; wp_run.
  - reflexivity.
  - rewrite <- !app_assoc. reflexivity.
Qed.

End Definitions.

Lemma add_image_links_reactor_witness :
  snd (add_image (E := image_externals) r2000_modelspace (VStr "photo") (VTuple [VInt 1; VInt 2])
         (NInt 64, NInt 48) (NInt 0) None empty_world)
  = Returned (VObj 0) /\
  last (trace (fst (add_image (E := image_externals) r2000_modelspace (VStr "photo")
                      (VTuple [VInt 1; VInt 2]) (NInt 64, NInt 48) (NInt 0) None empty_world)))
  = Some (EvCall "append_reactor_handle" (VStr "photo") [AVal VNone] (VObj 2)).
Proof.
  destruct (add_image_links_reactor (E := image_externals) r2000_modelspace (VStr "photo")
              (VTuple [VInt 1; VInt 2]) (NInt 64, NInt 48) (NInt 0) None empty_world
              (mkVec 640 480 0) (mkVec 1 2 0) (PrimFloat.div 64 640) (PrimFloat.div 48 480) 0
              eq_refl eq_refl eq_refl eq_refl eq_refl eq_refl eq_refl eq_refl)
    as [Hres Htrace].
  split; [exact Hres | rewrite Htrace; reflexivity].
Defined.

Lemma add_image_zero_pixels_witness :
  snd (add_image (E := image_externals) r2000_modelspace (VStr "blank") (VTuple [VInt 1; VInt 2])
         (NInt 64, NInt 48) (NInt 0) None empty_world)
  = Raised (ZeroDivisionError "float division by zero").
Proof.
  apply (add_image_zero_pixels (E := image_externals) r2000_modelspace (VStr "blank")
           (VTuple [VInt 1; VInt 2]) (NInt 64, NInt 48) (NInt 0) None empty_world
           (mkVec 0 0 0) 64 eq_refl eq_refl eq_refl eq_refl).
Defined.

Lemma add_underlay_links_definition_witness :
  trace (fst (add_underlay (E := image_externals) r2000_modelspace (VStr "plan")
                (VTuple [VInt 0; VInt 0; VInt 0]) (VInt 2) (VInt 90) None empty_world))
  = [EvCreateDbEntry "PDFUNDERLAY"
       (assign_all [("insert", VTuple [VInt 0; VInt 0; VInt 0]);
                    ("underlay_def_handle", VNone); ("rotation", VInt 90)] ∅) 0;
     EvAddEntity "Model" 0;
     EvSetAttr (VObj 0) "scaling" (VInt 2);
     EvCall "append_reactor_handle" (VStr "plan") [AVal VNone] (VObj 1)].
Proof.
  destruct (add_underlay_links_definition (E := image_externals) r2000_modelspace (VStr "plan")
              (VTuple [VInt 0; VInt 0; VInt 0]) (VInt 2) (VInt 90) None empty_world eq_refl)
    as (_ & Htrace & _).
  etransitivity; [exact Htrace | reflexivity].
Defined.

(** ** Automatic block references: the block reference itself *)

Lemma for_each_app {A} (xs ys : list A) (body : A -> M unit) (w : world) :
  for_each (xs ++ ys) body w
  = match for_each xs body w with
    | (w', Returned _) => for_each ys body w'
    | (w', Raised e) => (w', Raised e)
    end.
Proof.
  revert w. induction xs as [| x xs IH]; intros w; [reflexivity |].
  cbn [app for_each]. unfold bind.
  destruct (body x w) as [w1 [e | []]]; [reflexivity | apply IH].
Qed.

Section AutoBlockrefInsert.
Context {E : Externals}.

(** With a tag and an insert point in every definition, [autofill] comes to
    its end, and has called [add_attrib] of the block reference once for every
    definition, in order, each time with a new dictionary. *)
Lemma autofill_trace (values : attrs) (blockref : value) (attdefs : list attrs)
    (placeholders : list (string * value)) :
  Forall2 (fun attdef p => placeholder attdef (fst p) (snd p)) attdefs placeholders ->
  forall w,
    wp (autofill values blockref attdefs) w
      (fun w' r => r = Returned tt /\
                   objects w' = length attdefs + objects w /\
                   trace w' = trace w ++ attrib_calls values blockref attdefs placeholders
                                           (length (heap w)) (objects w)).
Proof.
  unfold autofill.
  induction 1 as [| attdef [tag insert] attdefs placeholders [Htag Hinsert] _ IH]; intros w.
  - wp_run. cbn [attrib_calls length]. rewrite app_nil_r. repeat split; reflexivity.
  - cbn [fst snd] in *. unfold get_dxfattribs, unpack. wp_run.
    eapply wp_dict_pop;
      [store_simpl; rewrite !lookup_delete_ne by discriminate; exact Htag | store_simpl].
    wp_run. unfold py_get. wp_run.
    eapply wp_dict_pop;
      [store_simpl; rewrite !lookup_delete_ne by discriminate; exact Hinsert | store_simpl].
    wp_run.
    match goal with |- wp _ ?w1 _ => apply (wp_mono _ _ _ _ (IH w1)) end.
    cbn [heap objects trace length]. intros w2 r (-> & -> & ->).
    split; [reflexivity |]. split; [lia |].
    rewrite <- app_assoc. cbn [app attrib_calls fst snd]. rewrite length_app. cbn [length].
    rewrite Nat.add_1_r. reflexivity.
Qed.

(** X18: when the block table has no block of the given name,
    [add_auto_blockref] fails at the lookup, which comes after the anonymous
    block has been made and a reference to the named block added to it: both
    calls are in the trace, and the layout gets no INSERT. *)
Theorem auto_blockref_unknown_block (self : CreatorInterface) (name : string) (insert : value)
    (values : attrs) (dxfattribs : option loc) (w : world) :
  blocks (doc self) !! name = None ->
  let h := objects w in
  snd (add_auto_blockref self name insert values dxfattribs w) = Raised (KeyError name) /\
  trace (fst (add_auto_blockref self name insert values dxfattribs w))
  = trace w ++ [EvCall "new_anonymous_block" (VStr "doc.blocks") [] (VObj h);
                EvCall "add_blockref" (VObj h) [AVal (VStr name); AVal (VTuple [VInt 0; VInt 0])]
                  (VObj (S h))] /\
  created (trace (fst (add_auto_blockref self name insert values dxfattribs w)))
  = created (trace w).
Proof.
  intros Hblock h. subst h.
  match goal with |- snd (?m ?w0) = ?res /\ _ = ?t /\ _ =>
    change (wp m w0 (fun w' r' => r' = res /\ trace w' = t /\
                                  created (trace w') = created (trace w)))
  end.
  unfold add_auto_blockref. wp_run. rewrite Hblock. wp_run.
  rewrite <- !app_assoc. cbn [app]. split; [reflexivity |]. split; [reflexivity |].
  rewrite created_app. apply app_nil_r.
Qed.

(** X19: for a block whose attribute definitions each have a tag and an
    insert point, [add_auto_blockref] has the block table make an anonymous
    block, adds a reference to the named block to this anonymous block, adds
    one attribute to this reference for every definition, and then creates, in
    its own layout, an INSERT of the anonymous block (by the name the block
    table gave it, not the name asked for) at the caller's insert point, with
    the caller's other attributes.  This INSERT is the only entity the method
    creates itself; it is made last and returned. *)
Theorem auto_blockref_inserts_anonymous_block (self : CreatorInterface) (name : string)
    (insert : value) (values : attrs) (dxfattribs : option loc) (w : world)
    (attdefs : list attrs) (placeholders : list (string * value)) :
  blocks (doc self) !! name = Some attdefs ->
  Forall2 (fun attdef p => placeholder attdef (fst p) (snd p)) attdefs placeholders ->
  let given := match dxfattribs with Some l => deref l w | None => ∅ end in
  let autoblock := VObj (objects w) in
  let blockref := VObj (S (objects w)) in
  let h := length attdefs + (2 + objects w) in
  let result := add_auto_blockref self name insert values dxfattribs w in
  snd result = Returned (VObj h) /\
  trace (fst result)
  = trace w
    ++ [EvCall "new_anonymous_block" (VStr "doc.blocks") [] autoblock;
        EvCall "add_blockref" autoblock [AVal (VStr name); AVal (VTuple [VInt 0; VInt 0])]
          blockref]
    ++ attrib_calls values blockref attdefs placeholders (S (length (heap w))) (2 + objects w)
    ++ [EvCreateDbEntry "INSERT"
          (<["insert" := insert]> (<["name" := getattr autoblock "name"]> given)) h;
        EvAddEntity (space self) h].
Proof.
  intros Hblock Hdefs given autoblock blockref h result.
  subst given autoblock blockref h result. unfold deref.
  match goal with |- snd (?m ?w0) = ?res /\ _ = ?t =>
    change (wp m w0 (fun w' r' => r' = res /\ trace w' = t))
  end.
  unfold add_auto_blockref. wp_run. rewrite Hblock. wp_run.
  match goal with |- wp (autofill _ ?b _) ?w1 ?Q =>
    pose proof (autofill_trace values b attdefs placeholders Hdefs w1) as Hfill;
    pose proof (autofill_frame values b attdefs w1) as Hframe
  end.
  unfold wp in Hfill, Hframe. unfold wp at 1.
  destruct (autofill _ _ _ _) as [w2 r2]. cbn [fst snd] in *.
  destruct Hfill as (-> & Hobjects & Htrace). destruct Hframe as [Hlen Hframe].
  cbn [heap objects trace] in Hobjects, Htrace, Hlen, Hframe.
  rewrite length_app in Hlen, Hframe, Htrace. cbn [length] in Hlen, Hframe, Htrace.
  rewrite Nat.add_1_r in Htrace.
  apply wp_cont_returned. unfold add_blockref.
  wp_step. wp_step. unfold deref. rewrite Hframe by lia. rewrite lookup_alloc. store_simpl.
  wp_run. rewrite Hobjects, Htrace.
  split; [reflexivity |]. rewrite <- !app_assoc. reflexivity.
Qed.

(** X20: an attribute definition without a tag stops [add_auto_blockref]
    with [KeyError('tag')] in the middle of its work.  By then the anonymous
    block has been made and has its reference to the named block, and this
    reference has the attributes for the definitions before the one without
    tag; the definitions after it are not looked at, and the method has not
    come to create the INSERT in its own layout. *)
Theorem auto_blockref_stops_at_missing_tag (self : CreatorInterface) (name : string)
    (insert : value) (values : attrs) (dxfattribs : option loc) (w : world)
    (before after : list attrs) (attdef : attrs) (placeholders : list (string * value)) :
  blocks (doc self) !! name = Some (before ++ attdef :: after) ->
  Forall2 (fun attdef p => placeholder attdef (fst p) (snd p)) before placeholders ->
  attdef !! "tag" = None ->
  let autoblock := VObj (objects w) in
  let blockref := VObj (S (objects w)) in
  let result := add_auto_blockref self name insert values dxfattribs w in
  snd result = Raised (KeyError "tag") /\
  trace (fst result)
  = trace w
    ++ [EvCall "new_anonymous_block" (VStr "doc.blocks") [] autoblock;
        EvCall "add_blockref" autoblock [AVal (VStr name); AVal (VTuple [VInt 0; VInt 0])]
          blockref]
    ++ attrib_calls values blockref before placeholders (S (length (heap w))) (2 + objects w).
Proof.
  intros Hblock Hdefs Htag autoblock blockref result. subst autoblock blockref result.
  match goal with |- snd (?m ?w0) = ?res /\ _ = ?t =>
    change (wp m w0 (fun w' r' => r' = res /\ trace w' = t))
  end.
  unfold add_auto_blockref. wp_run. rewrite Hblock. wp_run.
  match goal with |- wp (autofill _ ?b _) ?w1 ?Q =>
    pose proof (autofill_trace values b before placeholders Hdefs w1) as Hfill
  end.
  unfold wp at 1. unfold wp in Hfill. unfold autofill in *.
  rewrite for_each_app. destruct (for_each before _ _) as [w2 r2].
  cbn [fst snd] in *. destruct Hfill as (-> & _ & Htrace).
  cbn [heap objects trace] in Htrace. rewrite length_app in Htrace. cbn [length] in Htrace.
  rewrite Nat.add_1_r in Htrace.
  cbv beta iota.
  match goal with |- wp_cont ?k ?Q (fst (for_each ?xs ?body ?w0)) _ =>
    change (wp (for_each xs body) w0 (wp_cont k Q)) end.
  apply wp_for_each_cons. unfold get_dxfattribs, unpack. wp_run.
  apply wp_dict_pop_missing;
    [store_simpl; rewrite !lookup_delete_ne by discriminate; exact Htag |].
  wp_run. split; [reflexivity |]. rewrite Htrace, <- !app_assoc. reflexivity.
Qed.

End AutoBlockrefInsert.

Lemma auto_blockref_unknown_block_witness :
  snd (add_auto_blockref (E := example_externals) r2000_modelspace "TITLE"
         (VTuple [VInt 0; VInt 0]) ∅ None empty_world)
  = Raised (KeyError "TITLE") /\
  created (trace (fst (add_auto_blockref (E := example_externals) r2000_modelspace "TITLE"
                         (VTuple [VInt 0; VInt 0]) ∅ None empty_world)))
  = [].
Proof.
  destruct (auto_blockref_unknown_block (E := example_externals) r2000_modelspace "TITLE"
              (VTuple [VInt 0; VInt 0]) ∅ None empty_world eq_refl) as (Hres & _ & Hcreated).
  split; [exact Hres | exact Hcreated].
Defined.

Lemma auto_blockref_inserts_anonymous_block_witness :
  trace (fst (add_auto_blockref (E := example_externals) title_modelspace "TITLE"
                (VTuple [VInt 7; VInt 8]) {[ "NAME" := VStr "A-101" ]} None empty_world))
  = [EvCall "new_anonymous_block" (VStr "doc.blocks") [] (VObj 0);
     EvCall "add_blockref" (VObj 0) [AVal (VStr "TITLE"); AVal (VTuple [VInt 0; VInt 0])]
       (VObj 1);
     EvCall "add_attrib" (VObj 1)
       [AVal (VStr "NAME"); AVal (VStr "A-101"); AVal (VTuple [VInt 1; VInt 2]);
        ADict 1 (copied_attribs example_attdef)] (VObj 2);
     EvCreateDbEntry "INSERT" (<["insert" := VTuple [VInt 7; VInt 8]]> (<["name" := VNone]> ∅)) 3;
     EvAddEntity "Model" 3].
Proof.
  assert (Forall2 (fun attdef p => placeholder attdef (fst p) (snd p))
            [example_attdef] [("NAME", VTuple [VInt 1; VInt 2])]) as Hdefs.
  { apply Forall2_cons_2; [split; reflexivity | apply Forall2_nil_2]. }
  destruct (auto_blockref_inserts_anonymous_block (E := example_externals) title_modelspace
              "TITLE" (VTuple [VInt 7; VInt 8]) {[ "NAME" := VStr "A-101" ]} None empty_world
              [example_attdef] [("NAME", VTuple [VInt 1; VInt 2])] eq_refl Hdefs)
    as [_ Htrace].
  etransitivity; [exact Htrace | reflexivity].
Defined.

Lemma auto_blockref_stops_at_missing_tag_witness :
  snd (add_auto_blockref (E := example_externals) untagged_modelspace "TITLE"
         (VTuple [VInt 0; VInt 0]) ∅ None empty_world)
  = Raised (KeyError "tag") /\
  trace (fst (add_auto_blockref (E := example_externals) untagged_modelspace "TITLE"
                (VTuple [VInt 0; VInt 0]) ∅ None empty_world))
  = [EvCall "new_anonymous_block" (VStr "doc.blocks") [] (VObj 0);
     EvCall "add_blockref" (VObj 0) [AVal (VStr "TITLE"); AVal (VTuple [VInt 0; VInt 0])]
       (VObj 1);
     EvCall "add_attrib" (VObj 1)
       [AVal (VStr "NAME"); AVal (VStr ""); AVal (VTuple [VInt 1; VInt 2]);
        ADict 1 (copied_attribs example_attdef)] (VObj 2)].
Proof.
  assert (Forall2 (fun attdef p => placeholder attdef (fst p) (snd p))
            [example_attdef] [("NAME", VTuple [VInt 1; VInt 2])]) as Hdefs.
  { apply Forall2_cons_2; [split; reflexivity | apply Forall2_nil_2]. }
  destruct (auto_blockref_stops_at_missing_tag (E := example_externals) untagged_modelspace
              "TITLE" (VTuple [VInt 0; VInt 0]) ∅ None empty_world
              [example_attdef] [example_attdef] ∅ [("NAME", VTuple [VInt 1; VInt 2])]
              eq_refl Hdefs eq_refl) as [Hres Htrace].
  split; [exact Hres | etransitivity; [exact Htrace | reflexivity]].
Defined.

(** ** One call, one [new_entity] *)

Lemma own_entities_app (t1 t2 : list event) :
  own_entities (t1 ++ t2) = own_entities t1 ++ own_entities t2.
Proof. unfold own_entities. apply omap_app. Qed.

Lemma own_entities_snoc (t : list event) (e : event) :
  own_entities (t ++ [e])
  = own_entities t ++ match e with
                      | EvCreateDbEntry _ _ _ | EvAddEntity _ _ => [e]
                      | _ => []
                      end.
Proof. rewrite own_entities_app. destruct e; reflexivity. Qed.

Lemma own_entities_set_items (entity : value) (items : list value) (i : nat) :
  own_entities (imap (fun x point => EvSetItem entity (i + x) point) items) = [].
Proof.
  revert i. induction items as [| point items IH]; intros i; [reflexivity |].
  cbn [imap]. change (own_entities (?e :: ?t)) with (own_entities ([e] ++ t)).
  rewrite own_entities_app. cbn [own_entities omap list_omap app].
  rewrite <- (IH (S i)). f_equal. apply imap_ext. intros x point' _. cbn. f_equal. lia.
Qed.

Section OneEntity.
Context {E : Externals}.

Lemma set_items_add_no_entity (entity : value) (items : list value) (w : world) :
  wp (for_each (enumerate items) (fun '(x, point) => emit (EvSetItem entity x point))) w
    (fun w' r => r = Returned tt /\ own_entities (trace w') = own_entities (trace w)).
Proof.
  unfold wp, enumerate. rewrite set_items_from. cbn [fst snd trace].
  split; [reflexivity |]. rewrite own_entities_app, own_entities_set_items. apply app_nil_r.
Qed.

(** [autofill] calls no [new_entity], whether it fails or not. *)
Lemma autofill_adds_no_entity (values : attrs) (blockref : value) (attdefs : list attrs)
    (w : world) :
  wp (autofill values blockref attdefs) w
    (fun w' _ => own_entities (trace w') = own_entities (trace w)).
Proof.
  unfold autofill. revert w. induction attdefs as [| attdef attdefs IH]; intros w.
  - apply wp_for_each_nil. reflexivity.
  - unfold get_dxfattribs, unpack.
    repeat first
      [ wp_step
      | wp_case
      | apply wp_dict_pop_cases; [intros ? |]; store_simpl ].
    all: try reflexivity.
    all: try match goal with p : (value * value * value)%type |- _ => destruct p as [[? ?] ?] end.
    all: repeat first [wp_step | wp_case].
    all: try reflexivity.
    all: match goal with |- wp _ ?w1 _ => apply (wp_mono _ _ _ _ (IH w1)) end.
    all: intros w2 r ->; cbn [trace]; now rewrite own_entities_snoc, app_nil_r.
Qed.

(** A statement of a method, a loop, or a case distinction where the next
    statement depends on a value that is not known. *)
Ltac entity_step :=
  lazymatch goal with
  | |- wp_cont _ _ _ (Returned _) => wp_step
  | |- wp_cont _ _ _ (Raised _) => wp_step
  | |- wp_cont _ _ _ ?r => destruct r
  | |- wp (if ?b then _ else _) _ _ => destruct b
  | |- wp (for_each _ (fun '(x, point) => emit (EvSetItem _ x point))) _ _ =>
      let w' := fresh "w" in
      let Hown := fresh "Hown" in
      apply (wp_mono _ _ _ _ (set_items_add_no_entity _ _ _));
      intros w' ? [-> Hown]; cbn [trace] in Hown
  | |- wp (autofill _ _ _) _ _ =>
      let w' := fresh "w" in
      let Hown := fresh "Hown" in
      apply (wp_mono _ _ _ _ (autofill_adds_no_entity _ _ _ _));
      intros w' ? Hown; cbn [trace] in Hown
  | |- wp (match ?x with _ => _ end) _ _ => destruct x
  | |- _ => wp_step
  end.

Ltac entity_count :=
  cbn [trace];
  repeat first
    [ rewrite own_entities_snoc
    | match goal with H : own_entities (trace _) = _ |- _ => rewrite H end ];
  rewrite <- ?app_assoc; cbn [app]; rewrite ?app_nil_r;
  first
    [ exists []; split; [symmetry; apply app_nil_r |]; split; [left; reflexivity |];
      split; [| reflexivity];
      let Hreturned := fresh "Hreturned" in
      let Hforwards := fresh "Hforwards" in
      intros ? Hreturned Hforwards; first [discriminate Hreturned | discriminate Hforwards]
    | eexists; split; [reflexivity |]; split; [right; eexists _, _, _; reflexivity |];
      split; intros; discriminate ].

(** X21: no method calls its own [new_entity] more than once.  Of the
    entities a call asks of the database of its layout and adds to its entity
    space there is none, or one that is created and then added; there is one
    when the call returns, unless the method is one of the three that hand the
    work to a renderer, which have none.  What the collaborators create
    themselves is not counted. *)
Theorem one_new_entity_per_call (self : CreatorInterface) (r : request)
    (dxfattribs : option loc) (w : world) :
  exists made : list event,
    own_entities (trace (fst (perform self r dxfattribs w))) = own_entities (trace w) ++ made /\
    (made = [] \/
     exists kind a h, made = [EvCreateDbEntry kind a h; EvAddEntity (space self) h]) /\
    (forall v, snd (perform self r dxfattribs w) = Returned v ->
               forwards_dxfattribs r = false -> made <> []) /\
    (forwards_dxfattribs r = true -> made = []).
Proof.
  change (wp (perform self r dxfattribs) w
            (fun w' res => exists made : list event,
               own_entities (trace w') = own_entities (trace w) ++ made /\
               (made = [] \/
                exists kind a h, made = [EvCreateDbEntry kind a h; EvAddEntity (space self) h]) /\
               (forall v, res = Returned v -> forwards_dxfattribs r = false -> made <> []) /\
               (forwards_dxfattribs r = true -> made = []))).
  destruct r; cbn [perform forwards_dxfattribs].
  all: unfold add_point, add_line, add_circle, add_ellipse, add_arc, add_solid, add_trace,
         add_3dface, _add_quadrilateral, add_text, add_auto_blockref, add_attrib,
         add_polyline3d, add_polymesh, add_polyface, add_shape, add_lwpolyline, add_mtext,
         add_ray, add_xline, add_spline_control_frame, add_spline_approx, add_open_spline,
         add_closed_spline, add_rational_spline, add_closed_rational_spline, add_body,
         add_region, add_3dsolid, add_surface, add_extruded_surface, add_lofted_surface,
         add_revolved_surface, add_swept_surface, _add_acis_entiy, add_hatch, add_mesh,
         add_image, add_underlay, add_aligned_dim, add_linear_dim, add_multi_point_linear_dim,
         add_angular_dim, add_diameter_dim, add_radius_dim, add_angular_3p_dim,
         add_ordinate_dim, add_arrow, add_arrow_blockref, add_polyline2d, add_blockref,
         add_spline, set_knots.
  all: repeat entity_step.
  all: entity_count.
Qed.

End OneEntity.
